(** * wiki-summary: cache, rate limiter, token budget and request orchestration

    A shallow embedding of the backend of the wiki-summary service
    ([backend/cache.py], [backend/rate_limiter.py], [backend/summarizer.py],
    [backend/api.py]) together with the properties its specification states.

    Modelling conventions.
    - Python [str] values are Rocq [string]s read as ASCII text:
      [str.lower], [str.strip] and [str.encode] are modelled on the ASCII
      range, where UTF-8 encoding is the identity on character codes.
    - Readings of [time.time()] and the arithmetic on them are exact
      rationals ([Q]); IEEE rounding is not modelled.
    - The dictionaries of [SimpleCache] and [RateLimiter] are [gmap]s.
    - The module-level singletons [cache] and [rate_limiter], the clock and
      the logs of calls to the two collaborators (Wikipedia, the chat
      completion endpoint) form the [World] threaded by the monad [M]. *)

From Stdlib Require Import ZArith QArith Qround Lqa Ascii String List DecimalString.
From stdpp Require Import base option list gmap strings fin_maps.

Open Scope Z_scope.

(* ===================================================================== *)
(** * Python string primitives (ASCII) *)
(* ===================================================================== *)

Module PyStr.

Definition code (c : ascii) : Z := Z.of_N (N_of_ascii c).

Definition chr (z : Z) : ascii := ascii_of_N (Z.to_N z).

(** [str.isspace] on one ASCII character: TAB, LF, VT, FF, CR, the four
    separators FS GS RS US, and SPACE. *)
Definition isspace (c : ascii) : bool :=
  let n := code c in
  ((9 <=? n) && (n <=? 13)) || ((28 <=? n) && (n <=? 32)).

Definition lower_char (c : ascii) : ascii :=
  let n := code c in
  if (65 <=? n) && (n <=? 90) then chr (n + 32) else c.

(** [s.lower()] *)
Fixpoint lower (s : string) : string :=
  match s with
  | EmptyString => EmptyString
  | String c s' => String (lower_char c) (lower s')
  end.

(** [s.lstrip()] *)
Fixpoint lstrip (s : string) : string :=
  match s with
  | EmptyString => EmptyString
  | String c s' => if isspace c then lstrip s' else s
  end.

(** [s.rstrip()]: the trailing run of whitespace is dropped. *)
Fixpoint rstrip (s : string) : string :=
  match s with
  | EmptyString => EmptyString
  | String c s' =>
      match rstrip s' with
      | EmptyString => if isspace c then EmptyString else String c EmptyString
      | r => String c r
      end
  end.

(** [s.strip()] *)
Definition strip (s : string) : string := rstrip (lstrip s).

(** [s.encode()] restricted to ASCII text: one byte per character. *)
Definition encode (s : string) : list Z := map code (list_ascii_of_string s).

(** [len(s)] *)
Definition len (s : string) : Z := Z.of_nat (String.length s).

(** Truth value of a [str]: the empty string is false. *)
Definition truthy (s : string) : bool :=
  match s with EmptyString => false | _ => true end.

(** Truth value of an [Optional[str]]: [None] and [""] are false. *)
Definition truthy_opt (o : option string) : bool :=
  match o with Some s => truthy s | None => false end.

End PyStr.

(* ===================================================================== *)
(** * hashlib.md5 (RFC 1321) *)
(* ===================================================================== *)

Module MD5.

Definition w32 (x : Z) : Z := x mod 4294967296.

Definition rotl (x : Z) (c : Z) : Z :=
  w32 (Z.lor (Z.shiftl x c) (Z.shiftr x (32 - c))).

Definition not32 (x : Z) : Z := Z.lxor x 4294967295.

Definition K : list Z :=
  [ 3614090360; 3905402710; 606105819; 3250441966; 4118548399; 1200080426;
    2821735955; 4249261313; 1770035416; 2336552879; 4294925233; 2304563134;
    1804603682; 4254626195; 2792965006; 1236535329; 4129170786; 3225465664;
    643717713; 3921069994; 3593408605; 38016083; 3634488961; 3889429448;
    568446438; 3275163606; 4107603335; 1163531501; 2850285829; 4243563512;
    1735328473; 2368359562; 4294588738; 2272392833; 1839030562; 4259657740;
    2763975236; 1272893353; 4139469664; 3200236656; 681279174; 3936430074;
    3572445317; 76029189; 3654602809; 3873151461; 530742520; 3299628645;
    4096336452; 1126891415; 2878612391; 4237533241; 1700485571; 2399980690;
    4293915773; 2240044497; 1873313359; 4264355552; 2734768916; 1309151649;
    4149444226; 3174756917; 718787259; 3951481745 ].

Definition SHIFTS : list Z :=
  [ 7; 12; 17; 22; 7; 12; 17; 22; 7; 12; 17; 22; 7; 12; 17; 22;
    5; 9; 14; 20; 5; 9; 14; 20; 5; 9; 14; 20; 5; 9; 14; 20;
    4; 11; 16; 23; 4; 11; 16; 23; 4; 11; 16; 23; 4; 11; 16; 23;
    6; 10; 15; 21; 6; 10; 15; 21; 6; 10; 15; 21; 6; 10; 15; 21 ].

Definition nthZ (l : list Z) (i : Z) : Z := nth (Z.to_nat i) l 0.

(** Little-endian bytes of [x], [n] of them. *)
Fixpoint le_bytes (n : nat) (x : Z) : list Z :=
  match n with
  | O => []
  | S n' => (x mod 256) :: le_bytes n' (x / 256)
  end.

Fixpoint le_word (bs : list Z) : Z :=
  match bs with
  | [] => 0
  | b :: bs' => b + 256 * le_word bs'
  end.

(** Padding: a 1 bit, zeros up to 56 mod 64, the bit length on 64 bits. *)
Definition pad (msg : list Z) : list Z :=
  let n := Z.of_nat (length msg) in
  let zeros := (55 - n) mod 64 in
  msg ++ [128] ++ repeat 0 (Z.to_nat zeros) ++ le_bytes 8 ((8 * n) mod 2 ^ 64).

Fixpoint words (n : nat) (bs : list Z) : list Z :=
  match n with
  | O => []
  | S n' => le_word (firstn 4 bs) :: words n' (skipn 4 bs)
  end.

Record state := State { sa : Z; sb : Z; sc : Z; sd : Z }.

Definition init : state :=
  State 1732584193 4023233417 2562383102 271733878.

Definition round (m : list Z) (st : state) (i : Z) : state :=
  let '(State a b c d) := st in
  let '(f, g) :=
    if i <? 16 then (Z.lor (Z.land b c) (Z.land (not32 b) d), i)
    else if i <? 32 then
      (Z.lor (Z.land d b) (Z.land (not32 d) c), (5 * i + 1) mod 16)
    else if i <? 48 then (Z.lxor b (Z.lxor c d), (3 * i + 5) mod 16)
    else (Z.lxor c (Z.lor b (not32 d)), (7 * i) mod 16) in
  let f' := w32 (f + a + nthZ K i + nthZ m g) in
  State d (w32 (b + rotl f' (nthZ SHIFTS i))) b c.

Definition block (st : state) (bs : list Z) : state :=
  let m := words 16 bs in
  let '(State a b c d) :=
    fold_left (round m) (map Z.of_nat (seq 0 64)) st in
  State (w32 (sa st + a)) (w32 (sb st + b))
        (w32 (sc st + c)) (w32 (sd st + d)).

Fixpoint blocks (n : nat) (st : state) (bs : list Z) : state :=
  match n with
  | O => st
  | S n' => blocks n' (block st (firstn 64 bs)) (skipn 64 bs)
  end.

Definition digest (msg : list Z) : list Z :=
  let p := pad msg in
  let '(State a b c d) := blocks (length p / 64) init p in
  le_bytes 4 a ++ le_bytes 4 b ++ le_bytes 4 c ++ le_bytes 4 d.

Definition hex_digit (z : Z) : ascii :=
  if z <? 10 then PyStr.chr (48 + z) else PyStr.chr (87 + z).

Fixpoint hex (bs : list Z) : string :=
  match bs with
  | [] => EmptyString
  | b :: bs' => String (hex_digit (b / 16)) (String (hex_digit (b mod 16)) (hex bs'))
  end.

(** [hashlib.md5(msg).hexdigest()] *)
Definition hexdigest (msg : list Z) : string := hex (digest msg).

End MD5.

(* ===================================================================== *)
(** * Numbers: [float] readings of the clock as rationals *)
(* ===================================================================== *)

Definition Qlt_bool (x y : Q) : bool := (Qnum x * QDen y <? Qnum y * QDen x)%Z.

(** [int(x)] on a float: truncation toward zero. *)
Definition py_int (x : Q) : Z := Z.quot (Qnum x) (Zpos (Qden x)).

(** [len(l)] *)
Definition len {A} (l : list A) : Z := Z.of_nat (length l).

(** [min(l)]: the first least element; [None] stands for the [ValueError]
    Python raises on an empty sequence. *)
Definition py_min (l : list Q) : option Q :=
  match l with
  | [] => None
  | x :: l' => Some (fold_left (fun m y => if Qlt_bool y m then y else m) l' x)
  end.

(** [l[:n]]: a negative bound counts from the end. *)
Definition slice_to {A} (l : list A) (n : Z) : list A :=
  if 0 <=? n then firstn (Z.to_nat n) l
  else firstn (length l - Z.to_nat (- n)) l.

(** [s.replace(" ", "_")] *)
Fixpoint replace_space (s : string) : string :=
  match s with
  | EmptyString => EmptyString
  | String c s' =>
      String (if Ascii.eqb c " "%char then "_"%char else c) (replace_space s')
  end.

(* ===================================================================== *)
(** * backend/config.py *)
(* ===================================================================== *)

Record Settings := {
  openai_api_key : string;
  openai_model : string;
  max_summary_words : Z;
  max_input_tokens : Z;
  max_output_tokens : Z;
  temperature : Q;
  api_version : string;
  rate_limit_enabled : bool;
  rate_limit_per_minute : Z;
  cache_enabled : bool;
  cache_ttl_seconds : Z
}.

(** The field defaults of [Settings]. *)
Definition default_settings : Settings := {|
  openai_api_key := "";
  openai_model := "gpt-4o-mini";
  max_summary_words := 300;
  max_input_tokens := 6000;
  max_output_tokens := 500;
  temperature := 7 # 10;
  api_version := "1.0.0";
  rate_limit_enabled := true;
  rate_limit_per_minute := 10;
  cache_enabled := true;
  cache_ttl_seconds := 3600
|}.

(* ===================================================================== *)
(** * backend/exceptions.py, and the exceptions of the libraries *)
(* ===================================================================== *)

Inductive exn :=
| ValueError
| ArticleNotFoundError (query : string)
| SummarizationError (message : string)
| RateLimitError (retry_after : Z).

(** [exc.status_code] of the application's exceptions. *)
Definition status_code (e : exn) : option Z :=
  match e with
  | ValueError => None
  | ArticleNotFoundError _ => Some 404
  | SummarizationError _ => Some 500
  | RateLimitError _ => Some 429
  end.

Inductive result (A : Type) :=
| Ok (a : A)
| Raise (e : exn).
Arguments Ok {A} a.
Arguments Raise {A} e.

(* ===================================================================== *)
(** * The objects of the service and its environment *)
(* ===================================================================== *)

(** [SimpleCache]: entries are [(value, timestamp)] pairs. *)
Record SimpleCache := {
  cache : gmap string (string * Q);
  article_cache : gmap string (string * Q);
  ttl : Z
}.

(** [RateLimiter]: [requests] is a [defaultdict(list)]. *)
Record RateLimiter := {
  requests_per_minute : Z;
  requests : gmap string (list Q)
}.

(** The keyword arguments of [client.chat.completions.create]. *)
Record ChatRequest := {
  req_model : string;
  req_system : string;
  req_user : string;
  req_max_tokens : Z;
  req_temperature : Q
}.

(** A tiktoken encoding: [encode] may raise, [decode] is total. *)
Record Encoding := {
  encode : string -> option (list Z);
  decode : list Z -> string
}.

(** What the service does not control.
    - [clock k] is the value of the [k]-th call of [time.time()];
    - [wikipedia k query] is the outcome of the HTTP exchange of the [k]-th
      call of [fetch_wikipedia_article]: [None] on each path that ends in
      [return None, None], otherwise the cleaned text and the page title;
    - [encoding_for_model] and [get_encoding] are tiktoken's ([None] when
      they raise the [KeyError] or [ValueError] that [_get_encoding]
      catches);
    - [chat_completion k req] is [response.choices[0].message.content] of
      the [k]-th completion call, [None] when anything in the [try] raises. *)
Record Env := {
  env_settings : Settings;
  clock : nat -> Q;
  wikipedia : nat -> string -> option (string * string);
  encoding_for_model : string -> option Encoding;
  get_encoding : string -> option Encoding;
  chat_completion : nat -> ChatRequest -> option string
}.

Record World := {
  w_cache : SimpleCache;
  w_rate_limiter : RateLimiter;
  w_clock_reads : nat;
  w_fetch_log : list string;
  w_llm_log : list ChatRequest
}.

Definition with_cache (f : SimpleCache -> SimpleCache) (w : World) : World :=
  {| w_cache := f (w_cache w); w_rate_limiter := w_rate_limiter w;
     w_clock_reads := w_clock_reads w; w_fetch_log := w_fetch_log w;
     w_llm_log := w_llm_log w |}.

Definition with_rate_limiter (f : RateLimiter -> RateLimiter) (w : World) : World :=
  {| w_cache := w_cache w; w_rate_limiter := f (w_rate_limiter w);
     w_clock_reads := w_clock_reads w; w_fetch_log := w_fetch_log w;
     w_llm_log := w_llm_log w |}.

Definition tick (w : World) : World :=
  {| w_cache := w_cache w; w_rate_limiter := w_rate_limiter w;
     w_clock_reads := S (w_clock_reads w); w_fetch_log := w_fetch_log w;
     w_llm_log := w_llm_log w |}.

Definition log_fetch (query : string) (w : World) : World :=
  {| w_cache := w_cache w; w_rate_limiter := w_rate_limiter w;
     w_clock_reads := w_clock_reads w;
     w_fetch_log := w_fetch_log w ++ [query];
     w_llm_log := w_llm_log w |}.

Definition log_llm (req : ChatRequest) (w : World) : World :=
  {| w_cache := w_cache w; w_rate_limiter := w_rate_limiter w;
     w_clock_reads := w_clock_reads w; w_fetch_log := w_fetch_log w;
     w_llm_log := w_llm_log w ++ [req] |}.

Definition set_cache (c : gmap string (string * Q)) (self : SimpleCache) : SimpleCache :=
  {| cache := c; article_cache := article_cache self; ttl := ttl self |}.

Definition set_article_cache (c : gmap string (string * Q)) (self : SimpleCache) : SimpleCache :=
  {| cache := cache self; article_cache := c; ttl := ttl self |}.

Definition set_requests (r : gmap string (list Q)) (self : RateLimiter) : RateLimiter :=
  {| requests_per_minute := requests_per_minute self; requests := r |}.

(** [self.requests[client_id] = l] on the global [rate_limiter]. *)
Definition set_window (client_id : string) (l : list Q) (w : World) : World :=
  with_rate_limiter
    (fun self => set_requests (<[client_id := l]> (requests self)) self) w.

(* ===================================================================== *)
(** * The state and exception monad of the handlers *)
(* ===================================================================== *)

Definition M (A : Type) : Type := World -> result A * World.

Definition ret {A} (a : A) : M A := fun w => (Ok a, w).

Definition bind {A B} (m : M A) (f : A -> M B) : M B :=
  fun w =>
    match m w with
    | (Ok a, w') => f a w'
    | (Raise e, w') => (Raise e, w')
    end.

Definition raise {A} (e : exn) : M A := fun w => (Raise e, w).

Definition gets {A} (f : World -> A) : M A := fun w => (Ok (f w), w).

Definition modify (f : World -> World) : M unit := fun w => (Ok tt, f w).

Declare Scope py_scope.
Delimit Scope py_scope with py.
Notation "x <- m ;; k" := (bind m (fun x => k))
  (at level 100, m at next level, right associativity) : py_scope.
Notation "m ;;; k" := (bind m (fun _ => k))
  (at level 100, right associativity) : py_scope.
Open Scope py_scope.

Section Service.

Context (env : Env).

Local Abbreviation settings := (env_settings env).

(** [time.time()]: the next reading of the clock. *)
Definition time_time : M Q :=
  fun w => (Ok (clock env (w_clock_reads w)), tick w).

(* =================================================================== *)
(** ** backend/cache.py *)
(* =================================================================== *)

(** [SimpleCache._generate_key] *)
Definition _generate_key (query : string) : string :=
  MD5.hexdigest (PyStr.encode (PyStr.strip (PyStr.lower query))).

(** [SimpleCache.get] of the global [cache]. *)
Definition get (query : string) : M (option string) :=
  if negb (cache_enabled settings) then ret None
  else
    let key := _generate_key query in
    self <- gets w_cache ;;
    match cache self !! key with
    | Some (value, timestamp) =>
        now <- time_time ;;
        if Qlt_bool (now - timestamp)%Q (inject_Z (ttl self)) then
          ret (Some value)
        else
          modify (with_cache (fun c => set_cache (delete key (cache c)) c)) ;;;
          ret None
    | None => ret None
    end.

(** [SimpleCache.set] *)
Definition set (query summary : string) : M unit :=
  if negb (cache_enabled settings) then ret tt
  else
    let key := _generate_key query in
    now <- time_time ;;
    modify (with_cache (fun c => set_cache (<[key := (summary, now)]> (cache c)) c)).

(** [SimpleCache.get_article] *)
Definition get_article (query : string) : M (option string) :=
  if negb (cache_enabled settings) then ret None
  else
    let key := _generate_key query in
    self <- gets w_cache ;;
    match article_cache self !! key with
    | Some (value, timestamp) =>
        now <- time_time ;;
        if Qlt_bool (now - timestamp)%Q (inject_Z (ttl self)) then
          ret (Some value)
        else
          modify (with_cache
                    (fun c => set_article_cache (delete key (article_cache c)) c)) ;;;
          ret None
    | None => ret None
    end.

(** [SimpleCache.set_article] *)
Definition set_article (query article_text : string) : M unit :=
  if negb (cache_enabled settings) then ret tt
  else
    let key := _generate_key query in
    now <- time_time ;;
    modify (with_cache
              (fun c => set_article_cache
                          (<[key := (article_text, now)]> (article_cache c)) c)).

(** [SimpleCache.clear] *)
Definition clear : M unit :=
  modify (with_cache (fun c => set_cache ∅ c)) ;;;
  modify (with_cache (fun c => set_article_cache ∅ c)).

(** [SimpleCache.size] *)
Definition size : M Z :=
  self <- gets w_cache ;;
  ret (Z.of_nat (base.size (cache self))).

(* =================================================================== *)
(** ** backend/rate_limiter.py *)
(* =================================================================== *)

(** The value of [self.requests[client_id]]: a missing key reads as the
    empty list. *)
Definition window (self : RateLimiter) (client_id : string) : list Q :=
  default [] (requests self !! client_id).

(** [RateLimiter._clean_old_requests] *)
Definition _clean_old_requests (client_id : string) (current_time : Q) : M unit :=
  let minute_ago := (current_time - 60)%Q in
  modify (with_rate_limiter (fun self =>
    set_requests
      (<[client_id :=
           List.filter (fun req_time => Qlt_bool minute_ago req_time)
                       (window self client_id)]> (requests self))
      self)).

(** [RateLimiter.is_allowed] *)
Definition is_allowed (client_id : string) : M (bool * option Z) :=
  if negb (rate_limit_enabled settings) then ret (true, None)
  else
    current_time <- time_time ;;
    _clean_old_requests client_id current_time ;;;
    self <- gets w_rate_limiter ;;
    if requests_per_minute self <=? len (window self client_id) then
      match py_min (window self client_id) with
      | None => raise ValueError
      | Some oldest_request =>
          let retry_after :=
            py_int (60 - (current_time - oldest_request))%Q + 1 in
          ret (false, Some retry_after)
      end
    else
      modify (with_rate_limiter (fun self =>
        set_requests
          (<[client_id := window self client_id ++ [current_time]]>
             (requests self))
          self)) ;;;
      ret (true, None).

(** [n] admission checks of one client in a row, with their answers. *)
Fixpoint admissions (n : nat) (client_id : string) : M (list (bool * option Z)) :=
  match n with
  | O => ret []
  | S n' =>
      r <- is_allowed client_id ;;
      rs <- admissions n' client_id ;;
      ret (r :: rs)
  end.

(** [RateLimiter.reset] *)
Definition reset (client_id : string) : M unit :=
  modify (with_rate_limiter (fun self =>
    set_requests (delete client_id (requests self)) self)).

(* =================================================================== *)
(** ** backend/summarizer.py *)
(* =================================================================== *)

(** [_get_encoding]: the encoding of the model, else [cl100k_base], else
    [p50k_base], else a [ValueError]. *)
Definition _get_encoding (model : string) : result Encoding :=
  match encoding_for_model env model with
  | Some e => Ok e
  | None =>
      match get_encoding env "cl100k_base" with
      | Some e => Ok e
      | None =>
          match get_encoding env "p50k_base" with
          | Some e => Ok e
          | None => Raise ValueError
          end
      end
  end.

(** [count_tokens]: any exception falls back to [len(text) // 4]. *)
Definition count_tokens (text : string) (model : string) : Z :=
  match _get_encoding model with
  | Ok encoding =>
      match encode encoding text with
      | Some tokens => len tokens
      | None => PyStr.len text / 4
      end
  | Raise _ => PyStr.len text / 4
  end.

(** [truncate_to_tokens]: exceptions of the tokenizer propagate. *)
Definition truncate_to_tokens (text : string) (max_tokens : Z) (model : string)
  : result string :=
  match _get_encoding model with
  | Raise e => Raise e
  | Ok encoding =>
      match encode encoding text with
      | None => Raise ValueError
      | Some tokens =>
          if len tokens <=? max_tokens then Ok text
          else
            let truncated_tokens := slice_to tokens max_tokens in
            Ok (decode encoding truncated_tokens)
      end
  end.

Definition nl : string := String (ascii_of_nat 10) EmptyString.

(** [str(n)] of an [int]. *)
Definition str_of_int (n : Z) : string :=
  DecimalString.NilZero.string_of_int (Z.to_int n).

(** The f-string [prompt] of [summarize_article]. *)
Definition summary_prompt (max_words : Z) (truncated_text : string) : string :=
  ("Please provide a concise summary of the following Wikipedia article in approximately "
     ++ str_of_int max_words ++ " words or less. " ++ nl
     ++ "Focus on the main points, key facts, and important information. Write in clear, readable prose."
     ++ nl ++ nl ++ "Article content:" ++ nl
     ++ truncated_text ++ nl ++ nl ++ "Summary:")%string.

Definition summary_request (max_words : Z) (truncated_text : string) : ChatRequest :=
  {| req_model := openai_model settings;
     req_system := "You are a helpful assistant that creates clear, concise summaries of Wikipedia articles.";
     req_user := summary_prompt max_words truncated_text;
     req_max_tokens := max_output_tokens settings;
     req_temperature := temperature settings |}.

(** [client.chat.completions.create(...)] followed by
    [response.choices[0].message.content]: the request is logged and the
    environment answers. *)
Definition create_completion (req : ChatRequest) : M (option string) :=
  fun w => (Ok (chat_completion env (length (w_llm_log w)) req), log_llm req w).

(** [summarize_article] *)
Definition summarize_article (article_text : string) (max_words : option Z)
  : M (option string) :=
  let max_words :=
    match max_words with
    | None => max_summary_words settings
    | Some n => n
    end in
  match truncate_to_tokens article_text (max_input_tokens settings) "gpt-4o-mini" with
  | Raise e => raise e
  | Ok truncated_text =>
      content <- create_completion (summary_request max_words truncated_text) ;;
      match content with
      | Some c => ret (Some (PyStr.strip c))
      | None => ret None
      end
  end.

(* =================================================================== *)
(** ** backend/scraper.py *)
(* =================================================================== *)

(** [fetch_wikipedia_article]: [None] is the tuple [(None, None)];
    [Some (text, article_url)] is the tuple [(text, article_url)]. The
    HTTP exchange and the HTML parsing are the environment's;
    [fetch_result k query] is what the [k]-th call returns. *)
Definition fetch_result (k : nat) (query : string) : option (string * string) :=
  match wikipedia env k query with
  | None => None
  | Some (text, page_title) =>
      let article_url :=
        ("https://en.wikipedia.org/wiki/" ++ replace_space page_title)%string in
      Some (text, article_url)
  end.

Definition fetch_wikipedia_article (query : string) : M (option (string * string)) :=
  fun w => (Ok (fetch_result (length (w_fetch_log w)) query), log_fetch query w).

(* =================================================================== *)
(** ** backend/api.py *)
(* =================================================================== *)

Record SummarizeResponse := {
  resp_query : string;
  resp_summary : string;
  resp_source_url : string
}.

(** [get_client_id]: [client] is [request.client.host], when there is one. *)
Definition get_client_id (client : option string) : string :=
  match client with
  | Some host => host
  | None => "unknown"
  end.

(** [check_rate_limit] *)
Definition check_rate_limit (client : option string) : M unit :=
  let client_id := get_client_id client in
  r <- is_allowed client_id ;;
  let '(allowed, retry_after) := r in
  if negb allowed then
    raise (RateLimitError
             (match retry_after with
              | Some n => if n =? 0 then 60 else n
              | None => 60
              end))
  else ret tt.

(** Lines 101-110 of [summarize_wikipedia], the block under
    [if cached_summary:]. [Some response] is its [return]; [None] means
    that control falls out of the block. *)
Definition respond_from_cache (query cached_summary : string)
  : M (option SummarizeResponse) :=
  fetched <- fetch_wikipedia_article query ;;
  match fetched with
  | Some (article_text, article_url) =>
      if PyStr.truthy article_url then
        cached_article <- get_article query ;;
        (if negb (PyStr.truthy_opt cached_article)
         then set_article query article_text
         else ret tt) ;;;
        ret (Some {| resp_query := query;
                     resp_summary := cached_summary;
                     resp_source_url := article_url |})
      else ret None
  | None => ret None
  end.

Definition summarization_failed : string :=
  "Failed to generate summary. Please check your OpenAI API key.".

(** Lines 112-129 of [summarize_wikipedia]: fetch, summarize, store. *)
Definition summarize_uncached (query : string) : M SummarizeResponse :=
  fetched <- fetch_wikipedia_article query ;;
  match fetched with
  | None => raise (ArticleNotFoundError query)
  | Some (article_text, article_url) =>
      if negb (PyStr.truthy article_text) || negb (PyStr.truthy article_url)
      then raise (ArticleNotFoundError query)
      else
        set_article query article_text ;;;
        summary <- summarize_article article_text None ;;
        match summary with
        | None => raise (SummarizationError summarization_failed)
        | Some summary =>
            if negb (PyStr.truthy summary) then
              raise (SummarizationError summarization_failed)
            else
              set query summary ;;;
              ret {| resp_query := query;
                     resp_summary := summary;
                     resp_source_url := article_url |}
        end
  end.

(** The body of the handler [summarize_wikipedia] of [POST /summarize]:
    the lookup of line 100, the block of lines 101-110 when the cached
    summary is true, and lines 112-129 unless that block returned. *)
Definition summarize_wikipedia (request_query : string) : M SummarizeResponse :=
  let query := PyStr.strip request_query in
  cached_summary <- get query ;;
  returned <-
    match cached_summary with
    | Some cached_summary =>
        if PyStr.truthy cached_summary
        then respond_from_cache query cached_summary
        else ret None
    | None => ret None
    end ;;
  match returned with
  | Some response => ret response
  | None => summarize_uncached query
  end.

(** [POST /summarize] with its dependency [check_rate_limit]. *)
Definition post_summarize (client : option string) (request_query : string)
  : M SummarizeResponse :=
  check_rate_limit client ;;;
  summarize_wikipedia request_query.

Record CacheStats := {
  stats_enabled : bool;
  stats_size : Z;
  stats_ttl_seconds : Z
}.

(** [GET /cache/stats] *)
Definition cache_stats : M CacheStats :=
  n <- size ;;
  ret {| stats_enabled := cache_enabled settings;
         stats_size := n;
         stats_ttl_seconds := cache_ttl_seconds settings |}.

Record Health := {
  health_status : string;
  health_version : string;
  health_cache_enabled : bool;
  health_cache_size : Z;
  health_api_key_configured : bool
}.

(** [GET /health] *)
Definition health_check : M Health :=
  n <- size ;;
  ret {| health_status := "ok";
         health_version := api_version settings;
         health_cache_enabled := cache_enabled settings;
         health_cache_size := n;
         health_api_key_configured := PyStr.truthy (openai_api_key settings) |}.

(** [DELETE /cache/clear] *)
Definition clear_cache : M string :=
  clear ;;;
  ret "Cache cleared successfully"%string.

End Service.

(** The module-level instances [cache] and [rate_limiter] as constructed at
    import time, before any request. *)
Definition initial_world (settings : Settings) : World :=
  {| w_cache := {| cache := ∅; article_cache := ∅;
                   ttl := cache_ttl_seconds settings |};
     w_rate_limiter := {| requests_per_minute := rate_limit_per_minute settings;
                          requests := ∅ |};
     w_clock_reads := 0;
     w_fetch_log := [];
     w_llm_log := [] |}.

(** The timestamps of the client's window that survive the pruning made
    at the reading [now]. *)
Definition remaining_at (now : Q) (w : World) (client_id : string) : list Q :=
  List.filter (fun req_time => Qlt_bool (now - 60) req_time)
              (window (w_rate_limiter w) client_id).

(** The two components of the tuple returned by [fetch_wikipedia_article]. *)
Definition article_text_of (r : option (string * string)) : option string := fst <$> r.
Definition article_url_of (r : option (string * string)) : option string := snd <$> r.

(** The retry hint as the specification words it:
    [ceil(60 - (now - oldest)) + 1]. *)
Definition retry_after_as_specified (now oldest : Q) : Z :=
  Qceiling (60 - (now - oldest)) + 1.

(* ===================================================================== *)
(** * backend/chat.py and the handler of [POST /chat] *)
(* ===================================================================== *)

Section Chat.

Context (env : Env).

Local Abbreviation settings := (env_settings env).

(** [system_prompt] of [answer_question]. *)
Definition answer_system_prompt : string :=
  ("You are a helpful assistant that answers questions based ONLY on the provided Wikipedia article content. "
     ++ nl
     ++ "If the question cannot be answered from the article, politely state that the information is not available in this article."
     ++ nl
     ++ "Do not use any external knowledge - only use information from the article text provided.")%string.

(** The f-string [user_prompt] of [answer_question]. *)
Definition answer_prompt (article_title question truncated_text : string) : string :=
  ("Based on the following Wikipedia article"
     ++ (if PyStr.truthy article_title then " about " ++ article_title else "")
     ++ ", please answer this question:" ++ nl ++ nl
     ++ "Question: " ++ question ++ nl ++ nl
     ++ "Article content:" ++ nl
     ++ truncated_text ++ nl ++ nl
     ++ "Answer (based only on the article above):")%string.

Definition answer_request (article_title question truncated_text : string)
  : ChatRequest :=
  {| req_model := openai_model settings;
     req_system := answer_system_prompt;
     req_user := answer_prompt article_title question truncated_text;
     req_max_tokens := max_output_tokens settings;
     req_temperature := 3 # 10 |}.

(** [answer_question]: the article is cut to [max_input_tokens - 500]
    tokens before the [try]; [input_tokens] is only logged. *)
Definition answer_question (article_text question article_title : string)
  : M (option string) :=
  match truncate_to_tokens env article_text (max_input_tokens settings - 500)
          "gpt-4o-mini" with
  | Raise e => raise e
  | Ok truncated_text =>
      let input_tokens := count_tokens env truncated_text "gpt-4o-mini" in
      content <- create_completion env
                   (answer_request article_title question truncated_text) ;;
      match content with
      | Some c => ret (Some (PyStr.strip c))
      | None => ret None
      end
  end.

Record ChatResponse := {
  chat_question : string;
  chat_answer : string;
  chat_article_query : string
}.

Definition answer_failed : string :=
  "Failed to generate answer. Please check your OpenAI API key.".

(** Lines 159-162 of [chat_about_article], the block under
    [if not article_text:]; it yields the new value of [article_text]. *)
Definition fetch_article_for_chat (query : string) : M string :=
  fetched <- fetch_wikipedia_article env query ;;
  match fetched with
  | None => raise (ArticleNotFoundError query)
  | Some (article_text, article_url) =>
      if negb (PyStr.truthy article_text) then raise (ArticleNotFoundError query)
      else
        set_article env query article_text ;;;
        ret article_text
  end.

(** The body of the handler [chat_about_article] of [POST /chat]. *)
Definition chat_about_article (request_query request_question : string)
  : M ChatResponse :=
  let query := PyStr.strip request_query in
  let question := PyStr.strip request_question in
  cached <- get_article env query ;;
  article_text <-
    match cached with
    | Some article_text =>
        if negb (PyStr.truthy article_text) then fetch_article_for_chat query
        else ret article_text
    | None => fetch_article_for_chat query
    end ;;
  answer <- answer_question article_text question query ;;
  match answer with
  | None => raise (SummarizationError answer_failed)
  | Some answer =>
      if negb (PyStr.truthy answer) then raise (SummarizationError answer_failed)
      else ret {| chat_question := question;
                  chat_answer := answer;
                  chat_article_query := query |}
  end.

(** [POST /chat] with its dependency [check_rate_limit]. *)
Definition post_chat (client : option string) (request_query request_question : string)
  : M ChatResponse :=
  check_rate_limit env client ;;;
  chat_about_article request_query request_question.

End Chat.

Section ChatPhases.

Context (env : Env).

Local Abbreviation settings := (env_settings env).

(** How [chat_about_article] ends once it holds the article text, in the
    world [w2]. *)
Definition answer_phase (request_query request_question article_text : string)
           (w w2 : World) : Prop :=
  let query := PyStr.strip request_query in
  let question := PyStr.strip request_question in
  let run := chat_about_article env request_query request_question w in
  match truncate_to_tokens env article_text (max_input_tokens settings - 500)
          "gpt-4o-mini" with
  | Raise e => run = (Raise e, w2)
  | Ok truncated =>
      let req := answer_request env query question truncated in
      let w3 := log_llm req w2 in
      match PyStr.strip <$> chat_completion env (length (w_llm_log w2)) req with
      | Some answer =>
          if PyStr.truthy answer then
            run = (Ok {| chat_question := question; chat_answer := answer;
                         chat_article_query := query |}, w3)
          else run = (Raise (SummarizationError answer_failed), w3)
      | None => run = (Raise (SummarizationError answer_failed), w3)
      end
  end.

End ChatPhases.

(* ===================================================================== *)
(** * backend/scraper.py: the cleaning of the extracted text *)
(* ===================================================================== *)

(** The line boundaries of [str.splitlines] in the ASCII range: LF, VT,
    FF, CR, FS, GS and RS. *)
Definition is_linebreak (c : ascii) : bool :=
  let n := PyStr.code c in
  ((10 <=? n) && (n <=? 13)) || ((28 <=? n) && (n <=? 30)).

(** [c] put in front of the first string of [l]. *)
Definition cons_first (c : ascii) (l : list string) : list string :=
  match l with
  | [] => [String c EmptyString]
  | p :: ps => String c p :: ps
  end.

(** [s.splitlines()]: CR LF is one boundary, and a boundary at the very
    end opens no further line. *)
Fixpoint splitlines (s : string) : list string :=
  match s with
  | EmptyString => []
  | String c s' =>
      if is_linebreak c then
        match s' with
        | String c2 s'' =>
            if (PyStr.code c =? 13) && (PyStr.code c2 =? 10)
            then EmptyString :: splitlines s''
            else EmptyString :: splitlines s'
        | EmptyString => EmptyString :: splitlines s'
        end
      else cons_first c (splitlines s')
  end.

(** [s.split("  ")]: the occurrences of two spaces are found from the
    left and do not overlap. *)
Fixpoint split_double_space (s : string) : list string :=
  match s with
  | EmptyString => [EmptyString]
  | String c s' =>
      match s' with
      | String c2 s'' =>
          if (PyStr.code c =? 32) && (PyStr.code c2 =? 32)
          then EmptyString :: split_double_space s''
          else cons_first c (split_double_space s')
      | EmptyString => cons_first c (split_double_space s')
      end
  end.

(** [' '.join(l)] *)
Fixpoint join_space (l : list string) : string :=
  match l with
  | [] => EmptyString
  | x :: l' =>
      match l' with
      | [] => x
      | _ => (x ++ " " ++ join_space l')%string
      end
  end.

(** Lines 68-70 of [fetch_wikipedia_article]: the text of the page is
    split into stripped lines, each line at double spaces into stripped
    phrases, and the phrases that are not empty are joined by one space. *)
Definition clean_text (text : string) : string :=
  let lines := map PyStr.strip (splitlines text) in
  let chunks := map PyStr.strip (flat_map split_double_space lines) in
  join_space (List.filter PyStr.truthy chunks).

(** The characters of a [hexdigest]. *)
Definition is_hex_char (c : ascii) : bool :=
  existsb (Ascii.eqb c) (list_ascii_of_string "0123456789abcdef").

(** Whether a string holds a line boundary. *)
Definition has_linebreak (s : string) : bool :=
  existsb is_linebreak (list_ascii_of_string s).

(** Whether a string begins with a space. *)
Definition starts_with_space (s : string) : bool :=
  match s with
  | String c _ => PyStr.code c =? 32
  | EmptyString => false
  end.

(** Whether a string holds two spaces in a row. *)
Fixpoint has_double_space (s : string) : bool :=
  match s with
  | EmptyString => false
  | String c s' =>
      ((PyStr.code c =? 32) && starts_with_space s') || has_double_space s'
  end.

(** Whether a string holds a space character. *)
Definition has_space (s : string) : bool :=
  existsb (Ascii.eqb " "%char) (list_ascii_of_string s).

(** A chunk as [clean_text] joins them: not empty, trimmed, on one line
    and without double space. *)
Definition tidy (s : string) : Prop :=
  match s with
  | String c _ => PyStr.isspace c = false
  | EmptyString => False
  end /\
  PyStr.rstrip s = s /\
  has_linebreak s = false /\
  has_double_space s = false.

(** The prefix of every article URL. *)
Definition wiki_prefix : string := "https://en.wikipedia.org/wiki/".

(* ===================================================================== *)
(** * Example environments *)
(* ===================================================================== *)

(** A tokenizer with one token per character. *)
Definition char_encoding : Encoding :=
  {| encode := fun s => Some (PyStr.encode s);
     decode := fun l => string_of_list_ascii (map PyStr.chr l) |}.

(** An environment where every collaborator answers: the clock shows
    [k] seconds at its [k]-th reading. *)
Definition env_demo (s : Settings) : Env :=
  {| env_settings := s;
     clock := fun k => inject_Z (Z.of_nat k);
     wikipedia := fun _ q => Some ("Rocq is a proof assistant.", "Rocq (software)")%string;
     encoding_for_model := fun _ => Some char_encoding;
     get_encoding := fun _ => Some char_encoding;
     chat_completion := fun _ _ => Some " A proof assistant. "%string |}.

(** A world where the summary and the article of the query ["Rocq"] were
    stored at the clock's readings 0 and 1. *)
Definition world_cached : World :=
  snd (set_article (env_demo default_settings) "Rocq" "Rocq is a proof assistant."
         (snd (set (env_demo default_settings) "Rocq" "A proof assistant."
                 (initial_world default_settings)))).

(** The default settings with rate limiting switched off. *)
Definition settings_unlimited : Settings :=
  {| openai_api_key := ""; openai_model := "gpt-4o-mini";
     max_summary_words := 300; max_input_tokens := 6000;
     max_output_tokens := 500; temperature := 7 # 10;
     api_version := "1.0.0";
     rate_limit_enabled := false; rate_limit_per_minute := 10;
     cache_enabled := true; cache_ttl_seconds := 3600 |}.

(** The default settings with caching switched off. *)
Definition settings_uncached : Settings :=
  {| openai_api_key := ""; openai_model := "gpt-4o-mini";
     max_summary_words := 300; max_input_tokens := 6000;
     max_output_tokens := 500; temperature := 7 # 10;
     api_version := "1.0.0";
     rate_limit_enabled := true; rate_limit_per_minute := 10;
     cache_enabled := false; cache_ttl_seconds := 3600 |}.

(** [env_demo] on a machine where tiktoken finds no encoding. *)
Definition env_offline : Env :=
  {| env_settings := default_settings;
     clock := fun k => inject_Z (Z.of_nat k);
     wikipedia := fun _ q => Some ("Rocq is a proof assistant.", "Rocq (software)")%string;
     encoding_for_model := fun _ => None;
     get_encoding := fun _ => None;
     chat_completion := fun _ _ => Some " A proof assistant. "%string |}.

(** [env_demo] with a clock that advances a quarter of a second per
    reading. *)
Definition env_quarter_seconds : Env :=
  {| env_settings := default_settings;
     clock := fun k => Z.of_nat k # 4;
     wikipedia := fun _ q => Some ("Rocq is a proof assistant.", "Rocq (software)")%string;
     encoding_for_model := fun _ => Some char_encoding;
     get_encoding := fun _ => Some char_encoding;
     chat_completion := fun _ _ => Some " A proof assistant. "%string |}.

(** Wikipedia fails on the second fetch only, and the model words its
    second answer differently. *)
Definition env_flaky : Env :=
  {| env_settings := default_settings;
     clock := fun k => inject_Z (Z.of_nat k);
     wikipedia := fun k q =>
       if Nat.eqb k 1 then None
       else Some ("Rocq is a proof assistant.", "Rocq (software)")%string;
     encoding_for_model := fun _ => Some char_encoding;
     get_encoding := fun _ => Some char_encoding;
     chat_completion := fun k _ =>
       if Nat.eqb k 0 then Some "First summary."%string
       else Some "Second summary."%string |}.

(** Wikipedia answers the first fetch and none after it. *)
Definition env_outage : Env :=
  {| env_settings := default_settings;
     clock := fun k => inject_Z (Z.of_nat k);
     wikipedia := fun k q =>
       if Nat.eqb k 0
       then Some ("Rocq is a proof assistant.", "Rocq (software)")%string
       else None;
     encoding_for_model := fun _ => Some char_encoding;
     get_encoding := fun _ => Some char_encoding;
     chat_completion := fun _ _ => Some " A proof assistant. "%string |}.

(** [env_demo] with a clock that advances an hour per reading. *)
Definition env_hourly : Env :=
  {| env_settings := default_settings;
     clock := fun k => inject_Z (3600 * Z.of_nat k);
     wikipedia := fun _ q => Some ("Rocq is a proof assistant.", "Rocq (software)")%string;
     encoding_for_model := fun _ => Some char_encoding;
     get_encoding := fun _ => Some char_encoding;
     chat_completion := fun _ _ => Some " A proof assistant. "%string |}.

(** The world of [env_hourly] once the summary of ["Rocq"] was stored at
    the clock's reading 0. *)
Definition world_stale : World :=
  snd (set env_hourly "Rocq" "A proof assistant." (initial_world default_settings)).

(** Wikipedia has no page for any query. *)
Definition env_down : Env :=
  {| env_settings := default_settings;
     clock := fun k => inject_Z (Z.of_nat k);
     wikipedia := fun _ _ => None;
     encoding_for_model := fun _ => Some char_encoding;
     get_encoding := fun _ => Some char_encoding;
     chat_completion := fun _ _ => Some " A proof assistant. "%string |}.

(** The initial world with a limiter built by
    [RateLimiter(requests_per_minute=0)]. *)
Definition world_limit_zero : World :=
  with_rate_limiter
    (fun self => {| requests_per_minute := 0; requests := requests self |})
    (initial_world default_settings).

(** The world after one admitted check of the client ["10.0.0.7"]. *)
Definition world_checked : World :=
  snd (is_allowed (env_demo default_settings) "10.0.0.7"
         (initial_world default_settings)).

(** The world after one successful [/summarize] of ["Rocq"]. *)
Definition world_after (env : Env) : World :=
  snd (summarize_wikipedia env "Rocq" (initial_world (env_settings env))).

(** The response of [env_demo] to the query ["Rocq"]. *)
Definition response_demo (summary : string) : SummarizeResponse :=
  {| resp_query := "Rocq"; resp_summary := summary;
     resp_source_url := "https://en.wikipedia.org/wiki/Rocq_(software)" |}.

(* ===================================================================== *)
(** * Properties *)
(* ===================================================================== *)

(** ** Arithmetic of the clock *)

Lemma Qlt_bool_true (x y : Q) : Qlt_bool x y = true <-> (x < y)%Q.
Proof. unfold Qlt_bool, Qlt. apply Z.ltb_lt. Qed.

Lemma Qlt_bool_false (x y : Q) : Qlt_bool x y = false <-> (y <= x)%Q.
Proof. unfold Qlt_bool, Qle. apply Z.ltb_ge. Qed.

Lemma py_int_nonneg (x : Q) : (0 <= x)%Q -> py_int x = Qfloor x.
Proof.
  destruct x as [n d]. unfold py_int, Qfloor, Qle. simpl. intros H.
  apply Z.quot_div_nonneg; lia.
Qed.

(** ** Lists of timestamps *)

Lemma py_min_fold_spec (l : list Q) (x : Q) :
  let m := fold_left (fun m y => if Qlt_bool y m then y else m) l x in
  (m = x \/ In m l) /\ (m <= x)%Q /\ (forall t, In t l -> (m <= t)%Q).
Proof.
  revert x. induction l as [|y l IH]; intros x; simpl.
  - split; [left; reflexivity|]. split; [lra | intros t []].
  - destruct (Qlt_bool y x) eqn:Hyx.
    + apply Qlt_bool_true in Hyx. destruct (IH y) as [Hin [Hle Hall]].
      split; [right; destruct Hin as [->|Hin]; [left; reflexivity | right; exact Hin]|].
      split; [lra|]. intros t [<-|Ht]; [exact Hle | exact (Hall t Ht)].
    + apply Qlt_bool_false in Hyx. destruct (IH x) as [Hin [Hle Hall]].
      split; [destruct Hin as [->|Hin]; [left; reflexivity | right; right; exact Hin]|].
      split; [exact Hle|]. intros t [<-|Ht]; [lra | exact (Hall t Ht)].
Qed.

Lemma py_min_spec (l : list Q) (m : Q) :
  py_min l = Some m -> In m l /\ (forall t, In t l -> (m <= t)%Q).
Proof.
  destruct l as [|x l]; simpl; [discriminate|]. intros H. inversion H as [Hm].
  destruct (py_min_fold_spec l x) as [Hin [Hle Hall]]. split.
  - destruct Hin as [->|Hin]; [left; reflexivity | right; exact Hin].
  - intros t [<-|Ht]; [exact Hle | exact (Hall t Ht)].
Qed.

Lemma py_min_nonempty (l : list Q) : l <> [] -> exists m, py_min l = Some m.
Proof. destruct l; [congruence | intros _; eexists; reflexivity]. Qed.

Lemma filter_fresh_In (bound : Q) (l : list Q) (t : Q) :
  In t (List.filter (fun s => Qlt_bool bound s) l) <-> In t l /\ (bound < t)%Q.
Proof. rewrite filter_In, Qlt_bool_true. reflexivity. Qed.

Lemma filter_all_fresh (bound : Q) (l : list Q) :
  (forall s, In s l -> (bound < s)%Q) ->
  List.filter (fun s => Qlt_bool bound s) l = l.
Proof.
  induction l as [|x l IH]; intros H; simpl; [reflexivity|].
  assert (Hx : Qlt_bool bound x = true) by (apply Qlt_bool_true, H; left; reflexivity).
  rewrite Hx, IH; [reflexivity|]. intros s Hs. apply H. right. exact Hs.
Qed.

Lemma filter_all_stale (bound : Q) (l : list Q) :
  (forall s, In s l -> (s <= bound)%Q) ->
  List.filter (fun s => Qlt_bool bound s) l = [].
Proof.
  induction l as [|x l IH]; intros H; simpl; [reflexivity|].
  assert (Hx : Qlt_bool bound x = false) by (apply Qlt_bool_false, H; left; reflexivity).
  rewrite Hx. apply IH. intros s Hs. apply H. right. exact Hs.
Qed.

Lemma filter_length_le {A} (f : A -> bool) (l : list A) :
  (length (List.filter f l) <= length l)%nat.
Proof.
  induction l as [|x l IH]; simpl; [lia|]. destruct (f x); simpl; lia.
Qed.

Section Properties.

Context (env : Env).

Local Abbreviation settings := (env_settings env).

(** ** The cache *)

Lemma get_hit w query value timestamp :
  cache_enabled settings = true ->
  cache (w_cache w) !! _generate_key query = Some (value, timestamp) ->
  (clock env (w_clock_reads w) - timestamp < inject_Z (ttl (w_cache w)))%Q ->
  get env query w = (Ok (Some value), tick w).
Proof.
  intros He Hl Hf. apply Qlt_bool_true in Hf.
  unfold get, bind, gets, time_time. rewrite He. simpl. rewrite Hl. simpl.
  rewrite Hf. reflexivity.
Qed.

Lemma get_expired w query value timestamp :
  cache_enabled settings = true ->
  cache (w_cache w) !! _generate_key query = Some (value, timestamp) ->
  (inject_Z (ttl (w_cache w)) <= clock env (w_clock_reads w) - timestamp)%Q ->
  get env query w =
    (Ok None,
     with_cache (fun c => set_cache (delete (_generate_key query) (cache c)) c)
                (tick w)).
Proof.
  intros He Hl Hf. apply Qlt_bool_false in Hf.
  unfold get, bind, gets, time_time, modify. rewrite He. simpl. rewrite Hl. simpl.
  rewrite Hf. reflexivity.
Qed.

Lemma get_absent w query :
  cache (w_cache w) !! _generate_key query = None ->
  get env query w = (Ok None, w).
Proof.
  intros Hl. unfold get, bind, gets.
  destruct (cache_enabled settings); simpl; [rewrite Hl|]; reflexivity.
Qed.

Lemma get_article_hit w query value timestamp :
  cache_enabled settings = true ->
  article_cache (w_cache w) !! _generate_key query = Some (value, timestamp) ->
  (clock env (w_clock_reads w) - timestamp < inject_Z (ttl (w_cache w)))%Q ->
  get_article env query w = (Ok (Some value), tick w).
Proof.
  intros He Hl Hf. apply Qlt_bool_true in Hf.
  unfold get_article, bind, gets, time_time. rewrite He. simpl. rewrite Hl. simpl.
  rewrite Hf. reflexivity.
Qed.

Lemma get_article_expired w query value timestamp :
  cache_enabled settings = true ->
  article_cache (w_cache w) !! _generate_key query = Some (value, timestamp) ->
  (inject_Z (ttl (w_cache w)) <= clock env (w_clock_reads w) - timestamp)%Q ->
  get_article env query w =
    (Ok None,
     with_cache
       (fun c => set_article_cache (delete (_generate_key query) (article_cache c)) c)
       (tick w)).
Proof.
  intros He Hl Hf. apply Qlt_bool_false in Hf.
  unfold get_article, bind, gets, time_time, modify. rewrite He. simpl.
  rewrite Hl. simpl. rewrite Hf. reflexivity.
Qed.

Lemma get_article_absent w query :
  article_cache (w_cache w) !! _generate_key query = None ->
  get_article env query w = (Ok None, w).
Proof.
  intros Hl. unfold get_article, bind, gets.
  destruct (cache_enabled settings); simpl; [rewrite Hl|]; reflexivity.
Qed.

(** C1. With caching enabled, [get] returns the stored value exactly when
    the key has an entry whose age [now - storedAt] is below the TTL; an
    entry whose age has reached the TTL (equality included) is deleted by
    the read and the miss [None] is returned; a key without entry is a
    miss that changes nothing. The same holds of [get_article] on the
    article table. [now] is the reading of the clock the accessor makes. *)
Theorem get_returns_stored_value_iff_fresh (w : World) (query : string) :
  cache_enabled settings = true ->
  let key := _generate_key query in
  let now := clock env (w_clock_reads w) in
  let ttl_seconds := inject_Z (ttl (w_cache w)) in
  ((forall value,
       fst (get env query w) = Ok (Some value) <->
       exists storedAt,
         cache (w_cache w) !! key = Some (value, storedAt) /\
         (now - storedAt < ttl_seconds)%Q) /\
   (forall value storedAt,
       cache (w_cache w) !! key = Some (value, storedAt) ->
       (now - storedAt < ttl_seconds)%Q ->
       get env query w = (Ok (Some value), tick w)) /\
   (forall value storedAt,
       cache (w_cache w) !! key = Some (value, storedAt) ->
       (ttl_seconds <= now - storedAt)%Q ->
       get env query w =
         (Ok None,
          with_cache (fun c => set_cache (delete key (cache c)) c) (tick w))) /\
   (cache (w_cache w) !! key = None -> get env query w = (Ok None, w)))
  /\
  ((forall value,
       fst (get_article env query w) = Ok (Some value) <->
       exists storedAt,
         article_cache (w_cache w) !! key = Some (value, storedAt) /\
         (now - storedAt < ttl_seconds)%Q) /\
   (forall value storedAt,
       article_cache (w_cache w) !! key = Some (value, storedAt) ->
       (now - storedAt < ttl_seconds)%Q ->
       get_article env query w = (Ok (Some value), tick w)) /\
   (forall value storedAt,
       article_cache (w_cache w) !! key = Some (value, storedAt) ->
       (ttl_seconds <= now - storedAt)%Q ->
       get_article env query w =
         (Ok None,
          with_cache
            (fun c => set_article_cache (delete key (article_cache c)) c)
            (tick w))) /\
   (article_cache (w_cache w) !! key = None ->
    get_article env query w = (Ok None, w))).
Proof.
  intros He key now ttl_seconds. split.
  - repeat split.
    + intros Hr.
      destruct (cache (w_cache w) !! key) as [[v ts]|] eqn:Hl.
      * destruct (Qlt_le_dec (now - ts) ttl_seconds) as [Hf|Hx].
        -- rewrite (get_hit w query v ts He Hl Hf) in Hr. simpl in Hr.
           inversion Hr; subst. exists ts. split; [reflexivity | exact Hf].
        -- rewrite (get_expired w query v ts He Hl Hx) in Hr. discriminate.
      * rewrite (get_absent w query Hl) in Hr. discriminate.
    + intros [ts [Hl Hf]]. rewrite (get_hit w query value ts He Hl Hf).
      reflexivity.
    + intros v ts Hl Hf. exact (get_hit w query v ts He Hl Hf).
    + intros v ts Hl Hx. exact (get_expired w query v ts He Hl Hx).
    + intros Hl. exact (get_absent w query Hl).
  - repeat split.
    + intros Hr.
      destruct (article_cache (w_cache w) !! key) as [[v ts]|] eqn:Hl.
      * destruct (Qlt_le_dec (now - ts) ttl_seconds) as [Hf|Hx].
        -- rewrite (get_article_hit w query v ts He Hl Hf) in Hr. simpl in Hr.
           inversion Hr; subst. exists ts. split; [reflexivity | exact Hf].
        -- rewrite (get_article_expired w query v ts He Hl Hx) in Hr.
           discriminate.
      * rewrite (get_article_absent w query Hl) in Hr. discriminate.
    + intros [ts [Hl Hf]]. rewrite (get_article_hit w query value ts He Hl Hf).
      reflexivity.
    + intros v ts Hl Hf. exact (get_article_hit w query v ts He Hl Hf).
    + intros v ts Hl Hx. exact (get_article_expired w query v ts He Hl Hx).
    + intros Hl. exact (get_article_absent w query Hl).
Qed.

(** C5. The cache key depends on the query only through its lowercased,
    trimmed form: two queries that agree after [lower().strip()] get the
    same key, as ["Quantum Computing"] and ["quantum computing  "] do,
    and both accessors behave identically on them in every world. *)
Theorem generate_key_normalizes :
  (forall q1 q2 : string,
      PyStr.strip (PyStr.lower q1) = PyStr.strip (PyStr.lower q2) ->
      _generate_key q1 = _generate_key q2) /\
  _generate_key "Quantum Computing" = _generate_key "quantum computing  " /\
  (forall (w : World) (q1 q2 : string),
      PyStr.strip (PyStr.lower q1) = PyStr.strip (PyStr.lower q2) ->
      get env q1 w = get env q2 w /\
      get_article env q1 w = get_article env q2 w).
Proof.
  assert (Hk : forall q1 q2 : string,
             PyStr.strip (PyStr.lower q1) = PyStr.strip (PyStr.lower q2) ->
             _generate_key q1 = _generate_key q2).
  { intros q1 q2 H. unfold _generate_key. rewrite H. reflexivity. }
  split; [exact Hk|]. split.
  - apply Hk. vm_compute. reflexivity.
  - intros w q1 q2 H. unfold get, get_article. rewrite (Hk q1 q2 H).
    split; reflexivity.
Qed.

(** ** The rate limiter *)

(** C4. With rate limiting disabled, [is_allowed] answers [(True, None)]
    for every client in every world and leaves the world as it was; a
    client without a window still has none afterwards. *)
Theorem is_allowed_disabled_is_pure (w : World) (client_id : string) :
  rate_limit_enabled settings = false ->
  is_allowed env client_id w = (Ok (true, None), w) /\
  (requests (w_rate_limiter w) !! client_id = None ->
   requests (w_rate_limiter (snd (is_allowed env client_id w))) !! client_id
   = None).
Proof.
  intros Hd.
  assert (H : is_allowed env client_id w = (Ok (true, None), w)).
  { unfold is_allowed. rewrite Hd. reflexivity. }
  split; [exact H|]. rewrite H. simpl. intros Hn. exact Hn.
Qed.

Lemma window_set_requests (self : RateLimiter) c l :
  window (set_requests (<[c := l]> (requests self)) self) c = l.
Proof. unfold window. simpl. rewrite lookup_insert_eq. reflexivity. Qed.

Lemma is_allowed_enabled (w : World) (c : string) :
  rate_limit_enabled settings = true ->
  let now := clock env (w_clock_reads w) in
  let remaining := remaining_at now w c in
  is_allowed env c w =
    if requests_per_minute (w_rate_limiter w) <=? len remaining then
      match py_min remaining with
      | Some oldest =>
          (Ok (false, Some (py_int (60 - (now - oldest)) + 1)),
           set_window c remaining (tick w))
      | None => (Raise ValueError, set_window c remaining (tick w))
      end
    else (Ok (true, None), set_window c (remaining ++ [now]) (tick w)).
Proof.
  intros He now remaining. unfold is_allowed. rewrite He. simpl.
  unfold bind, time_time, _clean_old_requests, modify, gets, ret. simpl.
  rewrite !window_set_requests. fold now. fold (remaining_at now w c).
  fold remaining.
  destruct (requests_per_minute (w_rate_limiter w) <=? len remaining).
  - destruct (py_min remaining); reflexivity.
  - unfold set_window, with_rate_limiter, tick. simpl.
    rewrite window_set_requests. unfold set_requests. simpl.
    rewrite insert_insert_eq. reflexivity.
Qed.

(** C2 (amended). With rate limiting enabled and a limit of at least one,
    an admission check prunes from the client's window every timestamp
    that is not younger than 60 seconds ([remaining] keeps exactly those
    with [now - 60 < t]). If at least [limit] timestamps remain, the
    request is rejected, nothing is appended, and the retry hint is
    [floor(60 - (now - oldest)) + 1], where [oldest] is the least remaining
    timestamp; otherwise [now] is appended and the request is admitted
    with no hint. A client with exactly [limit] remaining timestamps is
    rejected. *)
Theorem is_allowed_sliding_window (w : World) (client_id : string) :
  rate_limit_enabled settings = true ->
  1 <= requests_per_minute (w_rate_limiter w) ->
  let now := clock env (w_clock_reads w) in
  let limit := requests_per_minute (w_rate_limiter w) in
  let remaining := remaining_at now w client_id in
  (forall t, In t remaining <->
             In t (window (w_rate_limiter w) client_id) /\ (now - 60 < t)%Q) /\
  (limit <= len remaining ->
   exists oldest,
     In oldest remaining /\
     (forall t, In t remaining -> (oldest <= t)%Q) /\
     is_allowed env client_id w =
       (Ok (false, Some (Qfloor (60 - (now - oldest)) + 1)),
        set_window client_id remaining (tick w))) /\
  (len remaining < limit ->
   is_allowed env client_id w =
     (Ok (true, None), set_window client_id (remaining ++ [now]) (tick w))) /\
  (len remaining = limit ->
   exists retry_after,
     fst (is_allowed env client_id w) = Ok (false, Some retry_after)).
Proof.
  intros He Hlim now limit remaining.
  assert (Hrej : limit <= len remaining ->
            exists oldest,
              In oldest remaining /\
              (forall t, In t remaining -> (oldest <= t)%Q) /\
              is_allowed env client_id w =
                (Ok (false, Some (Qfloor (60 - (now - oldest)) + 1)),
                 set_window client_id remaining (tick w))).
  { intros Hle.
    destruct (py_min_nonempty remaining) as [oldest Hmin].
    { intros Hnil. rewrite Hnil in Hle. unfold len in Hle. simpl in Hle.
      fold limit in Hlim. lia. }
    destruct (py_min_spec _ _ Hmin) as [Hin Hall].
    exists oldest. split; [exact Hin|]. split; [exact Hall|].
    rewrite (is_allowed_enabled w client_id He).
    fold now. fold remaining. fold limit.
    destruct (Z.leb_spec limit (len remaining)) as [_|Hlt]; [|lia].
    rewrite Hmin. rewrite py_int_nonneg; [reflexivity|].
    apply filter_fresh_In in Hin. destruct Hin as [_ Hin]. lra. }
  split.
  { intros t. apply filter_fresh_In. }
  split; [exact Hrej|]. split.
  - intros Hlt. rewrite (is_allowed_enabled w client_id He).
    fold now. fold remaining. fold limit.
    destruct (Z.leb_spec limit (len remaining)) as [Hle|_]; [lia|]. reflexivity.
  - intros Heq. destruct Hrej as [oldest [_ [_ Hr]]]; [lia|].
    eexists. rewrite Hr. reflexivity.
Qed.

(** *** Eleven checks in one minute *)

Lemma admissions_app (n m : nat) (c : string) (w : World) :
  admissions env (n + m) c w =
    match admissions env n c w with
    | (Ok rs, w1) =>
        match admissions env m c w1 with
        | (Ok rs', w2) => (Ok (rs ++ rs'), w2)
        | (Raise e, w2) => (Raise e, w2)
        end
    | (Raise e, w1) => (Raise e, w1)
    end.
Proof.
  revert w. induction n as [|n IH]; intros w; simpl.
  - unfold ret. destruct (admissions env m c w) as [[rs'|e] w2]; reflexivity.
  - unfold bind, ret.
    destruct (is_allowed env c w) as [[r|e] w1]; [|reflexivity].
    rewrite IH.
    destruct (admissions env n c w1) as [[rs|e] w2]; [|reflexivity].
    destruct (admissions env m c w2) as [[rs'|e] w3]; reflexivity.
Qed.

Lemma admissions_admitted (n : nat) (c : string) : forall w : World,
  rate_limit_enabled settings = true ->
  (forall i j, (i < j < n)%nat ->
     (clock env (w_clock_reads w + j) - 60 < clock env (w_clock_reads w + i))%Q) ->
  (forall s j, In s (window (w_rate_limiter w) c) -> (j < n)%nat ->
     (clock env (w_clock_reads w + j) - 60 < s)%Q) ->
  len (window (w_rate_limiter w) c) + Z.of_nat n
    <= requests_per_minute (w_rate_limiter w) ->
  exists w',
    admissions env n c w = (Ok (repeat (true, None) n), w') /\
    window (w_rate_limiter w') c =
      window (w_rate_limiter w) c
        ++ map (fun i => clock env (w_clock_reads w + i)) (seq 0 n) /\
    w_clock_reads w' = (w_clock_reads w + n)%nat /\
    requests_per_minute (w_rate_limiter w') = requests_per_minute (w_rate_limiter w).
Proof.
  induction n as [|n IH]; intros w He Hts Hwin Hlen.
  - exists w. simpl. rewrite app_nil_r, Nat.add_0_r. repeat split; reflexivity.
  - assert (Hrem : remaining_at (clock env (w_clock_reads w)) w c
                   = window (w_rate_limiter w) c).
    { apply filter_all_fresh. intros s Hs.
      specialize (Hwin s 0%nat Hs ltac:(lia)). rewrite Nat.add_0_r in Hwin.
      exact Hwin. }
    pose proof (is_allowed_enabled w c He) as Hstep. simpl in Hstep.
    rewrite Hrem in Hstep.
    destruct (Z.leb_spec (requests_per_minute (w_rate_limiter w))
                (len (window (w_rate_limiter w) c))) as [Hle|_]; [lia|].
    set (w1 := set_window c (window (w_rate_limiter w) c ++ [clock env (w_clock_reads w)])
                 (tick w)) in *.
    assert (Hw1 : window (w_rate_limiter w1) c
                  = window (w_rate_limiter w) c ++ [clock env (w_clock_reads w)]).
    { unfold w1, set_window. simpl. apply window_set_requests. }
    assert (Hr1 : w_clock_reads w1 = S (w_clock_reads w)) by reflexivity.
    destruct (IH w1 He) as [w' [Hrun [Hwin' [Hreads Hlim]]]].
    + intros i j Hij. rewrite Hr1. simpl.
      rewrite <- !Nat.add_succ_r. apply Hts. lia.
    + intros s j Hs Hj. rewrite Hr1. simpl. rewrite <- Nat.add_succ_r.
      rewrite Hw1 in Hs. apply in_app_or in Hs. destruct Hs as [Hs|[<-|[]]].
      * apply Hwin; [exact Hs | lia].
      * replace (clock env (w_clock_reads w))
          with (clock env (w_clock_reads w + 0)) by (rewrite Nat.add_0_r; reflexivity).
        apply Hts. lia.
    + rewrite Hw1. unfold len in *. rewrite length_app. simpl.
      change (requests_per_minute (w_rate_limiter w1))
        with (requests_per_minute (w_rate_limiter w)). lia.
    + exists w'. split.
      * simpl. unfold bind at 1. rewrite Hstep. unfold bind at 1. rewrite Hrun.
        reflexivity.
      * split; [|split].
        -- rewrite Hwin', Hw1, <- app_assoc. f_equal. simpl.
           rewrite Nat.add_0_r. f_equal. rewrite <- seq_shift, map_map.
           apply map_ext. intros i. f_equal. simpl. lia.
        -- rewrite Hreads, Hr1. lia.
        -- rewrite Hlim. reflexivity.
Qed.

Lemma clock_monotone (n k : nat) :
  (forall i, (i < k)%nat -> (clock env (n + i) <= clock env (n + S i))%Q) ->
  forall i j, (i <= j <= k)%nat -> (clock env (n + i) <= clock env (n + j))%Q.
Proof.
  intros Hstep i j. induction j as [|j IH]; intros Hij.
  - assert (i = 0)%nat as -> by lia. lra.
  - destruct (Nat.eq_dec i (S j)) as [->|Hne]; [lra|].
    specialize (IH ltac:(lia)). specialize (Hstep j ltac:(lia)). lra.
Qed.

Lemma retry_after_bounds (now oldest : Q) :
  (now - 60 < oldest)%Q -> (oldest <= now)%Q ->
  let retry_after := py_int (60 - (now - oldest)) + 1 in
  0 < retry_after <= 61 /\ (oldest + 60 < now + inject_Z retry_after)%Q.
Proof.
  intros Hlo Hhi. simpl. rewrite py_int_nonneg by lra.
  set (x := (60 - (now - oldest))%Q).
  assert (H0 : Qfloor 0 <= Qfloor x) by (apply Qfloor_resp_le; unfold x; lra).
  assert (H60 : Qfloor x <= Qfloor 60) by (apply Qfloor_resp_le; unfold x; lra).
  change (Qfloor 0) with 0 in H0. change (Qfloor 60) with 60 in H60.
  split; [lia|]. pose proof (Qlt_floor x) as Hx.
  assert (Hdef : (x == 60 - (now - oldest))%Q) by reflexivity.
  clearbody x. lra.
Qed.

(** C3. With the limit at 10 and rate limiting enabled, let a client
    whose earlier requests are all at least a minute old make eleven
    checks at the successive readings [t 0 <= ... <= t 10] of the clock,
    with [t 10 - t 0 < 60]. The first ten are admitted and the eleventh is
    rejected with a hint [0 < retry_after <= 61]; and the client's next
    check, made once [retry_after] seconds have passed since the rejection,
    is admitted. *)
Theorem eleventh_check_is_rejected (w : World) (client_id : string) :
  rate_limit_enabled settings = true ->
  requests_per_minute (w_rate_limiter w) = 10 ->
  let t := fun i => clock env (w_clock_reads w + i) in
  (forall i, (i < 10)%nat -> (t i <= t (S i))%Q) ->
  (t 10%nat - t 0%nat < 60)%Q ->
  (forall s, In s (window (w_rate_limiter w) client_id) -> (s <= t 0%nat - 60)%Q) ->
  exists retry_after w11,
    admissions env 11 client_id w
    = (Ok (repeat (true, None) 10 ++ [(false, Some retry_after)]), w11) /\
    0 < retry_after <= 61 /\
    ((t 10%nat + inject_Z retry_after <= t 11%nat)%Q ->
     fst (is_allowed env client_id w11) = Ok (true, None)).
Proof.
  intros He Hlim t Hstep Hspan Hstale.
  assert (Hmono : forall i j, (i <= j <= 10)%nat -> (t i <= t j)%Q).
  { apply clock_monotone. exact Hstep. }
  (* the first check empties the stale window and records [t 0] *)
  pose proof (is_allowed_enabled w client_id He) as H1. simpl in H1.
  assert (Hrem0 : remaining_at (clock env (w_clock_reads w)) w client_id = []).
  { apply filter_all_stale. intros s Hs. specialize (Hstale s Hs).
    unfold t in Hstale. rewrite Nat.add_0_r in Hstale. exact Hstale. }
  rewrite Hrem0, Hlim in H1. simpl in H1.
  set (w1 := set_window client_id [clock env (w_clock_reads w)] (tick w)) in *.
  assert (Hw1 : window (w_rate_limiter w1) client_id = [t 0%nat]).
  { unfold w1, set_window, t. simpl. rewrite window_set_requests.
    rewrite Nat.add_0_r. reflexivity. }
  assert (Hr1 : forall i, clock env (w_clock_reads w1 + i) = t (S i)).
  { intros i. unfold t. f_equal. simpl. lia. }
  (* the next nine are admitted *)
  destruct (admissions_admitted 9 client_id w1 He) as [w10 [H9 [Hw10 [Hr10 Hl10]]]].
  { intros i j Hij. rewrite !Hr1.
    pose proof (Hmono 0%nat (S i) ltac:(lia)).
    pose proof (Hmono (S j) 10%nat ltac:(lia)). lra. }
  { intros s j Hs Hj. rewrite Hw1 in Hs. destruct Hs as [<-|[]]. rewrite Hr1.
    pose proof (Hmono (S j) 10%nat ltac:(lia)). lra. }
  { rewrite Hw1. change (requests_per_minute (w_rate_limiter w1))
      with (requests_per_minute (w_rate_limiter w)). rewrite Hlim.
    unfold len. simpl. lia. }
  assert (Hnow10 : clock env (w_clock_reads w10) = t 10%nat).
  { rewrite Hr10. unfold t. f_equal. simpl. lia. }
  assert (Hwin10 : forall s, In s (window (w_rate_limiter w10) client_id) ->
                             (t 0%nat <= s)%Q /\ (s <= t 10%nat)%Q).
  { intros s Hs. rewrite Hw10, Hw1 in Hs. apply in_app_or in Hs.
    destruct Hs as [[<-|[]]|Hs].
    - split; [lra | apply Hmono; lia].
    - apply in_map_iff in Hs. destruct Hs as [i [<- Hi]].
      apply in_seq in Hi. rewrite Hr1. split; apply Hmono; lia. }
  assert (Hlen10 : length (window (w_rate_limiter w10) client_id) = 10%nat).
  { rewrite Hw10, Hw1. reflexivity. }
  (* the eleventh finds ten fresh timestamps *)
  pose proof (is_allowed_enabled w10 client_id He) as H11. simpl in H11.
  assert (Hrem10 : remaining_at (clock env (w_clock_reads w10)) w10 client_id
                   = window (w_rate_limiter w10) client_id).
  { apply filter_all_fresh. intros s Hs. rewrite Hnow10.
    destruct (Hwin10 s Hs). lra. }
  rewrite Hrem10, Hl10 in H11. change (requests_per_minute (w_rate_limiter w1))
    with (requests_per_minute (w_rate_limiter w)) in H11. rewrite Hlim in H11.
  unfold len in H11. rewrite Hlen10 in H11. simpl in H11.
  destruct (py_min_nonempty (window (w_rate_limiter w10) client_id))
    as [oldest Hmin].
  { intros Hnil. rewrite Hnil in Hlen10. discriminate. }
  rewrite Hmin in H11.
  destruct (py_min_spec _ _ Hmin) as [Hin _].
  destruct (Hwin10 oldest Hin) as [Hlo Hhi].
  destruct (retry_after_bounds (t 10%nat) oldest ltac:(lra) Hhi) as [Hb Hgt].
  rewrite Hnow10 in H11.
  set (retry_after := py_int (60 - (t 10%nat - oldest)) + 1) in *.
  set (w11 := set_window client_id (window (w_rate_limiter w10) client_id) (tick w10)) in *.
  exists retry_after, w11. split; [|split; [exact Hb|]].
  - change 11%nat with (1 + (9 + 1))%nat.
    rewrite admissions_app. simpl admissions at 1. unfold bind at 1.
    rewrite H1. unfold ret at 1. unfold bind at 1. unfold ret at 1.
    rewrite admissions_app, H9. simpl. unfold bind, ret. rewrite H11. reflexivity.
  - intros Hwait.
    pose proof (is_allowed_enabled w11 client_id He) as H12. cbv zeta in H12.
    assert (Hnow11 : clock env (w_clock_reads w11) = t 11%nat).
    { unfold w11. simpl. rewrite Hr10. unfold t. f_equal. simpl. lia. }
    assert (Hw11 : window (w_rate_limiter w11) client_id
                   = window (w_rate_limiter w10) client_id).
    { unfold w11, set_window. simpl. apply window_set_requests. }
    assert (Hshort : (length (remaining_at (t 11%nat) w11 client_id) <= 9)%nat).
    { unfold remaining_at. rewrite Hw11, Hw10, Hw1. cbn [app List.filter].
      assert (Hold : Qlt_bool (t 11%nat - 60) (t 0%nat) = false).
      { apply Qlt_bool_false. lra. }
      rewrite Hold. etransitivity; [apply filter_length_le|].
      rewrite length_map, length_seq. lia. }
    rewrite Hnow11 in H12.
    change (requests_per_minute (w_rate_limiter w11))
      with (requests_per_minute (w_rate_limiter w10)) in H12.
    rewrite Hl10 in H12. change (requests_per_minute (w_rate_limiter w1))
      with (requests_per_minute (w_rate_limiter w)) in H12. rewrite Hlim in H12.
    destruct (Z.leb_spec 10 (len (remaining_at (t 11%nat) w11 client_id)))
      as [Hle|_]; [unfold len in Hle; lia|].
    rewrite H12. reflexivity.
Qed.

(** ** The size of the cache *)

(** C9. [size], and with it the sizes reported by [/cache/stats] and
    [/health], is the number of entries of the summary table alone: it is
    the same whatever the article table holds, and storing an article does
    not change it; [clear] empties both tables. *)
Theorem size_counts_summary_table_only (w : World) :
  size w = (Ok (Z.of_nat (base.size (cache (w_cache w)))), w) /\
  (exists st, cache_stats env w = (Ok st, w) /\
              stats_size st = Z.of_nat (base.size (cache (w_cache w)))) /\
  (exists h, health_check env w = (Ok h, w) /\
             health_cache_size h = Z.of_nat (base.size (cache (w_cache w)))) /\
  (forall articles,
      fst (size (with_cache (set_article_cache articles) w)) = fst (size w)) /\
  (forall query article_text,
      fst (size (snd (set_article env query article_text w))) = fst (size w)) /\
  (cache (w_cache (snd (clear w))) = ∅ /\
   article_cache (w_cache (snd (clear w))) = ∅).
Proof.
  split; [reflexivity|]. split.
  { eexists. split; reflexivity. }
  split.
  { eexists. split; reflexivity. }
  split; [reflexivity|]. split.
  - intros query article_text. unfold set_article.
    destruct (cache_enabled settings); reflexivity.
  - split; reflexivity.
Qed.

(** ** The token budget *)

Lemma count_tokens_encoded text model encoding tokens :
  _get_encoding env model = Ok encoding ->
  encode encoding text = Some tokens ->
  count_tokens env text model = len tokens.
Proof. intros Hg He. unfold count_tokens. rewrite Hg, He. reflexivity. Qed.

Lemma truncate_to_tokens_encoded text max_tokens model encoding tokens :
  _get_encoding env model = Ok encoding ->
  encode encoding text = Some tokens ->
  truncate_to_tokens env text max_tokens model =
    Ok (if len tokens <=? max_tokens then text
        else decode encoding (slice_to tokens max_tokens)).
Proof.
  intros Hg He. unfold truncate_to_tokens. rewrite Hg, He.
  destruct (len tokens <=? max_tokens); reflexivity.
Qed.

Lemma truncate_to_tokens_within text max_tokens model encoding tokens :
  _get_encoding env model = Ok encoding ->
  encode encoding text = Some tokens ->
  len tokens <= max_tokens ->
  truncate_to_tokens env text max_tokens model = Ok text.
Proof.
  intros Hg He Hle. rewrite (truncate_to_tokens_encoded _ _ _ _ _ Hg He).
  destruct (Z.leb_spec (len tokens) max_tokens); [reflexivity | lia].
Qed.

Lemma slice_to_length {A} (l : list A) (n : Z) :
  0 <= n -> len (slice_to l n) <= n.
Proof.
  intros Hn. unfold slice_to, len.
  destruct (Z.leb_spec 0 n); [|lia]. rewrite length_firstn. lia.
Qed.

(** For a tokenizer that gives back the tokens it decoded, truncation to
    a budget that is not negative is idempotent. *)
Lemma truncate_to_tokens_idempotent_roundtrip text N model encoding tokens :
  _get_encoding env model = Ok encoding ->
  encode encoding text = Some tokens ->
  0 <= N ->
  encode encoding (decode encoding (slice_to tokens N)) = Some (slice_to tokens N) ->
  exists text',
    truncate_to_tokens env text N model = Ok text' /\
    truncate_to_tokens env text' N model = Ok text'.
Proof.
  intros Hg He HN Hrt. rewrite (truncate_to_tokens_encoded _ _ _ _ _ Hg He).
  destruct (Z.leb_spec (len tokens) N) as [Hle|Hgt].
  - exists text. split; [reflexivity|].
    exact (truncate_to_tokens_within _ _ _ _ _ Hg He Hle).
  - eexists. split; [reflexivity|].
    apply (truncate_to_tokens_within _ _ _ _ _ Hg Hrt).
    apply slice_to_length. exact HN.
Qed.

(** C6 (amended). When the tokenizer is available and encodes the text:
    if [count_tokens text <= N] then [truncate_to_tokens text N] returns
    the text unchanged; and if the text decoded from the first [N] tokens
    encodes again into at most [N] tokens, then truncating the result of
    [truncate_to_tokens text N] at the budget [N] gives that result
    back. *)
Theorem truncate_to_tokens_stable (text : string) (N : Z) (model : string)
        (encoding : Encoding) (tokens : list Z) :
  _get_encoding env model = Ok encoding ->
  encode encoding text = Some tokens ->
  (count_tokens env text model <= N ->
   truncate_to_tokens env text N model = Ok text) /\
  ((exists tokens',
       encode encoding (decode encoding (slice_to tokens N)) = Some tokens' /\
       len tokens' <= N) ->
   exists text',
     truncate_to_tokens env text N model = Ok text' /\
     truncate_to_tokens env text' N model = Ok text').
Proof.
  intros Hg He. split.
  - rewrite (count_tokens_encoded _ _ _ _ Hg He).
    apply (truncate_to_tokens_within _ _ _ _ _ Hg He).
  - intros [tokens' [He' Hle']].
    rewrite (truncate_to_tokens_encoded _ _ _ _ _ Hg He).
    destruct (Z.leb_spec (len tokens) N) as [Hle|Hgt].
    + exists text. split; [reflexivity|].
      exact (truncate_to_tokens_within _ _ _ _ _ Hg He Hle).
    + eexists. split; [reflexivity|].
      exact (truncate_to_tokens_within _ _ _ _ _ Hg He' Hle').
Qed.

(** ** The workflow of [/summarize] *)

Lemma get_inv w query r w' :
  get env query w = (r, w') ->
  (exists value timestamp,
      r = Ok (Some value) /\ w' = tick w /\
      cache_enabled settings = true /\
      cache (w_cache w) !! _generate_key query = Some (value, timestamp) /\
      (clock env (w_clock_reads w) - timestamp < inject_Z (ttl (w_cache w)))%Q)
  \/ (r = Ok None /\
      (w' = w \/
       w' = with_cache
              (fun c => set_cache (delete (_generate_key query) (cache c)) c)
              (tick w))).
Proof.
  unfold get, bind, gets, time_time, modify, ret.
  destruct (cache_enabled settings) eqn:He; simpl.
  - destruct (cache (w_cache w) !! _generate_key query) as [[v ts]|] eqn:Hl; simpl.
    + destruct (Qlt_bool _ _) eqn:Hf; intros H; inversion H; subst.
      * left. exists v, ts. apply Qlt_bool_true in Hf. auto.
      * right. auto.
    + intros H; inversion H; subst. right. auto.
  - intros H; inversion H; subst. right. auto.
Qed.

Lemma get_article_inv w query r w' :
  get_article env query w = (r, w') ->
  (exists value timestamp,
      r = Ok (Some value) /\ w' = tick w /\
      cache_enabled settings = true /\
      article_cache (w_cache w) !! _generate_key query = Some (value, timestamp) /\
      (clock env (w_clock_reads w) - timestamp < inject_Z (ttl (w_cache w)))%Q)
  \/ (r = Ok None /\
      (w' = w \/
       w' = with_cache
              (fun c => set_article_cache
                          (delete (_generate_key query) (article_cache c)) c)
              (tick w))).
Proof.
  unfold get_article, bind, gets, time_time, modify, ret.
  destruct (cache_enabled settings) eqn:He; simpl.
  - destruct (article_cache (w_cache w) !! _generate_key query)
      as [[v ts]|] eqn:Hl; simpl.
    + destruct (Qlt_bool _ _) eqn:Hf; intros H; inversion H; subst.
      * left. exists v, ts. apply Qlt_bool_true in Hf. auto.
      * right. auto.
    + intros H; inversion H; subst. right. auto.
  - intros H; inversion H; subst. right. auto.
Qed.

(** The world after [set_article]. *)
Lemma set_article_run w query article_text :
  set_article env query article_text w =
    (Ok tt,
     if cache_enabled settings then
       with_cache
         (fun c => set_article_cache
                     (<[_generate_key query :=
                          (article_text, clock env (w_clock_reads w))]>
                        (article_cache c)) c)
         (tick w)
     else w).
Proof. unfold set_article. destruct (cache_enabled settings); reflexivity. Qed.

(** The world after [set]. *)
Lemma set_run w query summary :
  set env query summary w =
    (Ok tt,
     if cache_enabled settings then
       with_cache
         (fun c => set_cache
                     (<[_generate_key query :=
                          (summary, clock env (w_clock_reads w))]> (cache c)) c)
         (tick w)
     else w).
Proof. unfold set. destruct (cache_enabled settings); reflexivity. Qed.

Lemma fetch_result_url_truthy k query article_text article_url :
  fetch_result env k query = Some (article_text, article_url) ->
  PyStr.truthy article_url = true.
Proof.
  unfold fetch_result. destruct (wikipedia env k query) as [[t p]|]; [|discriminate].
  intros H. inversion H. reflexivity.
Qed.

Lemma summarize_article_run w article_text truncated :
  truncate_to_tokens env article_text (max_input_tokens settings) "gpt-4o-mini"
    = Ok truncated ->
  let req := summary_request env (max_summary_words settings) truncated in
  summarize_article env article_text None w =
    (Ok (PyStr.strip <$> chat_completion env (length (w_llm_log w)) req),
     log_llm req w).
Proof.
  intros Ht req. unfold summarize_article. rewrite Ht.
  unfold bind, create_completion, ret. fold req.
  destruct (chat_completion env (length (w_llm_log w)) req); reflexivity.
Qed.

Lemma summarize_uncached_not_found w query :
  let fetched := fetch_result env (length (w_fetch_log w)) query in
  PyStr.truthy_opt (article_text_of fetched) = false \/
  PyStr.truthy_opt (article_url_of fetched) = false ->
  summarize_uncached env query w
  = (Raise (ArticleNotFoundError query), log_fetch query w).
Proof.
  intros fetched H. unfold summarize_uncached, bind, fetch_wikipedia_article.
  fold fetched. destruct fetched as [[t u]|]; [|reflexivity].
  simpl in H. destruct H as [H|H]; rewrite H; simpl; [reflexivity|].
  rewrite orb_true_r. reflexivity.
Qed.

Lemma summarize_uncached_found w query article_text article_url truncated :
  fetch_result env (length (w_fetch_log w)) query = Some (article_text, article_url) ->
  PyStr.truthy article_text = true ->
  truncate_to_tokens env article_text (max_input_tokens settings) "gpt-4o-mini"
    = Ok truncated ->
  let w2 := snd (set_article env query article_text (log_fetch query w)) in
  let req := summary_request env (max_summary_words settings) truncated in
  let w3 := log_llm req w2 in
  summarize_uncached env query w =
    match PyStr.strip <$> chat_completion env (length (w_llm_log w2)) req with
    | Some summary =>
        if PyStr.truthy summary then
          (Ok {| resp_query := query; resp_summary := summary;
                 resp_source_url := article_url |},
           snd (set env query summary w3))
        else (Raise (SummarizationError summarization_failed), w3)
    | None => (Raise (SummarizationError summarization_failed), w3)
    end.
Proof.
  intros Hf Ht Htr w2 req w3.
  pose proof (fetch_result_url_truthy _ _ _ _ Hf) as Hu.
  unfold summarize_uncached. unfold bind at 1. unfold fetch_wikipedia_article.
  rewrite Hf, Ht, Hu. cbn [negb orb]. cbv beta iota.
  unfold bind at 1. rewrite set_article_run.
  unfold bind at 1. rewrite (summarize_article_run _ _ _ Htr).
  unfold w3, w2, req. rewrite set_article_run. simpl snd.
  destruct (PyStr.strip <$> chat_completion env _ _) as [summary|]; [|reflexivity].
  destruct (PyStr.truthy summary); simpl; [|reflexivity].
  unfold bind, ret. rewrite set_run. reflexivity.
Qed.

Lemma summarize_wikipedia_miss w0 w1 request_query cached :
  get env (PyStr.strip request_query) w0 = (Ok cached, w1) ->
  PyStr.truthy_opt cached = false ->
  summarize_wikipedia env request_query w0
  = summarize_uncached env (PyStr.strip request_query) w1.
Proof.
  intros Hg Hc. unfold summarize_wikipedia. unfold bind at 1. rewrite Hg.
  unfold bind at 1.
  destruct cached as [s|]; simpl in Hc; [rewrite Hc|]; reflexivity.
Qed.

Lemma summarize_wikipedia_hit w0 w1 request_query cached_summary :
  get env (PyStr.strip request_query) w0 = (Ok (Some cached_summary), w1) ->
  PyStr.truthy cached_summary = true ->
  summarize_wikipedia env request_query w0 =
    match respond_from_cache env (PyStr.strip request_query) cached_summary w1 with
    | (Ok (Some response), w2) => (Ok response, w2)
    | (Ok None, w2) => summarize_uncached env (PyStr.strip request_query) w2
    | (Raise e, w2) => (Raise e, w2)
    end.
Proof.
  intros Hg Hc. unfold summarize_wikipedia. unfold bind at 1. rewrite Hg.
  unfold bind at 1. rewrite Hc.
  destruct (respond_from_cache env _ cached_summary w1) as [[[r|]|e] w2];
    reflexivity.
Qed.

Lemma respond_from_cache_no_url w query cached_summary :
  PyStr.truthy_opt
    (article_url_of (fetch_result env (length (w_fetch_log w)) query)) = false ->
  respond_from_cache env query cached_summary w = (Ok None, log_fetch query w).
Proof.
  intros H. unfold respond_from_cache, bind, fetch_wikipedia_article.
  destruct (fetch_result env _ query) as [[t u]|]; [|reflexivity].
  simpl in H. rewrite H. reflexivity.
Qed.

Lemma respond_from_cache_url w query cached_summary article_text article_url
      cached_article w3 :
  fetch_result env (length (w_fetch_log w)) query = Some (article_text, article_url) ->
  get_article env query (log_fetch query w) = (Ok cached_article, w3) ->
  respond_from_cache env query cached_summary w =
    (Ok (Some {| resp_query := query; resp_summary := cached_summary;
                 resp_source_url := article_url |}),
     if PyStr.truthy_opt cached_article then w3
     else snd (set_article env query article_text w3)).
Proof.
  intros Hf Hg. pose proof (fetch_result_url_truthy _ _ _ _ Hf) as Hu.
  unfold respond_from_cache. unfold bind at 1. unfold fetch_wikipedia_article.
  rewrite Hf, Hu. unfold bind at 1. rewrite Hg. unfold bind at 1.
  destruct (PyStr.truthy_opt cached_article); simpl.
  - reflexivity.
  - rewrite set_article_run. reflexivity.
Qed.

Lemma get_frame w query r w' :
  get env query w = (r, w') ->
  w_llm_log w' = w_llm_log w /\ w_fetch_log w' = w_fetch_log w /\
  article_cache (w_cache w') = article_cache (w_cache w).
Proof.
  intros H. apply get_inv in H.
  destruct H as [[v [ts [_ [-> _]]]]|[_ [->| ->]]]; repeat split; reflexivity.
Qed.

Lemma get_article_frame w query r w' :
  get_article env query w = (r, w') ->
  w_llm_log w' = w_llm_log w /\ w_fetch_log w' = w_fetch_log w /\
  cache (w_cache w') = cache (w_cache w) /\ ttl (w_cache w') = ttl (w_cache w).
Proof.
  intros H. apply get_article_inv in H.
  destruct H as [[v [ts [_ [-> _]]]]|[_ [->| ->]]]; repeat split; reflexivity.
Qed.

Lemma set_article_frame w query article_text :
  let w' := snd (set_article env query article_text w) in
  w_llm_log w' = w_llm_log w /\ w_fetch_log w' = w_fetch_log w /\
  cache (w_cache w') = cache (w_cache w) /\ ttl (w_cache w') = ttl (w_cache w).
Proof.
  simpl. rewrite set_article_run. simpl.
  destruct (cache_enabled settings); repeat split; reflexivity.
Qed.

(** C7 (amended). On the miss path of [/summarize] (the lookup gave no
    true summary): if the fetch returns no text or no URL, the workflow
    raises [ArticleNotFoundError], the language model is not called and
    neither table is written (the lookup may only have evicted the
    expired summary). Otherwise [set_article] runs, which with caching
    enabled stores the article text under the key; and, provided
    [truncate_to_tokens] returns the truncated article, the completion
    endpoint is called once, on the prompt built from that truncated
    text. If its answer is missing or strips to the empty string the
    workflow raises [SummarizationError] with the caches as [set_article]
    left them; otherwise [set] runs, which with caching enabled stores
    the summary under the key, and the summary is returned with the
    source URL. *)
Theorem summarize_miss_path (w0 w1 : World) (request_query : string)
        (cached : option string) :
  let query := PyStr.strip request_query in
  let key := _generate_key query in
  get env query w0 = (Ok cached, w1) ->
  PyStr.truthy_opt cached = false ->
  let fetched := fetch_result env (length (w_fetch_log w1)) query in
  let w2 := log_fetch query w1 in
  (PyStr.truthy_opt (article_text_of fetched) = false \/
   PyStr.truthy_opt (article_url_of fetched) = false ->
   summarize_wikipedia env request_query w0
   = (Raise (ArticleNotFoundError query), w2) /\
   article_cache (w_cache w2) = article_cache (w_cache w0) /\
   (cache (w_cache w2) = cache (w_cache w0) \/
    cache (w_cache w2) = delete key (cache (w_cache w0))) /\
   w_llm_log w2 = w_llm_log w0)
  /\
  (forall article_text article_url truncated,
      fetched = Some (article_text, article_url) ->
      PyStr.truthy article_text = true ->
      PyStr.truthy article_url = true ->
      truncate_to_tokens env article_text (max_input_tokens settings) "gpt-4o-mini"
        = Ok truncated ->
      let w3 := snd (set_article env query article_text w2) in
      let req := summary_request env (max_summary_words settings) truncated in
      let content := chat_completion env (length (w_llm_log w0)) req in
      let w4 := log_llm req w3 in
      (cache_enabled settings = true ->
       article_cache (w_cache w3) !! key
       = Some (article_text, clock env (w_clock_reads w1)) /\
       cache (w_cache w3) = cache (w_cache w1)) /\
      w_llm_log w4 = w_llm_log w0 ++ [req] /\
      w_cache w4 = w_cache w3 /\
      (PyStr.truthy_opt (PyStr.strip <$> content) = false ->
       summarize_wikipedia env request_query w0
       = (Raise (SummarizationError summarization_failed), w4)) /\
      (forall summary,
          PyStr.strip <$> content = Some summary ->
          PyStr.truthy summary = true ->
          let w5 := snd (set env query summary w4) in
          summarize_wikipedia env request_query w0
          = (Ok {| resp_query := query; resp_summary := summary;
                   resp_source_url := article_url |}, w5) /\
          w_llm_log w5 = w_llm_log w0 ++ [req] /\
          (cache_enabled settings = true ->
           cache (w_cache w5) !! key
           = Some (summary, clock env (w_clock_reads w4)) /\
           article_cache (w_cache w5) = article_cache (w_cache w3)))).
Proof.
  intros query key Hg Hc fetched w2.
  pose proof (summarize_wikipedia_miss w0 w1 request_query cached Hg Hc) as Hm.
  fold query in Hm.
  destruct (get_frame _ _ _ _ Hg) as [Hllm [Hfl Hart]].
  split.
  - intros Hnone. rewrite Hm.
    rewrite (summarize_uncached_not_found w1 query Hnone).
    split; [reflexivity|]. split; [exact Hart|]. split; [|exact Hllm].
    apply get_inv in Hg.
    destruct Hg as [[v [ts [_ [-> _]]]]|[_ [->| ->]]]; simpl; auto.
  - intros article_text article_url truncated Hf Ht Hu Htr w3 req content w4.
    destruct (set_article_frame w2 query article_text) as [Hl3 [_ [Hc3 _]]].
    fold w3 in Hl3, Hc3.
    assert (Hlog3 : w_llm_log w3 = w_llm_log w0).
    { rewrite Hl3. exact Hllm. }
    pose proof (summarize_uncached_found w1 query article_text article_url
                  truncated Hf Ht Htr) as Hrun.
    cbv zeta in Hrun. fold w2 in Hrun. fold w3 in Hrun. fold req in Hrun.
    rewrite Hlog3 in Hrun. fold content in Hrun. fold w4 in Hrun.
    split; [|split; [|split; [|split]]].
    + intros He. unfold w3. rewrite set_article_run, He. simpl.
      rewrite lookup_insert_eq. split; reflexivity.
    + unfold w4. simpl. rewrite Hlog3. reflexivity.
    + reflexivity.
    + intros Hfail. rewrite Hm, Hrun.
      destruct (PyStr.strip <$> content) as [summary|]; [|reflexivity].
      simpl in Hfail. rewrite Hfail. reflexivity.
    + intros summary Hs Hts w5. rewrite Hm, Hrun, Hs, Hts.
      split; [reflexivity|]. unfold w5. rewrite set_run.
      destruct (cache_enabled settings) eqn:He; simpl.
      * rewrite Hlog3. split; [reflexivity|]. intros _.
        rewrite lookup_insert_eq. split; reflexivity.
      * rewrite Hlog3. split; [reflexivity|]. intros Habs. discriminate.
Qed.

Lemma summarize_uncached_fetch_log w query :
  w_fetch_log (snd (summarize_uncached env query w)) = w_fetch_log w ++ [query].
Proof.
  unfold summarize_uncached. unfold bind at 1. unfold fetch_wikipedia_article.
  destruct (fetch_result env _ query) as [[t u]|]; [|reflexivity].
  destruct (negb (PyStr.truthy t) || negb (PyStr.truthy u)); [reflexivity|].
  unfold bind at 1. rewrite set_article_run. unfold bind at 1.
  unfold summarize_article.
  destruct (truncate_to_tokens env t _ _) as [tr|e].
  - unfold bind at 1. unfold create_completion.
    destruct (chat_completion env _ _) as [c|]; unfold ret;
      [|destruct (cache_enabled settings); reflexivity].
    destruct (negb (PyStr.truthy (PyStr.strip c)));
      [destruct (cache_enabled settings); reflexivity|].
    unfold bind. rewrite set_run.
    destruct (cache_enabled settings); reflexivity.
  - destruct (cache_enabled settings); reflexivity.
Qed.

Lemma summarize_uncached_ok w query response w' :
  cache_enabled settings = true ->
  summarize_uncached env query w = (Ok response, w') ->
  PyStr.truthy (resp_summary response) = true /\
  exists storedAt,
    cache (w_cache w') !! _generate_key query = Some (resp_summary response, storedAt).
Proof.
  intros He. unfold summarize_uncached. unfold bind at 1.
  unfold fetch_wikipedia_article.
  destruct (fetch_result env _ query) as [[t u]|]; [|discriminate].
  destruct (negb (PyStr.truthy t) || negb (PyStr.truthy u)); [discriminate|].
  unfold bind at 1. rewrite set_article_run. unfold bind at 1.
  unfold summarize_article.
  destruct (truncate_to_tokens env t _ _) as [tr|e]; [|discriminate].
  unfold bind at 1. unfold create_completion.
  destruct (chat_completion env _ _) as [c|]; unfold ret; [|discriminate].
  destruct (PyStr.truthy (PyStr.strip c)) eqn:Hs; simpl; [|discriminate].
  unfold bind. rewrite set_run, He. intros H. inversion H; subst. simpl.
  split; [exact Hs|]. eexists. apply lookup_insert_eq.
Qed.

Lemma get_article_total w query :
  exists cached_article w', get_article env query w = (Ok cached_article, w').
Proof.
  destruct (get_article env query w) as [r w'] eqn:H.
  destruct (get_article_inv _ _ _ _ H) as [[v [ts [-> _]]]|[-> _]]; eauto.
Qed.

Lemma summarize_wikipedia_ok w0 w1 request_query response :
  cache_enabled settings = true ->
  summarize_wikipedia env request_query w0 = (Ok response, w1) ->
  PyStr.truthy (resp_summary response) = true /\
  exists storedAt,
    cache (w_cache w1) !! _generate_key (PyStr.strip request_query)
    = Some (resp_summary response, storedAt).
Proof.
  intros He Hrun. set (query := PyStr.strip request_query) in *.
  destruct (get env query w0) as [r w] eqn:Hg.
  destruct (get_inv _ _ _ _ Hg) as [[v [ts [-> [-> [_ [Hl Hfresh]]]]]]|[-> _]].
  - destruct (PyStr.truthy v) eqn:Hv.
    + rewrite (summarize_wikipedia_hit _ _ _ _ Hg Hv) in Hrun. fold query in Hrun.
      destruct (fetch_result env (length (w_fetch_log (tick w0))) query)
        as [[t u]|] eqn:Hf.
      * destruct (get_article_total (log_fetch query (tick w0)) query)
          as [a [w3 Ha]].
        rewrite (respond_from_cache_url _ _ _ _ _ _ _ Hf Ha) in Hrun.
        inversion Hrun; subst. simpl. split; [exact Hv|]. exists ts.
        destruct (get_article_frame _ _ _ _ Ha) as [_ [_ [Hc _]]].
        destruct (set_article_frame w3 query t) as [_ [_ [Hc' _]]].
        destruct (PyStr.truthy_opt a); [rewrite Hc | rewrite Hc', Hc]; exact Hl.
      * rewrite respond_from_cache_no_url in Hrun by (rewrite Hf; reflexivity).
        exact (summarize_uncached_ok _ _ _ _ He Hrun).
    + rewrite (summarize_wikipedia_miss _ _ _ (Some v) Hg Hv) in Hrun.
      exact (summarize_uncached_ok _ _ _ _ He Hrun).
  - rewrite (summarize_wikipedia_miss _ _ _ None Hg eq_refl) in Hrun.
    exact (summarize_uncached_ok _ _ _ _ He Hrun).
Qed.

Lemma summarize_wikipedia_from_cache w0 w1 request_query cached_summary
      article_text article_url cached_article w3 :
  let query := PyStr.strip request_query in
  get env query w0 = (Ok (Some cached_summary), w1) ->
  PyStr.truthy cached_summary = true ->
  fetch_result env (length (w_fetch_log w0)) query = Some (article_text, article_url) ->
  get_article env query (log_fetch query w1) = (Ok cached_article, w3) ->
  let w4 := if PyStr.truthy_opt cached_article then w3
            else snd (set_article env query article_text w3) in
  summarize_wikipedia env request_query w0
  = (Ok {| resp_query := query; resp_summary := cached_summary;
           resp_source_url := article_url |}, w4) /\
  w_fetch_log w4 = w_fetch_log w0 ++ [query] /\
  w_llm_log w4 = w_llm_log w0 /\
  cache (w_cache w4) = cache (w_cache w0).
Proof.
  intros query Hg Hv Hf Ha w4.
  destruct (get_inv _ _ _ _ Hg) as [[v [ts [_ [Hw1 _]]]]|[Habs _]];
    [|discriminate].
  subst w1.
  rewrite (summarize_wikipedia_hit _ _ _ _ Hg Hv). fold query.
  rewrite (respond_from_cache_url (tick w0) query cached_summary
             article_text article_url cached_article w3 Hf Ha).
  fold w4. split; [reflexivity|].
  destruct (get_article_frame _ _ _ _ Ha) as [Hl [Hfl [Hc _]]].
  destruct (set_article_frame w3 query article_text) as [Hl' [Hfl' [Hc' _]]].
  unfold w4. destruct (PyStr.truthy_opt cached_article).
  - rewrite Hl, Hfl, Hc. repeat split; reflexivity.
  - rewrite Hl', Hfl', Hc', Hl, Hfl, Hc. repeat split; reflexivity.
Qed.

(** C8 (amended). On a summary-cache hit for which the fetch resolves a
    URL, [/summarize] calls the fetcher once and the language model not at
    all, stores the fetched text in the article table when [get_article]
    finds no true article there, and returns the cached summary with the
    URL just resolved. Hence, with caching enabled, after a successful
    call the summary it returned is cached, and a second call with the
    same query, made before that entry expires and with a fetch that
    resolves a URL, returns the same summary without any further call of
    the language model. *)
Theorem summarize_hit_path :
  (forall (w0 w1 w3 : World)
          (request_query cached_summary article_text article_url : string)
          (cached_article : option string),
      let query := PyStr.strip request_query in
      let key := _generate_key query in
      get env query w0 = (Ok (Some cached_summary), w1) ->
      PyStr.truthy cached_summary = true ->
      fetch_result env (length (w_fetch_log w0)) query
      = Some (article_text, article_url) ->
      get_article env query (log_fetch query w1) = (Ok cached_article, w3) ->
      let w4 := if PyStr.truthy_opt cached_article then w3
                else snd (set_article env query article_text w3) in
      summarize_wikipedia env request_query w0
      = (Ok {| resp_query := query; resp_summary := cached_summary;
               resp_source_url := article_url |}, w4) /\
      w_fetch_log w4 = w_fetch_log w0 ++ [query] /\
      w_llm_log w4 = w_llm_log w0 /\
      (PyStr.truthy_opt cached_article = false ->
       article_cache (w_cache w4) !! key
       = Some (article_text, clock env (w_clock_reads w3))))
  /\
  (forall (w0 w1 : World) (request_query : string) (response : SummarizeResponse),
      let query := PyStr.strip request_query in
      let key := _generate_key query in
      cache_enabled settings = true ->
      summarize_wikipedia env request_query w0 = (Ok response, w1) ->
      exists storedAt,
        cache (w_cache w1) !! key = Some (resp_summary response, storedAt) /\
        ((clock env (w_clock_reads w1) - storedAt < inject_Z (ttl (w_cache w1)))%Q ->
         forall article_text article_url,
           fetch_result env (length (w_fetch_log w1)) query
           = Some (article_text, article_url) ->
           exists w2,
             summarize_wikipedia env request_query w1
             = (Ok {| resp_query := query;
                      resp_summary := resp_summary response;
                      resp_source_url := article_url |}, w2) /\
             w_llm_log w2 = w_llm_log w1)).
Proof.
  split.
  - intros w0 w1 w3 request_query cached_summary article_text article_url
           cached_article query key Hg Hv Hf Ha w4.
    destruct (summarize_wikipedia_from_cache w0 w1 request_query cached_summary
                article_text article_url cached_article w3 Hg Hv Hf Ha)
      as [Hrun [Hfl [Hl _]]].
    fold query in Hrun, Hfl, Hl. fold w4 in Hrun, Hfl, Hl.
    split; [exact Hrun|]. split; [exact Hfl|]. split; [exact Hl|].
    intros Hcold. unfold w4. rewrite Hcold.
    destruct (get_inv _ _ _ _ Hg) as [[v [ts [_ [_ [He _]]]]]|[Habs _]];
      [|discriminate].
    rewrite set_article_run, He. simpl. apply lookup_insert_eq.
  - intros w0 w1 request_query response query key He Hrun.
    destruct (summarize_wikipedia_ok w0 w1 request_query response He Hrun)
      as [Hv [ts Hl]].
    exists ts. split; [exact Hl|].
    intros Hfresh article_text article_url Hf.
    pose proof (get_hit w1 query _ ts He Hl Hfresh) as Hg.
    destruct (get_article_total (log_fetch query (tick w1)) query)
      as [a [w3 Ha]].
    destruct (summarize_wikipedia_from_cache w1 (tick w1) request_query
                (resp_summary response) article_text article_url a w3
                Hg Hv Hf Ha) as [Hrun2 [_ [Hllm _]]].
    eexists. split; [exact Hrun2 | exact Hllm].
Qed.

(** C10. On a summary-cache hit for which the fetch resolves no URL,
    [/summarize] does not return the cached summary: it goes on with
    lines 112-129, which call the fetcher a second time with the same
    query; and if that call again yields no text or no URL the workflow
    raises [ArticleNotFoundError], without calling the language model,
    although the unexpired summary is still in the summary table. *)
Theorem summarize_hit_without_url (w0 w1 : World)
        (request_query cached_summary : string) :
  let query := PyStr.strip request_query in
  let key := _generate_key query in
  get env query w0 = (Ok (Some cached_summary), w1) ->
  PyStr.truthy cached_summary = true ->
  PyStr.truthy_opt
    (article_url_of (fetch_result env (length (w_fetch_log w0)) query)) = false ->
  let w2 := log_fetch query w1 in
  let again := fetch_result env (S (length (w_fetch_log w0))) query in
  summarize_wikipedia env request_query w0 = summarize_uncached env query w2 /\
  w_fetch_log (snd (summarize_wikipedia env request_query w0))
  = w_fetch_log w0 ++ [query; query] /\
  (PyStr.truthy_opt (article_text_of again) = false \/
   PyStr.truthy_opt (article_url_of again) = false ->
   summarize_wikipedia env request_query w0
   = (Raise (ArticleNotFoundError query), log_fetch query w2) /\
   w_llm_log (log_fetch query w2) = w_llm_log w0 /\
   exists storedAt,
     cache (w_cache (log_fetch query w2)) !! key = Some (cached_summary, storedAt) /\
     (clock env (w_clock_reads w0) - storedAt < inject_Z (ttl (w_cache w0)))%Q).
Proof.
  intros query key Hg Hv Hnourl w2 again.
  destruct (get_inv _ _ _ _ Hg) as [[v [ts [Hv' [Hw1 [_ [Hl Hfresh]]]]]]|[Habs _]];
    [|discriminate].
  inversion Hv'; subst v. subst w1.
  assert (Hrun : summarize_wikipedia env request_query w0
                 = summarize_uncached env query w2).
  { rewrite (summarize_wikipedia_hit _ _ _ _ Hg Hv). fold query.
    rewrite (respond_from_cache_no_url (tick w0) query cached_summary Hnourl).
    reflexivity. }
  split; [exact Hrun|]. split.
  - rewrite Hrun, summarize_uncached_fetch_log. unfold w2. simpl.
    rewrite <- app_assoc. reflexivity.
  - intros Hagain. rewrite Hrun.
    rewrite (summarize_uncached_not_found w2 query).
    + split; [reflexivity|]. split; [reflexivity|]. exists ts. simpl.
      split; [exact Hl | exact Hfresh].
    + unfold w2. simpl. rewrite length_app. simpl.
      rewrite Nat.add_1_r. exact Hagain.
Qed.

End Properties.

(** ** The one-token-per-character tokenizer *)

Lemma chr_code (c : ascii) : PyStr.chr (PyStr.code c) = c.
Proof. unfold PyStr.chr, PyStr.code. rewrite N2Z.id. apply ascii_N_embedding. Qed.

Lemma char_encoding_firstn (s : string) (n : nat) :
  encode char_encoding (decode char_encoding (firstn n (PyStr.encode s)))
  = Some (firstn n (PyStr.encode s)).
Proof.
  simpl. f_equal. unfold PyStr.encode.
  rewrite list_ascii_of_string_of_list_ascii, firstn_map, !map_map.
  apply map_ext. intros c. rewrite chr_code. reflexivity.
Qed.

(** The one-token-per-character tokenizer meets the condition of
    idempotence at every text and every budget that is not negative. *)
Lemma char_encoding_truncation_idempotent (env : Env) (text : string) (N : Z) model :
  _get_encoding env model = Ok char_encoding ->
  0 <= N ->
  exists text',
    truncate_to_tokens env text N model = Ok text' /\
    truncate_to_tokens env text' N model = Ok text'.
Proof.
  intros Hg HN.
  apply (truncate_to_tokens_idempotent_roundtrip env text N model char_encoding
           (PyStr.encode text) Hg eq_refl HN).
  unfold slice_to. destruct (Z.leb_spec 0 N); [|lia]. apply char_encoding_firstn.
Qed.


(* ===================================================================== *)
(** * Instances *)
(* ===================================================================== *)

Lemma get_returns_stored_value_iff_fresh_witness :
  cache_enabled (env_settings (env_demo default_settings)) = true /\
  get (env_demo default_settings) "Rocq" world_cached
  = (Ok (Some "A proof assistant."%string), tick world_cached).
Proof.
  split; [reflexivity|].
  destruct (get_returns_stored_value_iff_fresh
              (env_demo default_settings) world_cached "Rocq" eq_refl)
    as [[_ [H _]] _].
  apply (H "A proof assistant."%string 0%Q); vm_compute; reflexivity.
Defined.

Lemma generate_key_normalizes_witness :
  PyStr.strip (PyStr.lower " ROCQ") = PyStr.strip (PyStr.lower "rocq  ") /\
  _generate_key " ROCQ" = _generate_key "rocq  ".
Proof.
  split; [vm_compute; reflexivity|].
  destruct (generate_key_normalizes (env_demo default_settings)) as [H _].
  apply H. vm_compute. reflexivity.
Defined.

Lemma is_allowed_disabled_is_pure_witness :
  rate_limit_enabled (env_settings (env_demo settings_unlimited)) = false /\
  is_allowed (env_demo settings_unlimited) "10.0.0.7" (initial_world settings_unlimited)
  = (Ok (true, None), initial_world settings_unlimited).
Proof.
  split; [reflexivity|].
  apply (is_allowed_disabled_is_pure (env_demo settings_unlimited)
           (initial_world settings_unlimited) "10.0.0.7" eq_refl).
Defined.

(** ** The limiter *)

Lemma is_allowed_sliding_window_witness :
  rate_limit_enabled (env_settings (env_demo default_settings)) = true /\
  1 <= requests_per_minute (w_rate_limiter (initial_world default_settings)) /\
  is_allowed (env_demo default_settings) "10.0.0.7" (initial_world default_settings)
  = (Ok (true, None),
     set_window "10.0.0.7" [0%Q] (tick (initial_world default_settings))).
Proof.
  split; [reflexivity|]. split; [simpl; lia|].
  destruct (is_allowed_sliding_window (env_demo default_settings)
              (initial_world default_settings) "10.0.0.7" eq_refl)
    as [_ [_ [H _]]]; [simpl; lia|].
  apply H. vm_compute. reflexivity.
Defined.

(** The retry hint of the code is not the one the specification words:
    after ten admissions at 0, 1/4, ..., 9/4 seconds the check at 5/2
    seconds is rejected with the oldest timestamp 0 remaining; the code
    answers [int(57.5) + 1 = 58], the formula [ceil(57.5) + 1 = 59]. *)
Lemma retry_after_is_not_the_ceiling :
  let r := admissions env_quarter_seconds 11 "10.0.0.7"
             (initial_world default_settings) in
  fst r = Ok (repeat (true, None) 10 ++ [(false, Some 58)]) /\
  py_min (window (w_rate_limiter (snd r)) "10.0.0.7")
  = Some (clock env_quarter_seconds 0) /\
  retry_after_as_specified (clock env_quarter_seconds 10)
                           (clock env_quarter_seconds 0) = 59.
Proof. vm_compute. repeat split; reflexivity. Qed.

Lemma eleventh_check_is_rejected_witness :
  exists retry_after w11,
    admissions (env_demo default_settings) 11 "10.0.0.7"
      (initial_world default_settings)
    = (Ok (repeat (true, None) 10 ++ [(false, Some retry_after)]), w11) /\
    0 < retry_after <= 61 /\
    ((clock (env_demo default_settings) 10 + inject_Z retry_after
      <= clock (env_demo default_settings) 11)%Q ->
     fst (is_allowed (env_demo default_settings) "10.0.0.7" w11) = Ok (true, None)).
Proof.
  apply (eleventh_check_is_rejected (env_demo default_settings)
           (initial_world default_settings) "10.0.0.7").
  - reflexivity.
  - reflexivity.
  - intros i Hi. simpl. rewrite <- Zle_Qle. lia.
  - vm_compute. reflexivity.
  - intros s [].
Defined.

(** ** The token budget *)

Lemma truncate_to_tokens_stable_witness :
  _get_encoding (env_demo default_settings) "gpt-4o-mini" = Ok char_encoding /\
  encode char_encoding "Rocq is a proof assistant."
  = Some (PyStr.encode "Rocq is a proof assistant.") /\
  truncate_to_tokens (env_demo default_settings) "Rocq is a proof assistant." 26
    "gpt-4o-mini"
  = Ok "Rocq is a proof assistant."%string /\
  truncate_to_tokens (env_demo default_settings) "Rocq is a proof assistant." 4
    "gpt-4o-mini"
  = Ok "Rocq"%string /\
  truncate_to_tokens (env_demo default_settings) "Rocq" 4 "gpt-4o-mini"
  = Ok "Rocq"%string.
Proof.
  split; [reflexivity|]. split; [reflexivity|]. split.
  - destruct (truncate_to_tokens_stable (env_demo default_settings)
                "Rocq is a proof assistant." 26 "gpt-4o-mini" char_encoding
                (PyStr.encode "Rocq is a proof assistant.") eq_refl eq_refl)
      as [H _].
    apply H. vm_compute. discriminate.
  - destruct (truncate_to_tokens_stable (env_demo default_settings)
                "Rocq is a proof assistant." 4 "gpt-4o-mini" char_encoding
                (PyStr.encode "Rocq is a proof assistant.") eq_refl eq_refl)
      as [_ H].
    destruct H as [text' [H1 H2]].
    + exists (PyStr.encode "Rocq"). split; [reflexivity|].
      vm_compute. discriminate.
    + assert (Ht : truncate_to_tokens (env_demo default_settings)
                     "Rocq is a proof assistant." 4 "gpt-4o-mini"
                   = Ok "Rocq"%string) by (vm_compute; reflexivity).
      rewrite Ht in H1. inversion H1; subst text'.
      split; [reflexivity | exact H2].
Defined.

(** Where the claim on truncation fails: without an encoding
    [count_tokens] falls back to [len(text) // 4] while
    [truncate_to_tokens] raises; and at a negative budget the slice
    [tokens[:N]] drops tokens at each application. *)
Lemma truncate_to_tokens_not_always_stable :
  (count_tokens env_offline "abcd" "gpt-4o-mini" <= 1 /\
   truncate_to_tokens env_offline "abcd" 1 "gpt-4o-mini" = Raise ValueError) /\
  (truncate_to_tokens (env_demo default_settings) "abc" (-1) "gpt-4o-mini"
   = Ok "ab"%string /\
   truncate_to_tokens (env_demo default_settings) "ab" (-1) "gpt-4o-mini"
   = Ok "a"%string).
Proof. vm_compute. repeat split; try reflexivity. discriminate. Qed.

(** ** The workflow *)

Lemma summarize_miss_path_witness :
  get (env_demo default_settings) (PyStr.strip "Rocq") (initial_world default_settings)
  = (Ok None, initial_world default_settings) /\
  PyStr.truthy_opt None = false /\
  fst (summarize_wikipedia (env_demo default_settings) "Rocq"
         (initial_world default_settings))
  = Ok (response_demo "A proof assistant.").
Proof.
  split; [reflexivity|]. split; [reflexivity|].
  destruct (summarize_miss_path (env_demo default_settings)
              (initial_world default_settings) (initial_world default_settings)
              "Rocq" None eq_refl eq_refl) as [_ H].
  destruct (H "Rocq is a proof assistant."%string
              "https://en.wikipedia.org/wiki/Rocq_(software)"%string
              "Rocq is a proof assistant."%string
              eq_refl eq_refl eq_refl eq_refl) as [_ [_ [_ [_ Hok]]]].
  destruct (Hok "A proof assistant."%string eq_refl eq_refl) as [Hrun _].
  rewrite Hrun. reflexivity.
Defined.

(** Where the claim on the miss path fails: with caching switched off the
    workflow succeeds and stores nothing; without a tiktoken encoding the
    [ValueError] of [truncate_to_tokens] leaves the handler after the
    article was stored and before any call of the language model. *)
Lemma summarize_miss_path_not_always_stored :
  (let w := initial_world settings_uncached in
   let r := summarize_wikipedia (env_demo settings_uncached) "Rocq" w in
   fst (get (env_demo settings_uncached) "Rocq" w) = Ok None /\
   fst r = Ok (response_demo "A proof assistant.") /\
   article_cache (w_cache (snd r)) !! _generate_key "Rocq" = None /\
   cache (w_cache (snd r)) !! _generate_key "Rocq" = None) /\
  (let w := initial_world default_settings in
   let r := summarize_wikipedia env_offline "Rocq" w in
   fst (get env_offline "Rocq" w) = Ok None /\
   fst r = Raise ValueError /\
   w_llm_log (snd r) = [] /\
   article_cache (w_cache (snd r)) !! _generate_key "Rocq"
   = Some ("Rocq is a proof assistant."%string, 0%Q)).
Proof. vm_compute. repeat split; reflexivity. Qed.

Lemma summarize_hit_path_witness :
  fst (summarize_wikipedia (env_demo default_settings) "Rocq"
         (world_after (env_demo default_settings)))
  = Ok (response_demo "A proof assistant.") /\
  w_llm_log (snd (summarize_wikipedia (env_demo default_settings) "Rocq"
                    (world_after (env_demo default_settings))))
  = w_llm_log (world_after (env_demo default_settings)).
Proof.
  destruct (summarize_hit_path (env_demo default_settings)) as [H _].
  assert (Hg : get (env_demo default_settings) (PyStr.strip "Rocq")
                 (world_after (env_demo default_settings))
               = (Ok (Some "A proof assistant."%string),
                  tick (world_after (env_demo default_settings))))
    by (vm_compute; reflexivity).
  assert (Ha : get_article (env_demo default_settings) (PyStr.strip "Rocq")
                 (log_fetch (PyStr.strip "Rocq")
                    (tick (world_after (env_demo default_settings))))
               = (Ok (Some "Rocq is a proof assistant."%string),
                  tick (log_fetch (PyStr.strip "Rocq")
                          (tick (world_after (env_demo default_settings))))))
    by (vm_compute; reflexivity).
  destruct (H _ _ _ "Rocq"%string _
              "Rocq is a proof assistant."%string
              "https://en.wikipedia.org/wiki/Rocq_(software)"%string
              _ Hg eq_refl eq_refl Ha)
    as [Hrun [_ [Hllm _]]].
  rewrite Hrun. split; [reflexivity|]. exact Hllm.
Defined.

(** Where the claim on the hit path fails: the summary ["First summary."]
    is cached and unexpired, the fetch of the second request resolves no
    URL, the handler goes on, fetches again, calls the language model a
    second time and returns its new answer. *)
Lemma summary_hit_can_call_the_model :
  let w1 := world_after env_flaky in
  let r := summarize_wikipedia env_flaky "Rocq" w1 in
  fst (get env_flaky "Rocq" w1) = Ok (Some "First summary."%string) /\
  length (w_llm_log w1) = 1%nat /\
  fst r = Ok (response_demo "Second summary.") /\
  length (w_llm_log (snd r)) = 2%nat.
Proof. vm_compute. repeat split; reflexivity. Qed.

Lemma summarize_hit_without_url_witness :
  get env_outage (PyStr.strip "Rocq") (world_after env_outage)
  = (Ok (Some "A proof assistant."%string), tick (world_after env_outage)) /\
  fst (summarize_wikipedia env_outage "Rocq" (world_after env_outage))
  = Raise (ArticleNotFoundError "Rocq").
Proof.
  split; [vm_compute; reflexivity|].
  assert (Hg : get env_outage (PyStr.strip "Rocq") (world_after env_outage)
               = (Ok (Some "A proof assistant."%string),
                  tick (world_after env_outage)))
    by (vm_compute; reflexivity).
  destruct (summarize_hit_without_url env_outage (world_after env_outage)
              (tick (world_after env_outage)) "Rocq" "A proof assistant."
              Hg eq_refl eq_refl)
    as [_ [_ H]].
  destruct H as [Hrun _]; [left; vm_compute; reflexivity|].
  rewrite Hrun. reflexivity.
Defined.

(** ** Test vectors of MD5 *)

Example md5_empty : MD5.hexdigest [] = "d41d8cd98f00b204e9800998ecf8427e"%string.
Proof. vm_compute. reflexivity. Qed.

Example md5_abc :
  MD5.hexdigest (PyStr.encode "abc") = "900150983cd24fb0d6963f7d28e17f72"%string.
Proof. vm_compute. reflexivity. Qed.

Example md5_two_blocks :
  MD5.hexdigest (repeat 97 70) = "0f5c6c4e740bfcc08c3c26ccb2673d46"%string.
Proof. vm_compute. reflexivity. Qed.

Example generate_key_quantum_computing :
  _generate_key "Quantum Computing" = "7dd56d2da8bf51d0a4f437e791bb0058"%string.
Proof. vm_compute. reflexivity. Qed.

(* ===================================================================== *)
(** * Further properties of the service *)
(* ===================================================================== *)

(** ** Lowercasing and trimming *)

Lemma lower_char_idempotent (c : ascii) :
  PyStr.lower_char (PyStr.lower_char c) = PyStr.lower_char c.
Proof. destruct c as [[] [] [] [] [] [] [] []]; reflexivity. Qed.

Lemma isspace_lower_char (c : ascii) :
  PyStr.isspace (PyStr.lower_char c) = PyStr.isspace c.
Proof. destruct c as [[] [] [] [] [] [] [] []]; reflexivity. Qed.

Lemma lower_idempotent (s : string) : PyStr.lower (PyStr.lower s) = PyStr.lower s.
Proof.
  induction s as [|c s IH]; simpl; [reflexivity|].
  rewrite lower_char_idempotent, IH. reflexivity.
Qed.

Lemma lower_lstrip (s : string) :
  PyStr.lower (PyStr.lstrip s) = PyStr.lstrip (PyStr.lower s).
Proof.
  induction s as [|c s IH]; simpl; [reflexivity|].
  rewrite isspace_lower_char. destruct (PyStr.isspace c); [exact IH | reflexivity].
Qed.

Lemma lower_rstrip (s : string) :
  PyStr.lower (PyStr.rstrip s) = PyStr.rstrip (PyStr.lower s).
Proof.
  induction s as [|c s IH]; simpl; [reflexivity|].
  rewrite <- IH, isspace_lower_char.
  destruct (PyStr.rstrip s) as [|c' r]; simpl; [|reflexivity].
  destruct (PyStr.isspace c); reflexivity.
Qed.

Lemma lower_strip (s : string) :
  PyStr.lower (PyStr.strip s) = PyStr.strip (PyStr.lower s).
Proof. unfold PyStr.strip. rewrite lower_rstrip, lower_lstrip. reflexivity. Qed.

Lemma rstrip_idempotent (s : string) : PyStr.rstrip (PyStr.rstrip s) = PyStr.rstrip s.
Proof.
  induction s as [|c s IH]; simpl; [reflexivity|].
  destruct (PyStr.rstrip s) as [|c' r] eqn:Hr.
  - destruct (PyStr.isspace c) eqn:Hc; simpl; [reflexivity|]. rewrite Hc. reflexivity.
  - change (PyStr.rstrip (String c (String c' r)))
      with (match PyStr.rstrip (String c' r) with
            | EmptyString =>
                if PyStr.isspace c then EmptyString else String c EmptyString
            | r' => String c r'
            end).
    rewrite IH. reflexivity.
Qed.

Lemma lstrip_rstrip_lstrip (s : string) :
  PyStr.lstrip (PyStr.rstrip (PyStr.lstrip s)) = PyStr.rstrip (PyStr.lstrip s).
Proof.
  induction s as [|c s IH]; simpl; [reflexivity|].
  destruct (PyStr.isspace c) eqn:Hc; [exact IH|].
  simpl. destruct (PyStr.rstrip s) as [|c' r].
  - rewrite Hc. simpl. rewrite Hc. reflexivity.
  - simpl. rewrite Hc. reflexivity.
Qed.

Lemma strip_idempotent (s : string) : PyStr.strip (PyStr.strip s) = PyStr.strip s.
Proof.
  unfold PyStr.strip. rewrite lstrip_rstrip_lstrip. apply rstrip_idempotent.
Qed.

Section KeyLaws.

Context (env : Env).

Local Abbreviation settings := (env_settings env).

(** X12. The key of a query does not change when the query is trimmed
    or lowercased beforehand, so the [strip] the handlers apply to the
    request is invisible to the cache: both accessors behave on the
    trimmed query as on the raw one. *)
Theorem generate_key_absorbs_strip_and_lower (query : string) :
  _generate_key (PyStr.strip query) = _generate_key query /\
  _generate_key (PyStr.lower query) = _generate_key query /\
  (forall w, get env (PyStr.strip query) w = get env query w /\
             get_article env (PyStr.strip query) w = get_article env query w).
Proof.
  assert (Hs : _generate_key (PyStr.strip query) = _generate_key query).
  { unfold _generate_key. rewrite lower_strip, strip_idempotent. reflexivity. }
  split; [exact Hs|]. split.
  - unfold _generate_key. rewrite lower_idempotent. reflexivity.
  - intros w. unfold get, get_article. rewrite Hs. split; reflexivity.
Qed.

End KeyLaws.

(** ** The shape of the key *)

Lemma hex_length (bs : list Z) : String.length (MD5.hex bs) = (2 * length bs)%nat.
Proof. induction bs as [|b bs IH]; simpl; [reflexivity|]. rewrite IH. lia. Qed.

Lemma le_bytes_length (n : nat) (x : Z) : length (MD5.le_bytes n x) = n.
Proof. revert x. induction n as [|n IH]; intros x; simpl; [|rewrite IH]; reflexivity. Qed.

Lemma le_bytes_range (n : nat) (x : Z) :
  Forall (fun b => 0 <= b < 256) (MD5.le_bytes n x).
Proof.
  revert x. induction n as [|n IH]; intros x; simpl; constructor.
  - apply Z.mod_pos_bound. lia.
  - apply IH.
Qed.

Lemma hex_digit_is_hex (z : Z) :
  0 <= z < 16 -> is_hex_char (MD5.hex_digit z) = true.
Proof.
  intros Hz.
  assert (z = 0 \/ z = 1 \/ z = 2 \/ z = 3 \/ z = 4 \/ z = 5 \/ z = 6 \/ z = 7 \/
          z = 8 \/ z = 9 \/ z = 10 \/ z = 11 \/ z = 12 \/ z = 13 \/ z = 14 \/ z = 15)
    as H by lia.
  repeat (destruct H as [->|H]; [reflexivity|]). subst z. reflexivity.
Qed.

Lemma hex_chars (bs : list Z) :
  Forall (fun b => 0 <= b < 256) bs ->
  Forall (fun c => is_hex_char c = true) (list_ascii_of_string (MD5.hex bs)).
Proof.
  induction 1 as [|b bs Hb _ IH]; simpl; [constructor|].
  constructor; [|constructor; [|exact IH]]; apply hex_digit_is_hex.
  - split; [apply Z.div_pos; lia | apply Z.div_lt_upper_bound; lia].
  - apply Z.mod_pos_bound. lia.
Qed.

(** X13. Every cache key is a string of exactly 32 characters, each one
    of [0123456789abcdef]. *)
Theorem generate_key_is_32_hex_digits (query : string) :
  String.length (_generate_key query) = 32%nat /\
  Forall (fun c => is_hex_char c = true)
         (list_ascii_of_string (_generate_key query)).
Proof.
  unfold _generate_key, MD5.hexdigest, MD5.digest.
  destruct (MD5.blocks _ _ _) as [a b c d].
  split.
  - rewrite hex_length, !length_app, !le_bytes_length. reflexivity.
  - apply hex_chars. repeat (apply Forall_app; split); apply le_bytes_range.
Qed.

Section CacheLaws.

Context (env : Env).

Local Abbreviation settings := (env_settings env).

(** ** Laws of the cache *)

Lemma generate_key_congr (q1 q2 : string) :
  PyStr.strip (PyStr.lower q1) = PyStr.strip (PyStr.lower q2) ->
  _generate_key q1 = _generate_key q2.
Proof. intros H. unfold _generate_key. rewrite H. reflexivity. Qed.

(** X1. With caching enabled, a value stored by [set] is what the next
    [get] returns, for every spelling of the query with the same
    lowercased, trimmed form, as long as the clock advanced by less than
    the TTL between the two readings; likewise for [set_article] and
    [get_article]. *)
Theorem set_then_get_round_trip (w : World) (query query' value : string) :
  cache_enabled settings = true ->
  PyStr.strip (PyStr.lower query') = PyStr.strip (PyStr.lower query) ->
  (clock env (S (w_clock_reads w)) - clock env (w_clock_reads w)
   < inject_Z (ttl (w_cache w)))%Q ->
  get env query' (snd (set env query value w))
  = (Ok (Some value), tick (snd (set env query value w))) /\
  get_article env query' (snd (set_article env query value w))
  = (Ok (Some value), tick (snd (set_article env query value w))).
Proof.
  intros He Hq Hclock.
  split.
  - rewrite set_run, He. simpl snd.
    apply (get_hit env _ query' value (clock env (w_clock_reads w)) He).
    + simpl. rewrite (generate_key_congr _ _ Hq). apply lookup_insert_eq.
    + exact Hclock.
  - rewrite set_article_run, He. simpl snd.
    apply (get_article_hit env _ query' value (clock env (w_clock_reads w)) He).
    + simpl. rewrite (generate_key_congr _ _ Hq). apply lookup_insert_eq.
    + exact Hclock.
Qed.

(** X2. Each cache operation touches its own table at its own key only:
    [get] and [set] leave the article table alone, [get_article] and
    [set_article] leave the summary table alone, entries under other keys
    are untouched, and none of them changes the TTL, the rate limiter or
    the logs of the collaborators. *)
Theorem cache_operations_frame (w : World) (query value : string) :
  let key := _generate_key query in
  let same_elsewhere (w' : World) :=
    ttl (w_cache w') = ttl (w_cache w) /\
    w_rate_limiter w' = w_rate_limiter w /\
    w_fetch_log w' = w_fetch_log w /\
    w_llm_log w' = w_llm_log w in
  let summaries_only (w' : World) :=
    article_cache (w_cache w') = article_cache (w_cache w) /\
    (forall k, k <> key -> cache (w_cache w') !! k = cache (w_cache w) !! k) /\
    same_elsewhere w' in
  let articles_only (w' : World) :=
    cache (w_cache w') = cache (w_cache w) /\
    (forall k, k <> key ->
               article_cache (w_cache w') !! k = article_cache (w_cache w) !! k) /\
    same_elsewhere w' in
  summaries_only (snd (get env query w)) /\
  summaries_only (snd (set env query value w)) /\
  articles_only (snd (get_article env query w)) /\
  articles_only (snd (set_article env query value w)).
Proof.
  intros key same_elsewhere summaries_only articles_only.
  unfold summaries_only, articles_only, same_elsewhere.
  split; [|split; [|split]].
  - destruct (get env query w) as [r w'] eqn:Hg. simpl.
    destruct (get_inv env _ _ _ _ Hg) as [[v [ts [_ [-> _]]]]|[_ [->| ->]]];
      simpl; repeat split; try reflexivity.
    intros k Hk. apply lookup_delete_ne. intros E. apply Hk. symmetry. exact E.
  - rewrite set_run. destruct (cache_enabled settings); simpl;
      repeat split; try reflexivity.
    intros k Hk. apply lookup_insert_ne. intros E. apply Hk. symmetry. exact E.
  - destruct (get_article env query w) as [r w'] eqn:Hg. simpl.
    destruct (get_article_inv env _ _ _ _ Hg) as [[v [ts [_ [-> _]]]]|[_ [->| ->]]];
      simpl; repeat split; try reflexivity.
    intros k Hk. apply lookup_delete_ne. intros E. apply Hk. symmetry. exact E.
  - rewrite set_article_run. destruct (cache_enabled settings); simpl;
      repeat split; try reflexivity.
    intros k Hk. apply lookup_insert_ne. intros E. apply Hk. symmetry. exact E.
Qed.

(** X3. An entry that has outlived the TTL still counts in [size] until
    it is read: the [get] that finds it expired lowers the size by one,
    and a second [get] is a plain miss that changes nothing and does not
    read the clock. *)
Theorem expired_entry_counts_until_read (w : World) (query value : string)
        (storedAt : Q) :
  cache_enabled settings = true ->
  cache (w_cache w) !! _generate_key query = Some (value, storedAt) ->
  (inject_Z (ttl (w_cache w)) <= clock env (w_clock_reads w) - storedAt)%Q ->
  let w' := snd (get env query w) in
  fst (get env query w) = Ok None /\
  (exists n, size w = (Ok (n + 1), w) /\ size w' = (Ok n, w')) /\
  get env query w' = (Ok None, w').
Proof.
  intros He Hl Hx w'. unfold w'.
  rewrite (get_expired env w query value storedAt He Hl Hx). simpl.
  split; [reflexivity|]. split.
  - exists (Z.of_nat (base.size (delete (_generate_key query) (cache (w_cache w))))).
    unfold size, bind, gets, ret. simpl. split; [|reflexivity].
    f_equal. f_equal. rewrite map_size_delete, Hl. simpl.
    assert (base.size (cache (w_cache w)) <> 0%nat).
    { apply map_size_non_empty_iff. intros Hm. rewrite Hm in Hl.
      rewrite lookup_empty in Hl. discriminate. }
    lia.
  - apply get_absent. simpl. apply lookup_delete_eq.
Qed.

(** X4. With caching enabled, [set] raises the size by one when the key
    is new and leaves it as it is when the key already has an entry, which
    it overwrites. *)
Theorem set_grows_size_for_new_keys_only (w : World) (query value : string) :
  cache_enabled settings = true ->
  let w' := snd (set env query value w) in
  let n := Z.of_nat (base.size (cache (w_cache w))) in
  cache (w_cache w') !! _generate_key query
  = Some (value, clock env (w_clock_reads w)) /\
  fst (size w')
  = Ok (match cache (w_cache w) !! _generate_key query with
        | Some _ => n
        | None => n + 1
        end).
Proof.
  intros He w' n. unfold w'. rewrite set_run, He. simpl.
  split; [apply lookup_insert_eq|].
  unfold n. f_equal. rewrite map_size_insert.
  destruct (cache (w_cache w) !! _generate_key query); simpl; lia.
Qed.

(** X5. After [clear], whether caching is enabled or not, every [get] and
    [get_article] is a miss that reads no clock, and [size] is 0; the TTL
    and the rate limiter are kept. *)
Theorem clear_forgets_every_entry (w : World) (query : string) :
  let w' := snd (clear w) in
  fst (clear w) = Ok tt /\
  get env query w' = (Ok None, w') /\
  get_article env query w' = (Ok None, w') /\
  size w' = (Ok 0, w') /\
  ttl (w_cache w') = ttl (w_cache w) /\
  w_rate_limiter w' = w_rate_limiter w.
Proof.
  intros w'. split; [reflexivity|]. split; [|split].
  - apply get_absent. apply lookup_empty.
  - apply get_article_absent. apply lookup_empty.
  - repeat split.
Qed.

End CacheLaws.

Section LimiterLaws.

Context (env : Env).

Local Abbreviation settings := (env_settings env).

(** ** Laws of the rate limiter *)

(** The four ways [is_allowed] can end. *)
Lemma is_allowed_cases (w : World) (c : string) :
  let now := clock env (w_clock_reads w) in
  let remaining := remaining_at now w c in
  let limit := requests_per_minute (w_rate_limiter w) in
  (rate_limit_enabled settings = false /\
   is_allowed env c w = (Ok (true, None), w)) \/
  (rate_limit_enabled settings = true /\ len remaining < limit /\
   is_allowed env c w
   = (Ok (true, None), set_window c (remaining ++ [now]) (tick w))) \/
  (rate_limit_enabled settings = true /\ limit <= len remaining /\
   exists oldest,
     In oldest remaining /\
     is_allowed env c w
     = (Ok (false, Some (py_int (60 - (now - oldest)) + 1)),
        set_window c remaining (tick w))) \/
  (rate_limit_enabled settings = true /\ limit <= 0 /\ remaining = [] /\
   is_allowed env c w = (Raise ValueError, set_window c [] (tick w))).
Proof.
  intros now remaining limit.
  destruct (rate_limit_enabled settings) eqn:He.
  - right. pose proof (is_allowed_enabled env w c He) as H. cbv zeta in H.
    fold now in H. fold remaining in H. fold limit in H.
    destruct (Z.leb_spec limit (len remaining)) as [Hle|Hlt].
    + destruct (py_min remaining) as [oldest|] eqn:Hmin.
      * right. left. split; [reflexivity|]. split; [exact Hle|].
        exists oldest. split; [|exact H].
        destruct (py_min_spec _ _ Hmin) as [Hin _]. exact Hin.
      * right. right. destruct remaining as [|x l] eqn:Hr; [|discriminate].
        split; [reflexivity|]. split; [exact Hle|]. split; [reflexivity|].
        exact H.
    + left. split; [reflexivity|]. split; [exact Hlt | exact H].
  - left. split; [reflexivity|]. unfold is_allowed. rewrite He. reflexivity.
Qed.

Lemma window_tick (w : World) (c : string) (l : list Q) :
  window (w_rate_limiter (set_window c l (tick w))) c = l.
Proof. unfold set_window. simpl. apply window_set_requests. Qed.

(** X6. With a limit of at least one, [is_allowed] never raises: it
    returns its pair whatever the state of the windows. *)
Theorem is_allowed_returns_when_limit_positive (w : World) (client_id : string) :
  1 <= requests_per_minute (w_rate_limiter w) ->
  exists allowed retry_after w',
    is_allowed env client_id w = (Ok (allowed, retry_after), w').
Proof.
  intros Hlim.
  destruct (is_allowed_cases w client_id)
    as [[_ H]|[[_ [_ H]]|[[_ [_ [o [_ H]]]]|[_ [Hle _]]]]]; eauto; lia.
Qed.

(** X7. With rate limiting enabled and a limit of zero or less, no check
    is ever admitted, and a check that finds no timestamp younger than a
    minute raises the [ValueError] of [min] on an empty list, after the
    window was pruned and the clock read. *)
Theorem is_allowed_with_limit_below_one (w : World) (client_id : string) :
  rate_limit_enabled settings = true ->
  requests_per_minute (w_rate_limiter w) <= 0 ->
  let now := clock env (w_clock_reads w) in
  (forall allowed retry_after w',
      is_allowed env client_id w = (Ok (allowed, retry_after), w') ->
      allowed = false) /\
  (remaining_at now w client_id = [] ->
   is_allowed env client_id w
   = (Raise ValueError, set_window client_id [] (tick w))).
Proof.
  intros He Hlim now.
  destruct (is_allowed_cases w client_id)
    as [[Hd _]|[[_ [Hlt H]]|[[_ [_ [o [Hin H]]]]|[_ [_ [Hr H]]]]]].
  - congruence.
  - unfold len in Hlt. lia.
  - split.
    + intros a r w' Hrun. rewrite H in Hrun. inversion Hrun. reflexivity.
    + intros Hnil. fold now in Hin. rewrite Hnil in Hin. destruct Hin.
  - split.
    + intros a r w' Hrun. rewrite H in Hrun. discriminate.
    + intros _. exact H.
Qed.

(** X8. [check_rate_limit] passes exactly when [is_allowed] admits; a
    rejection always carries a hint of at least one second, and
    [RateLimitError] is raised with that very hint, so the default of 60
    is never used; an exception of [is_allowed] goes through. *)
Theorem check_rate_limit_outcomes (w : World) (client : option string) :
  match is_allowed env (get_client_id client) w with
  | (Ok (true, _), w') => check_rate_limit env client w = (Ok tt, w')
  | (Ok (false, Some retry_after), w') =>
      1 <= retry_after /\
      check_rate_limit env client w = (Raise (RateLimitError retry_after), w')
  | (Ok (false, None), _) => False
  | (Raise e, w') => check_rate_limit env client w = (Raise e, w')
  end.
Proof.
  unfold check_rate_limit, bind.
  destruct (is_allowed_cases w (get_client_id client))
    as [[_ H]|[[_ [_ H]]|[[_ [_ [o [Hin H]]]]|[_ [_ [_ H]]]]]];
    rewrite H; try reflexivity.
  apply filter_fresh_In in Hin. destruct Hin as [_ Hfresh].
  assert (Hpos : 1 <= py_int (60 - (clock env (w_clock_reads w) - o)) + 1).
  { rewrite py_int_nonneg by lra.
    assert (H0 : Qfloor 0 <= Qfloor (60 - (clock env (w_clock_reads w) - o)))
      by (apply Qfloor_resp_le; lra).
    change (Qfloor 0) with 0 in H0. lia. }
  split; [exact Hpos|]. simpl.
  destruct (Z.eqb_spec (py_int (60 - (clock env (w_clock_reads w) - o)) + 1) 0);
    [lia | reflexivity].
Qed.

(** X9. A check of one client changes nothing for the others: the
    window of every other client, the limit, the cache and the logs of the
    collaborators are as before. *)
Theorem is_allowed_isolates_clients (w : World) (client_id other : string) :
  other <> client_id ->
  let w' := snd (is_allowed env client_id w) in
  requests (w_rate_limiter w') !! other = requests (w_rate_limiter w) !! other /\
  requests_per_minute (w_rate_limiter w') = requests_per_minute (w_rate_limiter w) /\
  w_cache w' = w_cache w /\
  w_fetch_log w' = w_fetch_log w /\
  w_llm_log w' = w_llm_log w.
Proof.
  intros Hne w'. unfold w'.
  destruct (is_allowed_cases w client_id)
    as [[_ H]|[[_ [_ H]]|[[_ [_ [o [_ H]]]]|[_ [_ [_ H]]]]]];
    rewrite H; simpl; repeat split; try reflexivity;
    apply lookup_insert_ne; congruence.
Qed.

(** X10. After a check made with rate limiting enabled, the client has an
    entry in [requests], rejected or not; every timestamp in it is younger
    than 60 seconds at the reading of the check; and a window that held at
    most [limit] timestamps still does. *)
Theorem is_allowed_keeps_window_fresh_and_bounded (w : World) (client_id : string) :
  rate_limit_enabled settings = true ->
  let now := clock env (w_clock_reads w) in
  let limit := requests_per_minute (w_rate_limiter w) in
  let w' := snd (is_allowed env client_id w) in
  is_Some (requests (w_rate_limiter w') !! client_id) /\
  (forall t, In t (window (w_rate_limiter w') client_id) -> (now - 60 < t)%Q) /\
  (len (window (w_rate_limiter w) client_id) <= limit ->
   len (window (w_rate_limiter w') client_id) <= limit).
Proof.
  intros He now limit w'. unfold w'.
  assert (Hfilter : len (remaining_at now w client_id)
                    <= len (window (w_rate_limiter w) client_id)).
  { unfold len, remaining_at. apply Nat2Z.inj_le, filter_length_le. }
  destruct (is_allowed_cases w client_id)
    as [[Hd _]|[[_ [Hlt H]]|[[_ [_ [o [_ H]]]]|[_ [Hle [Hr H]]]]]];
    [congruence| | |]; rewrite H; simpl snd; rewrite window_tick.
  - split; [simpl; rewrite lookup_insert_eq; eauto|]. split.
    + intros t Ht. apply in_app_or in Ht. destruct Ht as [Ht|[<-|[]]].
      * apply filter_fresh_In in Ht. tauto.
      * fold now. lra.
    + intros _. fold now in Hlt. fold limit in Hlt. unfold len in *.
      rewrite length_app. cbn [length]. fold now. lia.
  - split; [simpl; rewrite lookup_insert_eq; eauto|]. split.
    + intros t Ht. apply filter_fresh_In in Ht. tauto.
    + fold now. lia.
  - split; [simpl; rewrite lookup_insert_eq; eauto|]. split.
    + intros t [].
    + fold now in Hr. rewrite Hr in Hfilter. unfold len in *. simpl. lia.
Qed.

(** X11. [reset] removes the client's entry and nothing else; the
    client's next check, with rate limiting enabled and a limit of at
    least one, is admitted and starts a window holding that reading
    alone. *)
Theorem reset_clears_one_client (w : World) (client_id : string) :
  let w' := snd (reset client_id w) in
  fst (reset client_id w) = Ok tt /\
  requests (w_rate_limiter w') !! client_id = None /\
  (forall other, other <> client_id ->
     requests (w_rate_limiter w') !! other = requests (w_rate_limiter w) !! other) /\
  w_cache w' = w_cache w /\
  (rate_limit_enabled settings = true ->
   1 <= requests_per_minute (w_rate_limiter w) ->
   is_allowed env client_id w'
   = (Ok (true, None),
      set_window client_id [clock env (w_clock_reads w)] (tick w'))).
Proof.
  intros w'. split; [reflexivity|]. split; [apply lookup_delete_eq|].
  split; [|split; [reflexivity|]].
  - intros other Hne. apply lookup_delete_ne. congruence.
  - intros He Hlim. pose proof (is_allowed_enabled env w' client_id He) as H.
    cbv zeta in H.
    assert (Hrem : remaining_at (clock env (w_clock_reads w')) w' client_id = []).
    { unfold remaining_at, window. unfold w' at 2. simpl.
      rewrite lookup_delete_eq. reflexivity. }
    rewrite Hrem in H.
    change (requests_per_minute (w_rate_limiter w'))
      with (requests_per_minute (w_rate_limiter w)) in H.
    destruct (Z.leb_spec (requests_per_minute (w_rate_limiter w)) (len (@nil Q)))
      as [Hle|_]; [unfold len in Hle; simpl in Hle; lia|].
    exact H.
Qed.

End LimiterLaws.

Lemma has_space_app (a b : string) :
  has_space (a ++ b) = has_space a || has_space b.
Proof.
  unfold has_space. induction a as [|c a IH]; simpl; [reflexivity|].
  rewrite IH. apply orb_assoc.
Qed.

Lemma replace_space_has_no_space (s : string) : has_space (replace_space s) = false.
Proof.
  unfold has_space. induction s as [|c s IH]; [reflexivity|].
  cbn [replace_space list_ascii_of_string existsb]. rewrite IH, orb_false_r.
  destruct (Ascii.eqb_spec c " "%char) as [->|Hne]; [reflexivity|].
  destruct (Ascii.eqb_spec " "%char c) as [Heq|_]; [congruence | reflexivity].
Qed.

Section BudgetLaws.

Context (env : Env).

Local Abbreviation settings := (env_settings env).

(** ** Laws of the token budget *)

(** X14. With a budget that is not negative and a tokenizer that gives
    back the tokens it decoded, the text returned by [truncate_to_tokens]
    counts at most [N] tokens for [count_tokens]. *)
Theorem truncated_text_fits_the_budget (text model : string) (N : Z)
        (encoding : Encoding) (tokens : list Z) :
  _get_encoding env model = Ok encoding ->
  encode encoding text = Some tokens ->
  0 <= N ->
  encode encoding (decode encoding (slice_to tokens N)) = Some (slice_to tokens N) ->
  exists text',
    truncate_to_tokens env text N model = Ok text' /\
    count_tokens env text' model <= N.
Proof.
  intros Hg He HN Hrt. rewrite (truncate_to_tokens_encoded env _ _ _ _ _ Hg He).
  destruct (Z.leb_spec (len tokens) N) as [Hle|Hgt]; eexists; split;
    try reflexivity.
  - rewrite (count_tokens_encoded env _ _ _ _ Hg He). exact Hle.
  - rewrite (count_tokens_encoded env _ _ _ _ Hg Hrt).
    apply slice_to_length. exact HN.
Qed.

(** X15. [_get_encoding] raises exactly when tiktoken knows neither the
    model nor [cl100k_base] nor [p50k_base]. Whenever it raises, or the
    encoding cannot encode the text, [count_tokens] answers
    [len(text) // 4] while [truncate_to_tokens] raises; and
    [count_tokens] is never negative. *)
Theorem tokenizer_fallbacks (model text : string) (N : Z) :
  (_get_encoding env model = Raise ValueError <->
   encoding_for_model env model = None /\
   get_encoding env "cl100k_base" = None /\
   get_encoding env "p50k_base" = None) /\
  (forall e, _get_encoding env model = Raise e ->
             count_tokens env text model = PyStr.len text / 4 /\
             truncate_to_tokens env text N model = Raise e) /\
  (forall encoding,
      _get_encoding env model = Ok encoding ->
      encode encoding text = None ->
      count_tokens env text model = PyStr.len text / 4 /\
      truncate_to_tokens env text N model = Raise ValueError) /\
  0 <= count_tokens env text model.
Proof.
  split; [|split; [|split]].
  - unfold _get_encoding.
    destruct (encoding_for_model env model);
      [split; [discriminate | intros [H _]; discriminate]|].
    destruct (get_encoding env "cl100k_base");
      [split; [discriminate | intros [_ [H _]]; discriminate]|].
    destruct (get_encoding env "p50k_base");
      [split; [discriminate | intros [_ [_ H]]; discriminate]|].
    split; auto.
  - intros e Hg. unfold count_tokens, truncate_to_tokens. rewrite Hg.
    split; reflexivity.
  - intros encoding Hg He. unfold count_tokens, truncate_to_tokens.
    rewrite Hg, He. split; reflexivity.
  - assert (Hfb : 0 <= PyStr.len text / 4).
    { apply Z.div_pos; [unfold PyStr.len; lia | lia]. }
    unfold count_tokens. destruct (_get_encoding env model) as [encoding|e];
      [|exact Hfb].
    destruct (encode encoding text); [unfold len; lia | exact Hfb].
Qed.

(** X16. [summarize_article] lets the exception of [truncate_to_tokens]
    through without calling the model; otherwise it calls the completion
    endpoint exactly once, on the prompt built from the truncated text and
    the word limit (the setting when none is given), never raises, returns
    [None] exactly when the call fails, and returns a summary without
    surrounding whitespace. The cache is not touched. *)
Theorem summarize_article_outcomes (article_text : string) (max_words : option Z)
        (w : World) :
  let words := default (max_summary_words settings) max_words in
  match truncate_to_tokens env article_text (max_input_tokens settings)
          "gpt-4o-mini" with
  | Raise e => summarize_article env article_text max_words w = (Raise e, w)
  | Ok truncated =>
      let req := summary_request env words truncated in
      let content := chat_completion env (length (w_llm_log w)) req in
      summarize_article env article_text max_words w
      = (Ok (PyStr.strip <$> content), log_llm req w) /\
      (forall summary, PyStr.strip <$> content = Some summary ->
                       PyStr.strip summary = summary)
  end.
Proof.
  intros words. unfold summarize_article.
  replace (match max_words with
           | Some n => n
           | None => max_summary_words settings
           end) with words by (destruct max_words; reflexivity).
  destruct (truncate_to_tokens env article_text _ _) as [truncated|e];
    [|reflexivity].
  cbv zeta. unfold bind, create_completion, ret.
  destruct (chat_completion env _ _) as [c|]; simpl.
  - split; [reflexivity|]. intros summary H. inversion H.
    apply strip_idempotent.
  - split; [reflexivity | discriminate].
Qed.

End BudgetLaws.

Section WorkflowLaws.

Context (env : Env).

Local Abbreviation settings := (env_settings env).

(** ** Laws of the [/summarize] workflow *)

Lemma fetch_result_url k query article_text article_url :
  fetch_result env k query = Some (article_text, article_url) ->
  exists page_title,
    article_url = (wiki_prefix ++ replace_space page_title)%string.
Proof.
  unfold fetch_result. destruct (wikipedia env k query) as [[t p]|]; [|discriminate].
  intros H. inversion H. exists p. reflexivity.
Qed.

Lemma truncate_to_tokens_raises_value_error text max_tokens model e :
  truncate_to_tokens env text max_tokens model = Raise e -> e = ValueError.
Proof.
  unfold truncate_to_tokens, _get_encoding.
  destruct (encoding_for_model env model) as [enc|].
  - destruct (encode enc text); [destruct (_ <=? _); discriminate|].
    intros H; inversion H; reflexivity.
  - destruct (get_encoding env "cl100k_base") as [enc|].
    + destruct (encode enc text); [destruct (_ <=? _); discriminate|].
      intros H; inversion H; reflexivity.
    + destruct (get_encoding env "p50k_base") as [enc|].
      * destruct (encode enc text); [destruct (_ <=? _); discriminate|].
        intros H; inversion H; reflexivity.
      * intros H; inversion H; reflexivity.
Qed.

(** How lines 112-129 end, case by case. *)
Lemma summarize_uncached_cases (w : World) (query : string) :
  let w1 := log_fetch query w in
  match fetch_result env (length (w_fetch_log w)) query with
  | None =>
      summarize_uncached env query w = (Raise (ArticleNotFoundError query), w1)
  | Some (article_text, article_url) =>
      if PyStr.truthy article_text then
        let w2 := snd (set_article env query article_text w1) in
        match truncate_to_tokens env article_text (max_input_tokens settings)
                "gpt-4o-mini" with
        | Raise e => summarize_uncached env query w = (Raise e, w2)
        | Ok truncated =>
            let req := summary_request env (max_summary_words settings) truncated in
            let w3 := log_llm req w2 in
            match PyStr.strip <$> chat_completion env (length (w_llm_log w)) req with
            | Some summary =>
                if PyStr.truthy summary then
                  summarize_uncached env query w
                  = (Ok {| resp_query := query; resp_summary := summary;
                           resp_source_url := article_url |},
                     snd (set env query summary w3))
                else
                  summarize_uncached env query w
                  = (Raise (SummarizationError summarization_failed), w3)
            | None =>
                summarize_uncached env query w
                = (Raise (SummarizationError summarization_failed), w3)
            end
        end
      else
        summarize_uncached env query w = (Raise (ArticleNotFoundError query), w1)
  end.
Proof.
  intros w1.
  destruct (fetch_result env (length (w_fetch_log w)) query) as [[t u]|] eqn:Hf.
  - destruct (PyStr.truthy t) eqn:Ht.
    + destruct (truncate_to_tokens env t _ _) as [tr|e] eqn:Htr.
      * pose proof (summarize_uncached_found env w query t u tr Hf Ht Htr) as H.
        cbv zeta in H. fold w1 in H.
        destruct (set_article_frame env w1 query t) as [Hl _]. cbv zeta in Hl.
        rewrite Hl in H. change (w_llm_log w1) with (w_llm_log w) in H.
        cbv zeta.
        destruct (PyStr.strip <$> chat_completion env _ _) as [summary|];
          [|exact H].
        destruct (PyStr.truthy summary); exact H.
      * cbv zeta. unfold summarize_uncached. unfold bind at 1.
        unfold fetch_wikipedia_article. rewrite Hf, Ht.
        rewrite (fetch_result_url_truthy env _ _ _ _ Hf). cbn [negb orb].
        unfold bind at 1. rewrite set_article_run. unfold bind at 1.
        unfold summarize_article. rewrite Htr. fold w1.
        rewrite set_article_run. reflexivity.
    + apply summarize_uncached_not_found. rewrite Hf. left. simpl. exact Ht.
  - apply summarize_uncached_not_found. rewrite Hf. left. reflexivity.
Qed.

(** The two ways through [summarize_wikipedia]: the return from the
    block of the cached summary, or lines 112-129 from a world [w1] that
    differs from [w] by the lookup and, possibly, one fetch. *)
Lemma summarize_wikipedia_paths (w : World) (request_query : string) :
  let query := PyStr.strip request_query in
  (exists w1 cached_summary article_text article_url cached_article w3,
      get env query w = (Ok (Some cached_summary), w1) /\
      PyStr.truthy cached_summary = true /\
      fetch_result env (length (w_fetch_log w)) query
      = Some (article_text, article_url) /\
      get_article env query (log_fetch query w1) = (Ok cached_article, w3) /\
      summarize_wikipedia env request_query w
      = (Ok {| resp_query := query; resp_summary := cached_summary;
               resp_source_url := article_url |},
         if PyStr.truthy_opt cached_article then w3
         else snd (set_article env query article_text w3)))
  \/
  (exists w1,
      summarize_wikipedia env request_query w = summarize_uncached env query w1 /\
      (w_fetch_log w1 = w_fetch_log w \/ w_fetch_log w1 = w_fetch_log w ++ [query]) /\
      w_llm_log w1 = w_llm_log w /\
      w_rate_limiter w1 = w_rate_limiter w /\
      ttl (w_cache w1) = ttl (w_cache w) /\
      article_cache (w_cache w1) = article_cache (w_cache w) /\
      (cache_enabled settings = false -> w1 = w)).
Proof.
  intros query.
  destruct (get env query w) as [r w1] eqn:Hg.
  destruct (get_inv env _ _ _ _ Hg) as [[v [ts [-> [-> [He _]]]]]|[-> Hw1]].
  - destruct (PyStr.truthy v) eqn:Hv.
    + rewrite (summarize_wikipedia_hit env _ _ _ _ Hg Hv). fold query.
      destruct (fetch_result env (length (w_fetch_log w)) query) as [[t u]|] eqn:Hf.
      * left. destruct (get_article_total env (log_fetch query (tick w)) query)
          as [a [w3 Ha]].
        exists (tick w), v, t, u, a, w3.
        rewrite (respond_from_cache_url env (tick w) query v t u a w3 Hf Ha).
        auto.
      * right. exists (log_fetch query (tick w)).
        rewrite respond_from_cache_no_url by (simpl; rewrite Hf; reflexivity).
        repeat split; auto. intros Hd. congruence.
    + right. exists (tick w).
      rewrite (summarize_wikipedia_miss env _ _ _ (Some v) Hg Hv).
      repeat split; auto. intros Hd. congruence.
  - right. exists w1.
    rewrite (summarize_wikipedia_miss env _ _ _ None Hg eq_refl).
    split; [reflexivity|].
    assert (Hdis : cache_enabled settings = false -> w1 = w).
    { intros Hd. unfold get in Hg. rewrite Hd in Hg. inversion Hg. reflexivity. }
    destruct Hw1 as [->| ->]; simpl; repeat split; auto.
Qed.

(** X17. What [summarize_wikipedia] can answer: a response whose query
    is the trimmed request, whose summary is not empty and whose URL is
    the wiki prefix followed by a title without spaces; or
    [ArticleNotFoundError] for the trimmed query; or [SummarizationError]
    with its fixed message; or the [ValueError] of the tokenizer. It never
    raises [RateLimitError]. *)
Theorem summarize_wikipedia_outcomes (w : World) (request_query : string) :
  let query := PyStr.strip request_query in
  match fst (summarize_wikipedia env request_query w) with
  | Ok response =>
      resp_query response = query /\
      PyStr.truthy (resp_summary response) = true /\
      has_space (resp_source_url response) = false /\
      exists page_title,
        resp_source_url response = (wiki_prefix ++ replace_space page_title)%string
  | Raise (ArticleNotFoundError q) => q = query
  | Raise (SummarizationError message) => message = summarization_failed
  | Raise ValueError =>
      exists article_text,
        truncate_to_tokens env article_text (max_input_tokens settings)
          "gpt-4o-mini" = Raise ValueError
  | Raise (RateLimitError _) => False
  end.
Proof.
  intros query.
  assert (Hurl : forall k t u, fetch_result env k query = Some (t, u) ->
                   has_space u = false /\
                   exists p, u = (wiki_prefix ++ replace_space p)%string).
  { intros k t u Hf. destruct (fetch_result_url k query t u Hf) as [p ->].
    split; [|eauto]. rewrite has_space_app, replace_space_has_no_space.
    reflexivity. }
  destruct (summarize_wikipedia_paths w request_query)
    as [[w1 [s [t [u [a [w3 [_ [Hs [Hf [_ Hrun]]]]]]]]]]|[w1 [Hrun _]]];
    fold query in Hrun; rewrite Hrun; simpl.
  - destruct (Hurl _ _ _ Hf) as [Hns Hp]. auto.
  - pose proof (summarize_uncached_cases w1 query) as Hc. cbv zeta in Hc.
    destruct (fetch_result env (length (w_fetch_log w1)) query) as [[t u]|] eqn:Hf;
      [|rewrite Hc; reflexivity].
    destruct (PyStr.truthy t); [|rewrite Hc; reflexivity].
    destruct (truncate_to_tokens env t _ _) as [tr|e] eqn:Htr.
    + destruct (PyStr.strip <$> chat_completion env _ _) as [summary|];
        [|rewrite Hc; reflexivity].
      destruct (PyStr.truthy summary) eqn:Hsum; rewrite Hc; simpl;
        [|reflexivity].
      destruct (Hurl _ _ _ Hf) as [Hns Hp]. auto.
    + pose proof (truncate_to_tokens_raises_value_error _ _ _ _ Htr) as ->.
      rewrite Hc. simpl. exists t. exact Htr.
Qed.


Lemma set_frame (w : World) (query summary : string) :
  let w' := snd (set env query summary w) in
  w_llm_log w' = w_llm_log w /\ w_fetch_log w' = w_fetch_log w /\
  w_rate_limiter w' = w_rate_limiter w /\
  article_cache (w_cache w') = article_cache (w_cache w) /\
  ttl (w_cache w') = ttl (w_cache w) /\
  (cache_enabled settings = false -> w' = w).
Proof.
  simpl. rewrite set_run. destruct (cache_enabled settings); simpl;
    repeat split; auto; discriminate.
Qed.

Lemma set_article_frame' (w : World) (query article_text : string) :
  let w' := snd (set_article env query article_text w) in
  w_llm_log w' = w_llm_log w /\ w_fetch_log w' = w_fetch_log w /\
  w_rate_limiter w' = w_rate_limiter w /\
  cache (w_cache w') = cache (w_cache w) /\
  ttl (w_cache w') = ttl (w_cache w) /\
  (cache_enabled settings = false -> w' = w).
Proof.
  simpl. rewrite set_article_run. destruct (cache_enabled settings); simpl;
    repeat split; auto; discriminate.
Qed.

(** What lines 112-129 leave behind, whatever their outcome. *)
Lemma summarize_uncached_frame (w : World) (query : string) :
  let w' := snd (summarize_uncached env query w) in
  w_fetch_log w' = w_fetch_log w ++ [query] /\
  (w_llm_log w' = w_llm_log w \/ exists req, w_llm_log w' = w_llm_log w ++ [req]) /\
  w_rate_limiter w' = w_rate_limiter w /\
  ttl (w_cache w') = ttl (w_cache w) /\
  (cache_enabled settings = false ->
   w_cache w' = w_cache w /\ w_clock_reads w' = w_clock_reads w).
Proof.
  intros w'. unfold w'.
  pose proof (summarize_uncached_cases w query) as Hc. cbv zeta in Hc.
  destruct (fetch_result env (length (w_fetch_log w)) query) as [[t u]|];
    [|rewrite Hc; simpl; auto 10].
  destruct (PyStr.truthy t); [|rewrite Hc; simpl; auto 10].
  destruct (set_article_frame' (log_fetch query w) query t)
    as [Hl [Hf [Hr [_ [Ht Hd]]]]]. cbv zeta in Hl, Hf, Hr, Ht, Hd.
  destruct (truncate_to_tokens env t _ _) as [tr|e].
  - set (req := summary_request env (max_summary_words settings) tr) in *.
    set (w3 := log_llm req (snd (set_article env query t (log_fetch query w)))) in *.
    assert (H3 : w_fetch_log w3 = w_fetch_log w ++ [query] /\
                 w_llm_log w3 = w_llm_log w ++ [req] /\
                 w_rate_limiter w3 = w_rate_limiter w /\
                 ttl (w_cache w3) = ttl (w_cache w) /\
                 (cache_enabled settings = false ->
                  w_cache w3 = w_cache w /\ w_clock_reads w3 = w_clock_reads w)).
    { unfold w3. simpl. rewrite Hl, Hf, Hr, Ht. repeat split; auto;
        rewrite (Hd H); reflexivity. }
    destruct H3 as [H3f [H3l [H3r [H3t H3d]]]].
    destruct (PyStr.strip <$> chat_completion env _ _) as [summary|];
      [|rewrite Hc; simpl; eauto 10].
    destruct (PyStr.truthy summary); rewrite Hc; simpl; [|eauto 10].
    destruct (set_frame w3 query summary) as [Sl [Sf [Sr [_ [St Sd]]]]].
    cbv zeta in Sl, Sf, Sr, St, Sd. rewrite Sl, Sf, Sr, St.
    split; [exact H3f|]. split; [eauto|]. split; [exact H3r|].
    split; [exact H3t|]. intros Hdis. rewrite (Sd Hdis). auto.
  - rewrite Hc. simpl. rewrite Hl, Hf, Hr, Ht. repeat split; auto;
      rewrite (Hd H); reflexivity.
Qed.

(** X18. One call of [summarize_wikipedia] fetches once or twice, always
    the trimmed query, and calls the language model at most once; it
    changes neither the rate limiter nor the TTL. *)
Theorem summarize_wikipedia_call_counts (w : World) (request_query : string) :
  let query := PyStr.strip request_query in
  let w' := snd (summarize_wikipedia env request_query w) in
  (w_fetch_log w' = w_fetch_log w ++ [query] \/
   w_fetch_log w' = w_fetch_log w ++ [query; query]) /\
  (w_llm_log w' = w_llm_log w \/
   exists req, w_llm_log w' = w_llm_log w ++ [req]) /\
  w_rate_limiter w' = w_rate_limiter w /\
  ttl (w_cache w') = ttl (w_cache w).
Proof.
  intros query w'. unfold w'.
  destruct (summarize_wikipedia_paths w request_query)
    as [[w1 [s [t [u [a [w3 [Hg [_ [_ [Ha Hrun]]]]]]]]]]
       |[w1 [Hrun [Hf1 [Hl1 [Hr1 [Ht1 _]]]]]]];
    fold query in Hrun; rewrite Hrun.
  - simpl snd.
    destruct (get_inv env _ _ _ _ Hg) as [[v [ts [_ [-> _]]]]|[Habs _]];
      [|discriminate].
    assert (H3 : w_fetch_log w3 = w_fetch_log w ++ [query] /\
                 w_llm_log w3 = w_llm_log w /\
                 w_rate_limiter w3 = w_rate_limiter w /\
                 ttl (w_cache w3) = ttl (w_cache w)).
    { destruct (get_article_inv env _ _ _ _ Ha)
        as [[v' [ts' [_ [-> _]]]]|[_ [->| ->]]]; simpl; auto. }
    destruct H3 as [H3f [H3l [H3r H3t]]].
    destruct (set_article_frame' w3 query t) as [Sl [Sf [Sr [_ [St _]]]]].
    cbv zeta in Sl, Sf, Sr, St.
    destruct (PyStr.truthy_opt a); cbv iota.
    + rewrite H3f, H3l, H3r, H3t. auto.
    + rewrite Sl, Sf, Sr, St, H3f, H3l, H3r, H3t. auto.
  - destruct (summarize_uncached_frame w1 query) as [Hf [Hl [Hr [Ht _]]]].
    cbv zeta in Hf, Hl, Hr, Ht. rewrite Hf, Hr, Ht, Hr1, Ht1.
    split; [|split; [|auto]].
    + destruct Hf1 as [->| ->]; [left; reflexivity|].
      right. rewrite <- app_assoc. reflexivity.
    + rewrite <- Hl1. exact Hl.
Qed.

(** X19. The rate limit guards both handlers. When [is_allowed]
    rejects, [POST /summarize] and [POST /chat] raise [RateLimitError]
    with its hint and do no other work: the cache and the logs of the
    collaborators are as they were. When it admits, the handler runs from
    the world the check left; when it raises, so do they. A rejection
    always carries a hint. *)
Theorem rate_limit_guards_the_handlers (w : World) (client : option string)
        (request_query request_question : string) :
  match is_allowed env (get_client_id client) w with
  | (Ok (true, _), w') =>
      post_summarize env client request_query w
      = summarize_wikipedia env request_query w' /\
      post_chat env client request_query request_question w
      = chat_about_article env request_query request_question w'
  | (Ok (false, Some retry_after), w') =>
      post_summarize env client request_query w
      = (Raise (RateLimitError retry_after), w') /\
      post_chat env client request_query request_question w
      = (Raise (RateLimitError retry_after), w') /\
      w_cache w' = w_cache w /\
      w_fetch_log w' = w_fetch_log w /\
      w_llm_log w' = w_llm_log w
  | (Ok (false, None), _) => False
  | (Raise e, w') =>
      post_summarize env client request_query w = (Raise e, w') /\
      post_chat env client request_query request_question w = (Raise e, w')
  end.
Proof.
  unfold post_summarize, post_chat, check_rate_limit.
  destruct (is_allowed_cases env w (get_client_id client))
    as [[_ H]|[[_ [_ H]]|[[_ [_ [o [Hin H]]]]|[_ [_ [_ H]]]]]];
    unfold bind; rewrite H; simpl; try (split; reflexivity).
  apply filter_fresh_In in Hin. destruct Hin as [_ Hfresh].
  assert (Hpos : 1 <= py_int (60 - (clock env (w_clock_reads w) - o)) + 1).
  { rewrite py_int_nonneg by lra.
    assert (H0 : Qfloor 0 <= Qfloor (60 - (clock env (w_clock_reads w) - o)))
      by (apply Qfloor_resp_le; lra).
    change (Qfloor 0) with 0 in H0. lia. }
  destruct (Z.eqb_spec (py_int (60 - (clock env (w_clock_reads w) - o)) + 1) 0);
    [lia|]. repeat split.
Qed.

(** X20. With caching switched off, [summarize_wikipedia] never reads
    the clock and never changes the cache: every request runs lines
    112-129 and fetches exactly once. *)
Theorem summarize_without_cache (w : World) (request_query : string) :
  cache_enabled settings = false ->
  let query := PyStr.strip request_query in
  let w' := snd (summarize_wikipedia env request_query w) in
  summarize_wikipedia env request_query w = summarize_uncached env query w /\
  w_cache w' = w_cache w /\
  w_clock_reads w' = w_clock_reads w /\
  w_fetch_log w' = w_fetch_log w ++ [query].
Proof.
  intros Hd query w'. unfold w'.
  destruct (summarize_wikipedia_paths w request_query)
    as [[w1 [s [t [u [a [w3 [Hg _]]]]]]]|[w1 [Hrun [_ [_ [_ [_ [_ Hw1]]]]]]]].
  - destruct (get_inv env _ _ _ _ Hg) as [[v [ts [_ [_ [He _]]]]]|[Habs _]];
      [congruence | discriminate].
  - fold query in Hrun. rewrite (Hw1 Hd) in Hrun. rewrite Hrun.
    split; [reflexivity|].
    destruct (summarize_uncached_frame w query) as [Hf [_ [_ [_ Hdis]]]].
    cbv zeta in Hf, Hdis. destruct (Hdis Hd) as [Hc Hk]. auto.
Qed.

End WorkflowLaws.

Section ChatLaws.

Context (env : Env).

Local Abbreviation settings := (env_settings env).

(** ** Laws of the [/chat] workflow *)

Lemma answer_question_run (article_text question title : string) (w : World) :
  answer_question env article_text question title w =
    match truncate_to_tokens env article_text (max_input_tokens settings - 500)
            "gpt-4o-mini" with
    | Raise e => (Raise e, w)
    | Ok truncated =>
        let req := answer_request env title question truncated in
        (Ok (PyStr.strip <$> chat_completion env (length (w_llm_log w)) req),
         log_llm req w)
    end.
Proof.
  unfold answer_question.
  destruct (truncate_to_tokens env article_text _ _) as [tr|e]; [|reflexivity].
  cbv zeta. unfold bind, create_completion, ret.
  destruct (chat_completion env _ _); reflexivity.
Qed.

Lemma chat_about_article_cases (w : World) (request_query request_question : string) :
  let query := PyStr.strip request_query in
  exists cached w1,
    get_article env query w = (Ok cached, w1) /\
    match cached with
    | Some article_text =>
        if PyStr.truthy article_text
        then answer_phase env request_query request_question article_text w w1
        else
          match fetch_result env (length (w_fetch_log w)) query with
          | Some (fetched_text, _) =>
              if PyStr.truthy fetched_text then
                answer_phase env request_query request_question fetched_text w
                  (snd (set_article env query fetched_text (log_fetch query w1)))
              else
                chat_about_article env request_query request_question w
                = (Raise (ArticleNotFoundError query), log_fetch query w1)
          | None =>
              chat_about_article env request_query request_question w
              = (Raise (ArticleNotFoundError query), log_fetch query w1)
          end
    | None =>
        match fetch_result env (length (w_fetch_log w)) query with
        | Some (fetched_text, _) =>
            if PyStr.truthy fetched_text then
              answer_phase env request_query request_question fetched_text w
                (snd (set_article env query fetched_text (log_fetch query w1)))
            else
              chat_about_article env request_query request_question w
              = (Raise (ArticleNotFoundError query), log_fetch query w1)
        | None =>
            chat_about_article env request_query request_question w
            = (Raise (ArticleNotFoundError query), log_fetch query w1)
        end
    end.
Proof.
  intros query.
  destruct (get_article_total env w query) as [cached [w1 Hg]].
  exists cached, w1. split; [exact Hg|].
  destruct (get_article_frame env _ _ _ _ Hg) as [_ [Hfl _]].
  assert (Hphase : forall text w2,
             chat_about_article env request_query request_question w
             = match answer_question env text (PyStr.strip request_question)
                       query w2 with
               | (Ok (Some answer), w3) =>
                   if PyStr.truthy answer then
                     (Ok {| chat_question := PyStr.strip request_question;
                            chat_answer := answer;
                            chat_article_query := query |}, w3)
                   else (Raise (SummarizationError answer_failed), w3)
               | (Ok None, w3) => (Raise (SummarizationError answer_failed), w3)
               | (Raise e, w3) => (Raise e, w3)
               end ->
             answer_phase env request_query request_question text w w2).
  { intros text w2 Hrun. unfold answer_phase. cbv zeta. fold query.
    rewrite answer_question_run in Hrun.
    destruct (truncate_to_tokens env text _ _) as [tr|e]; [|exact Hrun].
    cbv zeta in Hrun.
    destruct (PyStr.strip <$> chat_completion env _ _) as [a|]; [|exact Hrun].
    destruct (PyStr.truthy a); exact Hrun. }
  assert (Hfetch :
            match fetch_result env (length (w_fetch_log w)) query with
            | Some (fetched_text, _) =>
                if PyStr.truthy fetched_text then
                  fetch_article_for_chat env query w1
                  = (Ok fetched_text,
                     snd (set_article env query fetched_text (log_fetch query w1)))
                else
                  fetch_article_for_chat env query w1
                  = (Raise (ArticleNotFoundError query), log_fetch query w1)
            | None =>
                fetch_article_for_chat env query w1
                = (Raise (ArticleNotFoundError query), log_fetch query w1)
            end).
  { unfold fetch_article_for_chat, bind, fetch_wikipedia_article. rewrite Hfl.
    destruct (fetch_result env _ query) as [[t u]|]; [|reflexivity].
    destruct (PyStr.truthy t); simpl; [|reflexivity].
    rewrite set_article_run. reflexivity. }
  assert (Hcold :
              (cached = None \/ exists s, cached = Some s /\ PyStr.truthy s = false) ->
              chat_about_article env request_query request_question w
              = bind (fetch_article_for_chat env query) (fun a =>
                  bind (answer_question env a (PyStr.strip request_question) query)
                       (fun answer =>
                          match answer with
                          | Some answer =>
                              if negb (PyStr.truthy answer)
                              then raise (SummarizationError answer_failed)
                              else ret {| chat_question := PyStr.strip request_question;
                                          chat_answer := answer;
                                          chat_article_query := query |}
                          | None => raise (SummarizationError answer_failed)
                          end)) w1).
  { intros Hc. unfold chat_about_article. fold query. unfold bind at 1.
    rewrite Hg. unfold bind at 1.
    destruct Hc as [->|[s [-> Hs]]]; [|rewrite Hs]; reflexivity. }
  assert (Hcoldphase :
            (cached = None \/ exists s, cached = Some s /\ PyStr.truthy s = false) ->
            match fetch_result env (length (w_fetch_log w)) query with
            | Some (fetched_text, _) =>
                if PyStr.truthy fetched_text then
                  answer_phase env request_query request_question fetched_text w
                    (snd (set_article env query fetched_text (log_fetch query w1)))
                else
                  chat_about_article env request_query request_question w
                  = (Raise (ArticleNotFoundError query), log_fetch query w1)
            | None =>
                chat_about_article env request_query request_question w
                = (Raise (ArticleNotFoundError query), log_fetch query w1)
            end).
  { intros Hc.
    destruct (fetch_result env (length (w_fetch_log w)) query) as [[t u]|].
    - destruct (PyStr.truthy t).
      + apply Hphase. rewrite (Hcold Hc).
        unfold bind at 1. rewrite Hfetch. unfold bind.
        destruct (answer_question env t _ query _) as [[[a|]|e] w3];
          [|reflexivity|reflexivity].
        destruct (PyStr.truthy a); reflexivity.
      + rewrite (Hcold Hc). unfold bind at 1. rewrite Hfetch. reflexivity.
    - rewrite (Hcold Hc). unfold bind at 1. rewrite Hfetch. reflexivity. }
  destruct cached as [s|].
  - destruct (PyStr.truthy s) eqn:Hs.
    + apply Hphase. unfold chat_about_article. fold query. unfold bind at 1.
      rewrite Hg. unfold bind at 1. rewrite Hs. cbn [negb]. unfold bind, ret.
      cbv beta iota.
      destruct (answer_question env s _ query _) as [[[a|]|e] w3];
        [|reflexivity|reflexivity].
      destruct (PyStr.truthy a); reflexivity.
    + apply Hcoldphase. right. eauto.
  - apply Hcoldphase. left. reflexivity.
Qed.


Lemma answer_phase_outcome (request_query request_question article_text : string)
      (w w2 : World) :
  answer_phase env request_query request_question article_text w w2 ->
  let run := chat_about_article env request_query request_question w in
  w_cache (snd run) = w_cache w2 /\
  w_fetch_log (snd run) = w_fetch_log w2 /\
  w_rate_limiter (snd run) = w_rate_limiter w2 /\
  (w_llm_log (snd run) = w_llm_log w2 \/
   exists req, w_llm_log (snd run) = w_llm_log w2 ++ [req]) /\
  match fst run with
  | Ok response =>
      chat_question response = PyStr.strip request_question /\
      chat_article_query response = PyStr.strip request_query /\
      PyStr.truthy (chat_answer response) = true /\
      PyStr.strip (chat_answer response) = chat_answer response
  | Raise (SummarizationError message) => message = answer_failed
  | Raise ValueError => True
  | Raise (ArticleNotFoundError _) => False
  | Raise (RateLimitError _) => False
  end.
Proof.
  unfold answer_phase. cbv zeta.
  destruct (truncate_to_tokens env article_text _ _) as [tr|e] eqn:Htr.
  - destruct (chat_completion env _ _) as [c|]; simpl.
    + destruct (PyStr.truthy (PyStr.strip c)) eqn:Ha; intros ->; simpl;
        repeat split; eauto. apply strip_idempotent.
    + intros ->. simpl. repeat split; eauto.
  - intros ->. simpl.
    rewrite (truncate_to_tokens_raises_value_error env _ _ _ _ Htr).
    repeat split; auto.
Qed.

(** X21. When [get_article] returns a text that is not empty, [/chat]
    does not fetch: it truncates that text to [max_input_tokens - 500]
    tokens, calls the completion endpoint once with the trimmed question
    and the trimmed query as title, and answers with the trimmed completion
    when it is not empty, with [SummarizationError] otherwise. The cache is
    not written. *)
Theorem chat_uses_the_cached_article (w w1 : World)
        (request_query request_question article_text truncated : string) :
  let query := PyStr.strip request_query in
  let question := PyStr.strip request_question in
  get_article env query w = (Ok (Some article_text), w1) ->
  PyStr.truthy article_text = true ->
  truncate_to_tokens env article_text (max_input_tokens settings - 500)
    "gpt-4o-mini" = Ok truncated ->
  let req := answer_request env query question truncated in
  let w2 := log_llm req w1 in
  chat_about_article env request_query request_question w
  = match PyStr.strip <$> chat_completion env (length (w_llm_log w)) req with
    | Some answer =>
        if PyStr.truthy answer then
          (Ok {| chat_question := question; chat_answer := answer;
                 chat_article_query := query |}, w2)
        else (Raise (SummarizationError answer_failed), w2)
    | None => (Raise (SummarizationError answer_failed), w2)
    end /\
  w_fetch_log w2 = w_fetch_log w /\
  w_llm_log w2 = w_llm_log w ++ [req] /\
  w_cache w2 = w_cache w.
Proof.
  intros query question Hg Ht Htr req w2.
  destruct (chat_about_article_cases w request_query request_question)
    as [cached [w1' [Hg' Hc]]].
  fold query in Hg'. rewrite Hg in Hg'. inversion Hg'; subst cached w1'.
  rewrite Ht in Hc. unfold answer_phase in Hc. cbv zeta in Hc.
  fold query in Hc. fold question in Hc. rewrite Htr in Hc. fold req in Hc.
  destruct (get_article_inv env _ _ _ _ Hg) as [[v [ts [_ [Hw1 _]]]]|[Habs _]];
    [|discriminate].
  subst w1. change (w_llm_log (tick w)) with (w_llm_log w) in Hc.
  split; [|repeat split].
  destruct (PyStr.strip <$> chat_completion env _ _) as [a|]; [|exact Hc].
  destruct (PyStr.truthy a); exact Hc.
Qed.

(** X22. When [get_article] returns nothing true and the fetch yields
    no text, [/chat] raises [ArticleNotFoundError] for the trimmed query
    after that single fetch, without calling the language model and
    without storing anything. *)
Theorem chat_without_article (w w1 : World) (request_query request_question : string)
        (cached : option string) :
  let query := PyStr.strip request_query in
  get_article env query w = (Ok cached, w1) ->
  PyStr.truthy_opt cached = false ->
  PyStr.truthy_opt
    (article_text_of (fetch_result env (length (w_fetch_log w)) query)) = false ->
  chat_about_article env request_query request_question w
  = (Raise (ArticleNotFoundError query), log_fetch query w1) /\
  w_fetch_log (log_fetch query w1) = w_fetch_log w ++ [query] /\
  w_llm_log (log_fetch query w1) = w_llm_log w /\
  cache (w_cache (log_fetch query w1)) = cache (w_cache w) /\
  (forall k, k <> _generate_key query ->
             article_cache (w_cache (log_fetch query w1)) !! k
             = article_cache (w_cache w) !! k).
Proof.
  intros query Hg Hc Hf.
  destruct (chat_about_article_cases w request_query request_question)
    as [cached' [w1' [Hg' Hcases]]].
  fold query in Hg'. rewrite Hg in Hg'. inversion Hg'; subst cached' w1'.
  fold query in Hcases.
  assert (Hrun : chat_about_article env request_query request_question w
                 = (Raise (ArticleNotFoundError query), log_fetch query w1)).
  { destruct cached as [s|]; simpl in Hc; [rewrite Hc in Hcases|];
      destruct (fetch_result env (length (w_fetch_log w)) query) as [[t u]|];
      simpl in Hf; try rewrite Hf in Hcases; exact Hcases. }
  split; [exact Hrun|].
  destruct (get_article_inv env _ _ _ _ Hg) as [[v [ts [_ [-> _]]]]|[_ [->| ->]]];
    simpl; repeat split; try reflexivity.
  intros k Hk. apply lookup_delete_ne. intros E. apply Hk. symmetry. exact E.
Qed.

(** X23. When [get_article] returns nothing true and the fetch yields a
    text, then with caching enabled [/chat] stores that text in the
    article table before anything else, so it is there whatever the
    outcome of the request (an error of the tokenizer or of the model
    included); the fetch was the only one. *)
Theorem chat_stores_the_fetched_article (w w1 : World)
        (request_query request_question article_text article_url : string)
        (cached : option string) :
  let query := PyStr.strip request_query in
  let w' := snd (chat_about_article env request_query request_question w) in
  cache_enabled settings = true ->
  get_article env query w = (Ok cached, w1) ->
  PyStr.truthy_opt cached = false ->
  fetch_result env (length (w_fetch_log w)) query = Some (article_text, article_url) ->
  PyStr.truthy article_text = true ->
  article_cache (w_cache w') !! _generate_key query
  = Some (article_text, clock env (w_clock_reads w1)) /\
  w_fetch_log w' = w_fetch_log w ++ [query].
Proof.
  intros query w' He Hg Hc Hf Ht. unfold w'.
  destruct (chat_about_article_cases w request_query request_question)
    as [cached' [w1' [Hg' Hcases]]].
  fold query in Hg'. rewrite Hg in Hg'. inversion Hg'; subst cached' w1'.
  fold query in Hcases. rewrite Hf, Ht in Hcases.
  assert (Hphase : answer_phase env request_query request_question article_text w
                     (snd (set_article env query article_text (log_fetch query w1)))).
  { destruct cached as [s|]; simpl in Hc; [rewrite Hc in Hcases|]; exact Hcases. }
  destruct (answer_phase_outcome _ _ _ _ _ Hphase) as [Hcache [Hfl _]].
  cbv zeta in Hcache, Hfl. rewrite Hcache, Hfl.
  rewrite set_article_run, He. simpl.
  destruct (get_article_frame env _ _ _ _ Hg) as [_ [Hfl1 _]].
  rewrite Hfl1. split; [apply lookup_insert_eq | reflexivity].
Qed.

Lemma chat_outcomes_from (w w2 : World) (request_query request_question : string) :
  let query := PyStr.strip request_query in
  let question := PyStr.strip request_question in
  let run := chat_about_article env request_query request_question w in
  cache (w_cache w2) = cache (w_cache w) ->
  w_rate_limiter w2 = w_rate_limiter w ->
  (w_fetch_log w2 = w_fetch_log w \/ w_fetch_log w2 = w_fetch_log w ++ [query]) ->
  w_llm_log w2 = w_llm_log w ->
  (run = (Raise (ArticleNotFoundError query), w2) \/
   exists text, answer_phase env request_query request_question text w w2) ->
  cache (w_cache (snd run)) = cache (w_cache w) /\
  w_rate_limiter (snd run) = w_rate_limiter w /\
  (w_fetch_log (snd run) = w_fetch_log w \/
   w_fetch_log (snd run) = w_fetch_log w ++ [query]) /\
  (w_llm_log (snd run) = w_llm_log w \/
   exists req, w_llm_log (snd run) = w_llm_log w ++ [req]) /\
  match fst run with
  | Ok response =>
      chat_question response = question /\
      chat_article_query response = query /\
      PyStr.truthy (chat_answer response) = true /\
      PyStr.strip (chat_answer response) = chat_answer response
  | Raise (ArticleNotFoundError q) => q = query
  | Raise (SummarizationError message) => message = answer_failed
  | Raise ValueError => True
  | Raise (RateLimitError _) => False
  end.
Proof.
  intros query question run H2c H2r H2f H2l [Hnf|[text Hphase]]; subst run.
  - rewrite Hnf. simpl. rewrite H2l. auto 10.
  - destruct (answer_phase_outcome _ _ _ _ _ Hphase) as [Hc [Hf [Hr [Hl Ho]]]].
    cbv zeta in Hc, Hf, Hr, Hl, Ho.
    rewrite Hc, Hf, Hr, H2c, H2r. rewrite H2l in Hl.
    split; [reflexivity|]. split; [reflexivity|]. split; [exact H2f|].
    split; [exact Hl|].
    destruct (fst (chat_about_article env request_query request_question w))
      as [r|[]]; try exact Ho; tauto.
Qed.

(** X24. [/chat] never touches the summary table or the rate limiter,
    fetches at most once and calls the language model at most once. It
    answers with the trimmed question and query and an answer that is not
    empty and has no surrounding whitespace, or raises
    [ArticleNotFoundError] for the trimmed query, [SummarizationError]
    with its fixed message or the [ValueError] of the tokenizer; it never
    raises [RateLimitError]. *)
Theorem chat_about_article_outcomes (w : World)
        (request_query request_question : string) :
  let query := PyStr.strip request_query in
  let question := PyStr.strip request_question in
  let run := chat_about_article env request_query request_question w in
  cache (w_cache (snd run)) = cache (w_cache w) /\
  w_rate_limiter (snd run) = w_rate_limiter w /\
  (w_fetch_log (snd run) = w_fetch_log w \/
   w_fetch_log (snd run) = w_fetch_log w ++ [query]) /\
  (w_llm_log (snd run) = w_llm_log w \/
   exists req, w_llm_log (snd run) = w_llm_log w ++ [req]) /\
  match fst run with
  | Ok response =>
      chat_question response = question /\
      chat_article_query response = query /\
      PyStr.truthy (chat_answer response) = true /\
      PyStr.strip (chat_answer response) = chat_answer response
  | Raise (ArticleNotFoundError q) => q = query
  | Raise (SummarizationError message) => message = answer_failed
  | Raise ValueError => True
  | Raise (RateLimitError _) => False
  end.
Proof.
  intros query question run.
  destruct (chat_about_article_cases w request_query request_question)
    as [cached [w1 [Hg Hcases]]].
  fold query in Hg, Hcases.
  assert (H1 : cache (w_cache w1) = cache (w_cache w) /\
               w_rate_limiter w1 = w_rate_limiter w /\
               w_fetch_log w1 = w_fetch_log w /\
               w_llm_log w1 = w_llm_log w).
  { destruct (get_article_inv env _ _ _ _ Hg)
      as [[v [ts [_ [-> _]]]]|[_ [->| ->]]]; simpl; auto. }
  destruct H1 as [H1c [H1r [H1f H1l]]].
  assert (Hwarm : forall text,
             answer_phase env request_query request_question text w w1 ->
             exists w2,
               cache (w_cache w2) = cache (w_cache w) /\
               w_rate_limiter w2 = w_rate_limiter w /\
               (w_fetch_log w2 = w_fetch_log w \/
                w_fetch_log w2 = w_fetch_log w ++ [query]) /\
               w_llm_log w2 = w_llm_log w /\
               (chat_about_article env request_query request_question w
                = (Raise (ArticleNotFoundError query), w2) \/
                exists text, answer_phase env request_query request_question text w w2)).
  { intros text Hphase. exists w1. eauto 10. }
  assert (Hcold :
            match fetch_result env (length (w_fetch_log w)) query with
            | Some (fetched_text, _) =>
                if PyStr.truthy fetched_text then
                  answer_phase env request_query request_question fetched_text w
                    (snd (set_article env query fetched_text (log_fetch query w1)))
                else
                  chat_about_article env request_query request_question w
                  = (Raise (ArticleNotFoundError query), log_fetch query w1)
            | None =>
                chat_about_article env request_query request_question w
                = (Raise (ArticleNotFoundError query), log_fetch query w1)
            end ->
            exists w2,
              cache (w_cache w2) = cache (w_cache w) /\
              w_rate_limiter w2 = w_rate_limiter w /\
              (w_fetch_log w2 = w_fetch_log w \/
               w_fetch_log w2 = w_fetch_log w ++ [query]) /\
              w_llm_log w2 = w_llm_log w /\
              (chat_about_article env request_query request_question w
               = (Raise (ArticleNotFoundError query), w2) \/
               exists text, answer_phase env request_query request_question text w w2)).
  { intros Hm.
    assert (Hnf : chat_about_article env request_query request_question w
                  = (Raise (ArticleNotFoundError query), log_fetch query w1) ->
                  exists w2,
                    cache (w_cache w2) = cache (w_cache w) /\
                    w_rate_limiter w2 = w_rate_limiter w /\
                    (w_fetch_log w2 = w_fetch_log w \/
                     w_fetch_log w2 = w_fetch_log w ++ [query]) /\
                    w_llm_log w2 = w_llm_log w /\
                    (chat_about_article env request_query request_question w
                     = (Raise (ArticleNotFoundError query), w2) \/
                     exists text,
                       answer_phase env request_query request_question text w w2)).
    { intros Hrun. exists (log_fetch query w1). simpl. rewrite H1f. auto 10. }
    destruct (fetch_result env (length (w_fetch_log w)) query) as [[t u]|];
      [|exact (Hnf Hm)].
    destruct (PyStr.truthy t); [|exact (Hnf Hm)].
    destruct (set_article_frame' env (log_fetch query w1) query t)
      as [Sl [Sf [Sr [Sc _]]]]. cbv zeta in Sl, Sf, Sr, Sc.
    eexists. rewrite Sc, Sr, Sf, Sl. simpl. rewrite H1f.
    split; [exact H1c|]. split; [exact H1r|]. split; [auto|].
    split; [exact H1l|]. right. exists t. exact Hm. }
  assert (Hw2 : exists w2,
             cache (w_cache w2) = cache (w_cache w) /\
             w_rate_limiter w2 = w_rate_limiter w /\
             (w_fetch_log w2 = w_fetch_log w \/
              w_fetch_log w2 = w_fetch_log w ++ [query]) /\
             w_llm_log w2 = w_llm_log w /\
             (chat_about_article env request_query request_question w
              = (Raise (ArticleNotFoundError query), w2) \/
              exists text, answer_phase env request_query request_question text w w2)).
  { destruct cached as [s|]; [destruct (PyStr.truthy s)|].
    - exact (Hwarm s Hcases).
    - exact (Hcold Hcases).
    - exact (Hcold Hcases). }
  destruct Hw2 as [w2 [H2c [H2r [H2f [H2l Hend]]]]].
  exact (chat_outcomes_from w w2 request_query request_question
           H2c H2r H2f H2l Hend).
Qed.

(** X25. The article stored by a successful [/summarize] on its miss
    path serves [/chat]: with caching enabled, a [/chat] for the same
    query whose lookup reads the clock less than the TTL after the article
    was stored finds the fetched text in the article table and does not
    fetch. *)
Theorem summarized_article_serves_chat (w0 w0' w1 : World)
        (request_query request_question : string) (cached : option string)
        (response : SummarizeResponse) :
  let query := PyStr.strip request_query in
  cache_enabled settings = true ->
  get env query w0 = (Ok cached, w0') ->
  PyStr.truthy_opt cached = false ->
  summarize_wikipedia env request_query w0 = (Ok response, w1) ->
  (clock env (w_clock_reads w1) - clock env (w_clock_reads w0')
   < inject_Z (ttl (w_cache w1)))%Q ->
  exists article_text,
    PyStr.truthy article_text = true /\
    get_article env query w1 = (Ok (Some article_text), tick w1) /\
    w_fetch_log (snd (chat_about_article env request_query request_question w1))
    = w_fetch_log w1.
Proof.
  intros query He Hg Hc Hrun Hfresh.
  rewrite (summarize_wikipedia_miss env _ _ _ cached Hg Hc) in Hrun.
  fold query in Hrun.
  pose proof (summarize_uncached_cases env w0' query) as Hcases.
  cbv zeta in Hcases.
  destruct (fetch_result env (length (w_fetch_log w0')) query) as [[t u]|];
    [|rewrite Hcases in Hrun; discriminate].
  destruct (PyStr.truthy t) eqn:Ht; [|rewrite Hcases in Hrun; discriminate].
  destruct (truncate_to_tokens env t _ _) as [tr|e];
    [|rewrite Hcases in Hrun; discriminate].
  destruct (PyStr.strip <$> chat_completion env _ _) as [summary|];
    [|rewrite Hcases in Hrun; discriminate].
  destruct (PyStr.truthy summary); rewrite Hcases in Hrun; [|discriminate].
  inversion Hrun as [[Hresp Hw1]]. clear Hrun Hcases.
  set (w1' := snd (set env query summary _)) in *.
  assert (Hart : article_cache (w_cache w1') !! _generate_key query
                 = Some (t, clock env (w_clock_reads w0'))).
  { unfold w1'. rewrite set_run, He. simpl. rewrite set_article_run, He.
    simpl. apply lookup_insert_eq. }
  assert (Hfresh' : (clock env (w_clock_reads w1') - clock env (w_clock_reads w0')
                     < inject_Z (ttl (w_cache w1')))%Q)
    by (rewrite Hw1; exact Hfresh).
  pose proof (get_article_hit env w1' query t _ He Hart Hfresh') as Hhit.
  exists t. split; [exact Ht|]. split; [exact Hhit|].
  destruct (chat_about_article_cases w1' request_query request_question)
    as [cached' [w2 [Hg' Hcs]]].
  fold query in Hg', Hcs. rewrite Hhit in Hg'. inversion Hg'; subst cached' w2.
  rewrite Ht in Hcs.
  destruct (answer_phase_outcome _ _ _ _ _ Hcs) as [_ [Hfl _]].
  cbv zeta in Hfl. rewrite Hfl. reflexivity.
Qed.

End ChatLaws.

(** ** The cleaning of the extracted text *)

Lemma space_isspace (c : ascii) : (PyStr.code c =? 32) = true -> PyStr.isspace c = true.
Proof.
  intros H. apply Z.eqb_eq in H. unfold PyStr.isspace. rewrite H. reflexivity.
Qed.

Lemma linebreak_isspace (c : ascii) : is_linebreak c = true -> PyStr.isspace c = true.
Proof.
  unfold is_linebreak, PyStr.isspace. cbv zeta.
  destruct (10 <=? PyStr.code c) eqn:H1, (PyStr.code c <=? 13) eqn:H2,
           (28 <=? PyStr.code c) eqn:H3, (PyStr.code c <=? 30) eqn:H4;
    simpl; try discriminate; intros _;
    repeat match goal with
           | H : (_ <=? _) = true |- _ => apply Z.leb_le in H
           | H : (_ <=? _) = false |- _ => apply Z.leb_gt in H
           end;
    repeat match goal with
           | |- context [?a <=? ?b] => destruct (Z.leb_spec a b); try lia
           end; reflexivity.
Qed.

Lemma has_linebreak_cons (c : ascii) (s : string) :
  has_linebreak (String c s) = is_linebreak c || has_linebreak s.
Proof. reflexivity. Qed.

Lemma has_linebreak_app (a b : string) :
  has_linebreak (a ++ b) = has_linebreak a || has_linebreak b.
Proof.
  induction a as [|c a IH]; [reflexivity|].
  change (String c a ++ b)%string with (String c (a ++ b)).
  rewrite !has_linebreak_cons, IH. apply orb_assoc.
Qed.

(** *** Trimming keeps what a string is free of *)

Lemma lstrip_no_linebreak (s : string) :
  has_linebreak s = false -> has_linebreak (PyStr.lstrip s) = false.
Proof.
  induction s as [|c s IH]; [reflexivity|]. rewrite has_linebreak_cons.
  intros H. apply orb_false_iff in H. destruct H as [Hc Hs].
  cbn [PyStr.lstrip]. destruct (PyStr.isspace c); [exact (IH Hs)|].
  rewrite has_linebreak_cons, Hc, Hs. reflexivity.
Qed.

Lemma rstrip_no_linebreak (s : string) :
  has_linebreak s = false -> has_linebreak (PyStr.rstrip s) = false.
Proof.
  induction s as [|c s IH]; [reflexivity|]. rewrite has_linebreak_cons.
  intros H. apply orb_false_iff in H. destruct H as [Hc Hs].
  cbn [PyStr.rstrip]. specialize (IH Hs).
  destruct (PyStr.rstrip s) as [|c' r].
  - destruct (PyStr.isspace c); [reflexivity|].
    rewrite has_linebreak_cons, Hc. reflexivity.
  - rewrite has_linebreak_cons, Hc. exact IH.
Qed.

Lemma strip_no_linebreak (s : string) :
  has_linebreak s = false -> has_linebreak (PyStr.strip s) = false.
Proof. intros H. apply rstrip_no_linebreak, lstrip_no_linebreak, H. Qed.

Lemma has_double_space_tail (c : ascii) (s : string) :
  has_double_space (String c s) = false -> has_double_space s = false.
Proof. cbn [has_double_space]. intros H. apply orb_false_iff in H. tauto. Qed.

Lemma lstrip_no_double_space (s : string) :
  has_double_space s = false -> has_double_space (PyStr.lstrip s) = false.
Proof.
  induction s as [|c s IH]; [reflexivity|]. intros H.
  cbn [PyStr.lstrip]. destruct (PyStr.isspace c); [|exact H].
  apply IH. exact (has_double_space_tail _ _ H).
Qed.

Lemma rstrip_starts_with_space (s : string) :
  starts_with_space (PyStr.rstrip s) = true -> starts_with_space s = true.
Proof.
  destruct s as [|c s]; [discriminate|]. cbn [PyStr.rstrip].
  destruct (PyStr.rstrip s) as [|c' r].
  - destruct (PyStr.isspace c); [discriminate | exact (fun H => H)].
  - exact (fun H => H).
Qed.

Lemma rstrip_no_double_space (s : string) :
  has_double_space s = false -> has_double_space (PyStr.rstrip s) = false.
Proof.
  induction s as [|c s IH]; [reflexivity|]. intros H.
  pose proof (has_double_space_tail _ _ H) as Hs. specialize (IH Hs).
  cbn [has_double_space] in H. apply orb_false_iff in H. destruct H as [Hcs _].
  pose proof (rstrip_starts_with_space s) as Hsp.
  cbn [PyStr.rstrip]. destruct (PyStr.rstrip s) as [|c' r].
  - destruct (PyStr.isspace c); [reflexivity|].
    cbn [has_double_space starts_with_space]. rewrite andb_false_r. reflexivity.
  - cbn [has_double_space] in *. apply orb_false_iff. split; [|exact IH].
    destruct (PyStr.code c =? 32); [|reflexivity].
    destruct (starts_with_space (String c' r)) eqn:E; [|reflexivity].
    rewrite (Hsp eq_refl) in Hcs. discriminate.
Qed.

Lemma strip_no_double_space (s : string) :
  has_double_space s = false -> has_double_space (PyStr.strip s) = false.
Proof. intros H. apply rstrip_no_double_space, lstrip_no_double_space, H. Qed.

(** *** Trimmed strings *)

(** A trimmed string that is not empty begins with a character that is
    not whitespace. *)
Lemma lstrip_head (s : string) :
  match PyStr.lstrip s with
  | String c _ => PyStr.isspace c = false
  | EmptyString => True
  end.
Proof.
  induction s as [|c s IH]; [exact I|]. cbn [PyStr.lstrip].
  destruct (PyStr.isspace c) eqn:Hc; [exact IH | exact Hc].
Qed.

Lemma rstrip_keeps_head (c : ascii) (s : string) :
  PyStr.isspace c = false ->
  PyStr.rstrip (String c s) = String c (PyStr.rstrip s).
Proof.
  intros Hc. cbn [PyStr.rstrip]. destruct (PyStr.rstrip s); [rewrite Hc|];
    reflexivity.
Qed.

Lemma strip_head (s : string) :
  match PyStr.strip s with
  | String c _ => PyStr.isspace c = false
  | EmptyString => True
  end.
Proof.
  unfold PyStr.strip. pose proof (lstrip_head s) as H.
  destruct (PyStr.lstrip s) as [|c r]; [exact I|].
  rewrite (rstrip_keeps_head c r H). exact H.
Qed.

Lemma rstrip_strip (s : string) : PyStr.rstrip (PyStr.strip s) = PyStr.strip s.
Proof. unfold PyStr.strip. apply rstrip_idempotent. Qed.

Lemma strip_tidy (s : string) :
  has_linebreak s = false ->
  has_double_space s = false ->
  PyStr.truthy (PyStr.strip s) = true ->
  tidy (PyStr.strip s).
Proof.
  intros Hl Hd Ht. unfold tidy. split; [|split; [|split]].
  - pose proof (strip_head s) as H. destruct (PyStr.strip s); [discriminate|exact H].
  - apply rstrip_strip.
  - apply strip_no_linebreak, Hl.
  - apply strip_no_double_space, Hd.
Qed.

(** *** Lines and phrases *)

Lemma cons_first_Forall (P : string -> Prop) (c : ascii) (l : list string) :
  P (String c EmptyString) ->
  (forall p, P p -> P (String c p)) ->
  Forall P l -> Forall P (cons_first c l).
Proof.
  intros H0 Hc Hl. destruct Hl as [|p ps Hp Hps]; simpl.
  - constructor; [exact H0 | constructor].
  - constructor; [exact (Hc p Hp) | exact Hps].
Qed.

Lemma splitlines_no_linebreak (s : string) :
  Forall (fun line => has_linebreak line = false) (splitlines s).
Proof.
  assert (H : forall n s, (String.length s <= n)%nat ->
                Forall (fun line => has_linebreak line = false) (splitlines s)).
  { induction n as [|n IH]; intros [|c t] Hn; try (constructor; fail);
      [simpl in Hn; lia|].
    simpl in Hn. cbn [splitlines].
    destruct (is_linebreak c) eqn:Hc.
    - destruct t as [|c2 t2].
      + constructor; [reflexivity | constructor].
      + destruct ((PyStr.code c =? 13) && (PyStr.code c2 =? 10));
          (constructor; [reflexivity | apply IH; simpl in *; lia]).
    - apply cons_first_Forall.
      + rewrite has_linebreak_cons, Hc. reflexivity.
      + intros p Hp. rewrite has_linebreak_cons, Hc, Hp. reflexivity.
      + apply IH. lia. }
  exact (H (String.length s) s (le_n _)).
Qed.

Lemma split_double_space_head (s : string) :
  match split_double_space s with
  | p :: _ => starts_with_space p = true -> starts_with_space s = true
  | [] => False
  end.
Proof.
  destruct s as [|c t]; [simpl; discriminate|].
  assert (Hcf : forall l,
             match cons_first c l with
             | p :: _ => starts_with_space p = true ->
                         starts_with_space (String c t) = true
             | [] => False
             end)
    by (intros [|p ps]; simpl; exact (fun H => H)).
  cbn [split_double_space]. destruct t as [|c2 t2]; [apply Hcf|].
  destruct ((PyStr.code c =? 32) && (PyStr.code c2 =? 32));
    [discriminate | apply Hcf].
Qed.

Lemma split_double_space_pieces (s : string) :
  has_linebreak s = false ->
  Forall (fun p => has_linebreak p = false /\ has_double_space p = false)
         (split_double_space s).
Proof.
  assert (H : forall n s, (String.length s <= n)%nat ->
                has_linebreak s = false ->
                Forall (fun p => has_linebreak p = false /\
                                 has_double_space p = false)
                       (split_double_space s)).
  { induction n as [|n IH]; intros [|c t] Hn Hl;
      try (constructor; [split; reflexivity | constructor]; fail);
      [simpl in Hn; lia|].
    simpl in Hn. rewrite has_linebreak_cons in Hl.
    apply orb_false_iff in Hl. destruct Hl as [Hc Ht].
    pose proof (split_double_space_head t) as Hhead.
    pose proof (IH t ltac:(lia) Ht) as IHt.
    cbn [split_double_space]. destruct t as [|c2 t2].
    - simpl. constructor; [|constructor]. split.
      + rewrite has_linebreak_cons, Hc. reflexivity.
      + simpl. rewrite andb_false_r. reflexivity.
    - destruct ((PyStr.code c =? 32) && (PyStr.code c2 =? 32)) eqn:Hsp.
      + constructor; [split; reflexivity|]. apply IH; [simpl in *; lia|].
        rewrite has_linebreak_cons in Ht. apply orb_false_iff in Ht. tauto.
      + destruct (split_double_space (String c2 t2)) as [|p ps];
          [destruct Hhead|].
        inversion IHt as [|? ? [Hpl Hpd] Hps]; subst. simpl.
        constructor; [|exact Hps]. split.
        * rewrite has_linebreak_cons, Hc, Hpl. reflexivity.
        * cbn [has_double_space]. rewrite Hpd, orb_false_r.
          destruct (PyStr.code c =? 32) eqn:E; [|reflexivity].
          destruct (starts_with_space p) eqn:Ep; [|reflexivity].
          specialize (Hhead eq_refl). simpl in Hhead. simpl in Hsp.
          rewrite Hhead in Hsp. discriminate. }
  exact (H (String.length s) s (le_n _)).
Qed.

(** *** Joining *)

Lemma rstrip_app (a b : string) :
  PyStr.rstrip b = b -> b <> EmptyString ->
  PyStr.rstrip (a ++ b) = (a ++ b)%string.
Proof.
  intros Hb Hne. induction a as [|c a IH]; [exact Hb|].
  change (String c a ++ b)%string with (String c (a ++ b)).
  cbn [PyStr.rstrip]. rewrite IH.
  destruct (a ++ b)%string eqn:E; [|reflexivity].
  destruct a as [|c0 a0]; exfalso; [exact (Hne E)|].
  change (String c0 (a0 ++ b) = EmptyString) in E. discriminate.
Qed.

Lemma isspace_not_space (c : ascii) :
  PyStr.isspace c = false -> (PyStr.code c =? 32) = false.
Proof.
  intros H. destruct (PyStr.code c =? 32) eqn:E; [|reflexivity].
  rewrite (space_isspace c E) in H. discriminate.
Qed.

Lemma has_double_space_app (a b : string) :
  PyStr.rstrip a = a ->
  has_double_space a = false -> has_double_space b = false ->
  has_double_space (a ++ b) = false.
Proof.
  induction a as [|c a IH]; intros Hr Ha Hb; [exact Hb|].
  change (String c a ++ b)%string with (String c (a ++ b)).
  cbn [PyStr.rstrip] in Hr. cbn [has_double_space] in Ha |- *.
  apply orb_false_iff in Ha. destruct Ha as [Hhead Ha].
  destruct (PyStr.rstrip a) as [|c' r] eqn:Era.
  - destruct (PyStr.isspace c) eqn:Hc; [discriminate|].
    injection Hr as <-. change (EmptyString ++ b)%string with b.
    rewrite (isspace_not_space c Hc), Hb. reflexivity.
  - injection Hr as Ha'. subst a.
    rewrite (IH eq_refl Ha Hb), orb_false_r. exact Hhead.
Qed.

Lemma tidy_nonempty (s : string) : tidy s -> s <> EmptyString.
Proof. intros [H _] ->. exact H. Qed.

Lemma tidy_no_leading_space (s : string) : tidy s -> starts_with_space s = false.
Proof.
  intros [H _]. destruct s as [|c s]; [reflexivity|]. simpl.
  apply isspace_not_space. exact H.
Qed.

Lemma join_space_tidy (l : list string) :
  Forall tidy l -> l <> [] -> tidy (join_space l).
Proof.
  induction 1 as [|x l Hx Hl IH]; intros Hne; [congruence|].
  cbn [join_space]. destruct l as [|y l']; [exact Hx|].
  specialize (IH ltac:(discriminate)).
  set (J := join_space (y :: l')) in *.
  destruct Hx as [Hxh [Hxr [Hxl Hxd]]].
  pose proof IH as [HJh [HJr [HJl HJd]]].
  split; [|split; [|split]].
  - destruct x as [|c x']; [destruct Hxh | exact Hxh].
  - change (x ++ " " ++ J)%string with (x ++ String " " J)%string.
    assert (Hsj : PyStr.rstrip (String " " J) = String " " J).
    { cbn [PyStr.rstrip]. rewrite HJr.
      destruct J; [destruct HJh | reflexivity]. }
    apply rstrip_app; [exact Hsj | discriminate].
  - rewrite !has_linebreak_app, Hxl, HJl. reflexivity.
  - apply has_double_space_app; [exact Hxr | exact Hxd |].
    change (" " ++ J)%string with (String " " J). cbn [has_double_space].
    rewrite (tidy_no_leading_space J IH), HJd. reflexivity.
Qed.

Lemma tidy_strip (s : string) : tidy s -> PyStr.strip s = s.
Proof.
  intros [Hh [Hr _]]. unfold PyStr.strip.
  destruct s as [|c s]; [destruct Hh|]. cbn [PyStr.lstrip]. rewrite Hh. exact Hr.
Qed.

Lemma clean_text_chunks (text : string) :
  Forall tidy
    (List.filter PyStr.truthy
       (map PyStr.strip
          (flat_map split_double_space (map PyStr.strip (splitlines text))))).
Proof.
  apply List.Forall_forall. intros chunk Hin.
  apply List.filter_In in Hin. destruct Hin as [Hin Htruthy].
  apply List.in_map_iff in Hin. destruct Hin as [piece [<- Hpiece]].
  apply List.in_flat_map in Hpiece. destruct Hpiece as [line [Hline Hpiece]].
  apply List.in_map_iff in Hline. destruct Hline as [raw [<- Hraw]].
  pose proof (splitlines_no_linebreak text) as Hlines.
  rewrite List.Forall_forall in Hlines. specialize (Hlines raw Hraw).
  pose proof (split_double_space_pieces (PyStr.strip raw)
                (strip_no_linebreak raw Hlines)) as Hpieces.
  rewrite List.Forall_forall in Hpieces.
  destruct (Hpieces piece Hpiece) as [Hl Hd].
  apply strip_tidy; assumption.
Qed.

(** X26. The text [fetch_wikipedia_article] returns after its cleaning
    is one tidy line: it neither begins nor ends with whitespace, holds no
    line boundary and never two spaces in a row. *)
Theorem clean_text_is_one_tidy_line (text : string) :
  PyStr.strip (clean_text text) = clean_text text /\
  has_linebreak (clean_text text) = false /\
  has_double_space (clean_text text) = false.
Proof.
  unfold clean_text. cbv zeta.
  pose proof (clean_text_chunks text) as Hchunks.
  destruct (List.filter PyStr.truthy _) as [|x l] eqn:E.
  - repeat split.
  - pose proof (join_space_tidy (x :: l) Hchunks ltac:(discriminate)) as Ht.
    split; [exact (tidy_strip _ Ht)|]. destruct Ht as [_ [_ [Hl Hd]]]. tauto.
Qed.

(** *** Cleaning twice *)

Lemma splitlines_one_line (s : string) :
  has_linebreak s = false ->
  splitlines s = match s with EmptyString => [] | _ => [s] end.
Proof.
  induction s as [|c s IH]; [reflexivity|]. rewrite has_linebreak_cons.
  intros H. apply orb_false_iff in H. destruct H as [Hc Hs].
  cbn [splitlines]. rewrite Hc, (IH Hs). destruct s; reflexivity.
Qed.

Lemma split_double_space_one_phrase (s : string) :
  has_double_space s = false -> split_double_space s = [s].
Proof.
  induction s as [|c s IH]; [reflexivity|]. intros H.
  pose proof (has_double_space_tail _ _ H) as Hs. specialize (IH Hs).
  cbn [has_double_space] in H. apply orb_false_iff in H. destruct H as [Hh _].
  cbn [split_double_space]. destruct s as [|c2 s2]; [reflexivity|].
  simpl in Hh. rewrite Hh, IH. reflexivity.
Qed.

Lemma clean_text_tidy (s : string) : tidy s -> clean_text s = s.
Proof.
  intros Ht. pose proof (tidy_strip s Ht) as Hstrip.
  pose proof Ht as [Hh [_ [Hl Hd]]].
  unfold clean_text. cbv zeta. rewrite (splitlines_one_line s Hl).
  destruct s as [|c s]; [destruct Hh|].
  cbn [map flat_map]. rewrite Hstrip, (split_double_space_one_phrase _ Hd).
  cbn [app map]. rewrite Hstrip. reflexivity.
Qed.

(** X27. Cleaning is idempotent: a text that went through
    [clean_text] comes out of it unchanged. *)
Theorem clean_text_idempotent (text : string) :
  clean_text (clean_text text) = clean_text text.
Proof.
  pose proof (clean_text_chunks text) as Hchunks.
  unfold clean_text at 2 3. cbv zeta.
  destruct (List.filter PyStr.truthy _) as [|x l] eqn:E; [reflexivity|].
  apply clean_text_tidy, join_space_tidy; [exact Hchunks | discriminate].
Qed.

(* ===================================================================== *)
(** * Further instances *)
(* ===================================================================== *)

(** ** The cache *)

Lemma set_then_get_round_trip_witness :
  cache_enabled (env_settings (env_demo default_settings)) = true /\
  PyStr.strip (PyStr.lower "  ROCQ ") = PyStr.strip (PyStr.lower "Rocq") /\
  get (env_demo default_settings) "  ROCQ "
    (snd (set (env_demo default_settings) "Rocq" "A proof assistant."
            (initial_world default_settings)))
  = (Ok (Some "A proof assistant."%string),
     tick (snd (set (env_demo default_settings) "Rocq" "A proof assistant."
                  (initial_world default_settings)))).
Proof.
  split; [reflexivity|]. split; [vm_compute; reflexivity|].
  apply (set_then_get_round_trip (env_demo default_settings)
           (initial_world default_settings) "Rocq" "  ROCQ " "A proof assistant.");
    vm_compute; reflexivity.
Defined.

Lemma expired_entry_counts_until_read_witness :
  cache_enabled (env_settings env_hourly) = true /\
  cache world_stale.(w_cache) !! _generate_key "Rocq"
  = Some ("A proof assistant."%string, 0%Q) /\
  fst (get env_hourly "Rocq" world_stale) = Ok None /\
  (exists n, size world_stale = (Ok (n + 1), world_stale) /\
             size (snd (get env_hourly "Rocq" world_stale))
             = (Ok n, snd (get env_hourly "Rocq" world_stale))) /\
  get env_hourly "Rocq" (snd (get env_hourly "Rocq" world_stale))
  = (Ok None, snd (get env_hourly "Rocq" world_stale)).
Proof.
  assert (Hstored : cache world_stale.(w_cache) !! _generate_key "Rocq"
                    = Some ("A proof assistant."%string, 0%Q))
    by (vm_compute; reflexivity).
  assert (Hold : (inject_Z (ttl (w_cache world_stale))
                  <= clock env_hourly (w_clock_reads world_stale) - 0)%Q)
    by (apply Qle_bool_iff; vm_compute; reflexivity).
  split; [reflexivity|]. split; [exact Hstored|].
  exact (expired_entry_counts_until_read env_hourly world_stale "Rocq"
              "A proof assistant." 0%Q eq_refl Hstored Hold).
Defined.

Lemma set_grows_size_for_new_keys_only_witness :
  cache_enabled (env_settings (env_demo default_settings)) = true /\
  fst (size (snd (set (env_demo default_settings) "Rocq" "A proof assistant."
                    (initial_world default_settings)))) = Ok 1 /\
  fst (size (snd (set (env_demo default_settings) " rocq" "A theorem prover."
                    world_cached))) = Ok 1.
Proof.
  split; [reflexivity|]. split.
  - destruct (set_grows_size_for_new_keys_only (env_demo default_settings)
                (initial_world default_settings) "Rocq" "A proof assistant." eq_refl)
      as [_ H].
    exact H.
  - destruct (set_grows_size_for_new_keys_only (env_demo default_settings)
                world_cached " rocq" "A theorem prover." eq_refl)
      as [_ H].
    rewrite H. vm_compute. reflexivity.
Defined.

(** ** The rate limiter *)

Lemma is_allowed_returns_when_limit_positive_witness :
  1 <= requests_per_minute (w_rate_limiter world_checked) /\
  exists allowed retry_after w',
    is_allowed (env_demo default_settings) "10.0.0.7" world_checked
    = (Ok (allowed, retry_after), w').
Proof.
  assert (H : 1 <= requests_per_minute (w_rate_limiter world_checked))
    by (vm_compute; discriminate).
  split; [exact H|].
  exact (is_allowed_returns_when_limit_positive (env_demo default_settings)
           world_checked "10.0.0.7" H).
Defined.

Lemma is_allowed_with_limit_below_one_witness :
  rate_limit_enabled (env_settings (env_demo default_settings)) = true /\
  requests_per_minute (w_rate_limiter world_limit_zero) <= 0 /\
  is_allowed (env_demo default_settings) "10.0.0.7" world_limit_zero
  = (Raise ValueError, set_window "10.0.0.7" [] (tick world_limit_zero)).
Proof.
  assert (H : requests_per_minute (w_rate_limiter world_limit_zero) <= 0)
    by (vm_compute; discriminate).
  split; [reflexivity|]. split; [exact H|].
  destruct (is_allowed_with_limit_below_one (env_demo default_settings)
              world_limit_zero "10.0.0.7" eq_refl H) as [_ Hraise].
  apply Hraise. vm_compute. reflexivity.
Defined.

Lemma is_allowed_isolates_clients_witness :
  "10.0.0.7"%string <> "10.0.0.8"%string /\
  requests (w_rate_limiter
              (snd (is_allowed (env_demo default_settings) "10.0.0.8" world_checked)))
    !! "10.0.0.7"%string
  = Some [0%Q].
Proof.
  assert (H : "10.0.0.7"%string <> "10.0.0.8"%string) by discriminate.
  split; [exact H|].
  destruct (is_allowed_isolates_clients (env_demo default_settings) world_checked
              "10.0.0.8" "10.0.0.7" H) as [Hreq _].
  rewrite Hreq. vm_compute. reflexivity.
Defined.

Lemma is_allowed_keeps_window_fresh_and_bounded_witness :
  rate_limit_enabled (env_settings (env_demo default_settings)) = true /\
  is_Some (requests (w_rate_limiter
                       (snd (is_allowed (env_demo default_settings) "10.0.0.7"
                               world_checked)))
             !! "10.0.0.7"%string) /\
  len (window (w_rate_limiter
                 (snd (is_allowed (env_demo default_settings) "10.0.0.7"
                         world_checked))) "10.0.0.7")
  <= requests_per_minute (w_rate_limiter world_checked).
Proof.
  split; [reflexivity|].
  destruct (is_allowed_keeps_window_fresh_and_bounded (env_demo default_settings)
              world_checked "10.0.0.7" eq_refl) as [Hsome [_ Hbound]].
  split; [exact Hsome|]. apply Hbound. vm_compute. discriminate.
Defined.

Lemma reset_clears_one_client_witness :
  requests (w_rate_limiter world_checked) !! "10.0.0.7"%string = Some [0%Q] /\
  is_allowed (env_demo default_settings) "10.0.0.7"
    (snd (reset "10.0.0.7" world_checked))
  = (Ok (true, None),
     set_window "10.0.0.7" [clock (env_demo default_settings) 1]
       (tick (snd (reset "10.0.0.7" world_checked)))).
Proof.
  split; [vm_compute; reflexivity|].
  destruct (reset_clears_one_client (env_demo default_settings) world_checked
              "10.0.0.7") as [_ [_ [_ [_ H]]]].
  apply H; [reflexivity | vm_compute; discriminate].
Defined.

(** ** The token budget *)

Lemma truncated_text_fits_the_budget_witness :
  0 <= 4 /\
  exists text',
    truncate_to_tokens (env_demo default_settings) "Rocq is a proof assistant." 4
      "gpt-4o-mini" = Ok text' /\
    count_tokens (env_demo default_settings) text' "gpt-4o-mini" <= 4.
Proof.
  split; [lia|].
  apply (truncated_text_fits_the_budget (env_demo default_settings)
           "Rocq is a proof assistant." "gpt-4o-mini" 4 char_encoding
           (PyStr.encode "Rocq is a proof assistant."));
    [reflexivity | reflexivity | lia | vm_compute; reflexivity].
Defined.

(** ** The workflows *)

Lemma summarize_without_cache_witness :
  cache_enabled (env_settings (env_demo settings_uncached)) = false /\
  w_cache (snd (summarize_wikipedia (env_demo settings_uncached) " Rocq "
                  (initial_world settings_uncached)))
  = w_cache (initial_world settings_uncached) /\
  w_fetch_log (snd (summarize_wikipedia (env_demo settings_uncached) " Rocq "
                      (initial_world settings_uncached)))
  = ["Rocq"%string].
Proof.
  split; [reflexivity|].
  destruct (summarize_without_cache (env_demo settings_uncached)
              (initial_world settings_uncached) " Rocq " eq_refl)
    as [_ [Hcache [_ Hlog]]].
  split; [exact Hcache | exact Hlog].
Defined.

Lemma chat_uses_the_cached_article_witness :
  get_article (env_demo default_settings) "Rocq" world_cached
  = (Ok (Some "Rocq is a proof assistant."%string), tick world_cached) /\
  fst (chat_about_article (env_demo default_settings) " Rocq " " What is Rocq? "
         world_cached)
  = Ok {| chat_question := "What is Rocq?"; chat_answer := "A proof assistant.";
          chat_article_query := "Rocq" |} /\
  w_fetch_log (snd (chat_about_article (env_demo default_settings) " Rocq "
                      " What is Rocq? " world_cached))
  = w_fetch_log world_cached.
Proof.
  assert (Hhit : get_article (env_demo default_settings) (PyStr.strip " Rocq ")
                   world_cached
                 = (Ok (Some "Rocq is a proof assistant."%string), tick world_cached))
    by (vm_compute; reflexivity).
  assert (Htrunc : truncate_to_tokens (env_demo default_settings)
                     "Rocq is a proof assistant."
                     (max_input_tokens (env_settings (env_demo default_settings)) - 500)
                     "gpt-4o-mini"
                   = Ok "Rocq is a proof assistant."%string)
    by (vm_compute; reflexivity).
  split; [exact Hhit|].
  destruct (chat_uses_the_cached_article (env_demo default_settings) world_cached
              (tick world_cached) " Rocq " " What is Rocq? "
              "Rocq is a proof assistant." "Rocq is a proof assistant."
              Hhit eq_refl Htrunc) as [Hrun [Hlog _]].
  rewrite Hrun. split; [vm_compute; reflexivity | exact Hlog].
Defined.

Lemma chat_without_article_witness :
  chat_about_article env_down " Rocq " " What is Rocq? " (initial_world default_settings)
  = (Raise (ArticleNotFoundError "Rocq"),
     log_fetch "Rocq" (initial_world default_settings)).
Proof.
  assert (Hmiss : get_article env_down (PyStr.strip " Rocq ")
                    (initial_world default_settings)
                  = (Ok None, initial_world default_settings))
    by (vm_compute; reflexivity).
  destruct (chat_without_article env_down (initial_world default_settings)
              (initial_world default_settings) " Rocq " " What is Rocq? " None
              Hmiss eq_refl eq_refl) as [Hrun _].
  exact Hrun.
Defined.

Lemma chat_stores_the_fetched_article_witness :
  article_cache
    (w_cache (snd (chat_about_article (env_demo default_settings) " Rocq "
                     " What is Rocq? " (initial_world default_settings))))
    !! _generate_key "Rocq"
  = Some ("Rocq is a proof assistant."%string, 0%Q) /\
  w_fetch_log (snd (chat_about_article (env_demo default_settings) " Rocq "
                      " What is Rocq? " (initial_world default_settings)))
  = ["Rocq"%string].
Proof.
  assert (Hmiss : get_article (env_demo default_settings) (PyStr.strip " Rocq ")
                    (initial_world default_settings)
                  = (Ok None, initial_world default_settings))
    by (vm_compute; reflexivity).
  assert (Hfetch : fetch_result (env_demo default_settings)
                     (length (w_fetch_log (initial_world default_settings)))
                     (PyStr.strip " Rocq ")
                   = Some ("Rocq is a proof assistant."%string,
                           "https://en.wikipedia.org/wiki/Rocq_(software)"%string))
    by (vm_compute; reflexivity).
  exact (chat_stores_the_fetched_article (env_demo default_settings)
           (initial_world default_settings) (initial_world default_settings)
           " Rocq " " What is Rocq? " "Rocq is a proof assistant."
           "https://en.wikipedia.org/wiki/Rocq_(software)" None
           eq_refl Hmiss eq_refl Hfetch eq_refl).
Defined.

Lemma summarized_article_serves_chat_witness :
  summarize_wikipedia (env_demo default_settings) "Rocq" (initial_world default_settings)
  = (Ok (response_demo "A proof assistant."), world_after (env_demo default_settings)) /\
  exists article_text,
    PyStr.truthy article_text = true /\
    get_article (env_demo default_settings) "Rocq" (world_after (env_demo default_settings))
    = (Ok (Some article_text), tick (world_after (env_demo default_settings))) /\
    w_fetch_log (snd (chat_about_article (env_demo default_settings) "Rocq"
                        "What is Rocq?" (world_after (env_demo default_settings))))
    = w_fetch_log (world_after (env_demo default_settings)).
Proof.
  assert (Hmiss : get (env_demo default_settings) (PyStr.strip "Rocq")
                    (initial_world default_settings)
                  = (Ok None, initial_world default_settings))
    by (vm_compute; reflexivity).
  assert (Hrun : summarize_wikipedia (env_demo default_settings) "Rocq"
                   (initial_world default_settings)
                 = (Ok (response_demo "A proof assistant."),
                    world_after (env_demo default_settings)))
    by (vm_compute; reflexivity).
  assert (Hfresh : (clock (env_demo default_settings)
                      (w_clock_reads (world_after (env_demo default_settings)))
                    - clock (env_demo default_settings)
                        (w_clock_reads (initial_world default_settings))
                    < inject_Z (ttl (w_cache (world_after (env_demo default_settings)))))%Q)
    by (vm_compute; reflexivity).
  split; [exact Hrun|].
  exact (summarized_article_serves_chat (env_demo default_settings)
           (initial_world default_settings) (initial_world default_settings)
           (world_after (env_demo default_settings)) "Rocq" "What is Rocq?" None
           (response_demo "A proof assistant.") eq_refl Hmiss eq_refl Hrun Hfresh).
Defined.
